(** * goclassifyit: classification banners on raster images

    A shallow embedding of [main.go]: the banner compositor inside
    [processImage] (canvas allocation, banner fill, source copy, label
    placement and drawing), the per-file pipeline around it, the batch
    driver [processDirectory], and [main] with its flags, its messages and
    its exit status.

    The Go packages that [main.go] calls ([image], [image/color],
    [image/draw], [golang.org/x/image/font], [golang.org/x/image/math/fixed])
    are embedded as small modules of the same names, restricted to the
    functions and the code paths that [main.go] reaches.  Go's [int] is the
    64-bit integer of the amd64 and arm64 builds of [build.sh]; every
    arithmetic operation on it wraps around explicitly.  The operating
    system, the decoders, the encoders and the font are an outside world
    that answers the calls of the program. *)

From Stdlib Require Import ZArith List String Ascii Bool Lia.
From Stdlib Require Import SpecFloat.
Import ListNotations.
Local Open Scope Z_scope.

(* ===================================================================== *)
(** ** Go integers *)
(* ===================================================================== *)

Module GoInt.

Definition minInt : Z := - 2 ^ 63.
Definition maxInt : Z := 2 ^ 63 - 1.

(** Two's complement reduction of a mathematical integer to [int]. *)
Definition wrap (z : Z) : Z := (z + 2 ^ 63) mod 2 ^ 64 - 2 ^ 63.

Definition add (a b : Z) : Z := wrap (a + b).
Definition sub (a b : Z) : Z := wrap (a - b).
Definition mul (a b : Z) : Z := wrap (a * b).
(** Go's [/] on integers truncates toward zero. *)
Definition quot (a b : Z) : Z := wrap (Z.quot a b).

Definition inRange (z : Z) : Prop := minInt <= z <= maxInt.

End GoInt.

(** [uint8(v)] and [uint32(v)] conversions. *)
Definition uint8 (v : Z) : Z := v mod 256.
Definition uint32 (v : Z) : Z := v mod 2 ^ 32.

(* ===================================================================== *)
(** ** Package [image/color] *)
(* ===================================================================== *)

Module color.

(** What the [color.Color] interface lets one observe of a colour: the
    result of its only method [RGBA()], four alpha-premultiplied channels
    in [0, 0xffff]. *)
Record Color : Type := mkColor { cr : Z; cg : Z; cb : Z; ca : Z }.

(** [color.RGBA]: four [uint8] fields. *)
Record RGBA : Type := mkRGBA { R : Z; G : Z; B : Z; A : Z }.

Definition wf (c : RGBA) : Prop :=
  0 <= R c <= 255 /\ 0 <= G c <= 255 /\ 0 <= B c <= 255 /\ 0 <= A c <= 255.

(** [func (c RGBA) RGBA() (r, g, b, a uint32)]: [r |= r << 8] and so on. *)
Definition RGBA_RGBA (c : RGBA) : Color :=
  mkColor (Z.lor (R c) (Z.shiftl (R c) 8))
          (Z.lor (G c) (Z.shiftl (G c) 8))
          (Z.lor (B c) (Z.shiftl (B c) 8))
          (Z.lor (A c) (Z.shiftl (A c) 8)).

(** [rgbaModel] on a colour that is not already a [color.RGBA]:
    [RGBA{uint8(r >> 8), uint8(g >> 8), uint8(b >> 8), uint8(a >> 8)}]. *)
Definition rgbaModel (c : Color) : RGBA :=
  mkRGBA (uint8 (Z.shiftr (cr c) 8)) (uint8 (Z.shiftr (cg c) 8))
         (uint8 (Z.shiftr (cb c) 8)) (uint8 (Z.shiftr (ca c) 8)).

(** The zero value [color.RGBA{}]. *)
Definition zero : RGBA := mkRGBA 0 0 0 0.

End color.

(* ===================================================================== *)
(** ** Package [image] *)
(* ===================================================================== *)

Module image.

Record Point : Type := Pt { X : Z; Y : Z }.
Record Rectangle : Type := mkRectangle { Min : Point; Max : Point }.

(** [func Rect(x0, y0, x1, y1 int) Rectangle] swaps the coordinates that
    are out of order. *)
Definition Rect (x0 y0 x1 y1 : Z) : Rectangle :=
  let '(x0, x1) := if x0 >? x1 then (x1, x0) else (x0, x1) in
  let '(y0, y1) := if y0 >? y1 then (y1, y0) else (y0, y1) in
  mkRectangle (Pt x0 y0) (Pt x1 y1).

Definition ZR : Rectangle := mkRectangle (Pt 0 0) (Pt 0 0).

Definition Dx (r : Rectangle) : Z := GoInt.sub (X (Max r)) (X (Min r)).
Definition Dy (r : Rectangle) : Z := GoInt.sub (Y (Max r)) (Y (Min r)).

Definition Empty (r : Rectangle) : bool :=
  (X (Min r) >=? X (Max r)) || (Y (Min r) >=? Y (Max r)).

Definition PointAdd (p q : Point) : Point :=
  Pt (GoInt.add (X p) (X q)) (GoInt.add (Y p) (Y q)).
Definition PointSub (p q : Point) : Point :=
  Pt (GoInt.sub (X p) (X q)) (GoInt.sub (Y p) (Y q)).

(** [func (r Rectangle) Add(p Point) Rectangle]. *)
Definition RectAdd (r : Rectangle) (p : Point) : Rectangle :=
  mkRectangle (PointAdd (Min r) p) (PointAdd (Max r) p).

(** [func (p Point) In(r Rectangle) bool]. *)
Definition PointIn (p : Point) (r : Rectangle) : bool :=
  (X (Min r) <=? X p) && (X p <? X (Max r)) &&
  (Y (Min r) <=? Y p) && (Y p <? Y (Max r)).

(** [func (r Rectangle) Intersect(s Rectangle) Rectangle]. *)
Definition Intersect (r s : Rectangle) : Rectangle :=
  let minx := if X (Min r) <? X (Min s) then X (Min s) else X (Min r) in
  let miny := if Y (Min r) <? Y (Min s) then Y (Min s) else Y (Min r) in
  let maxx := if X (Max r) >? X (Max s) then X (Max s) else X (Max r) in
  let maxy := if Y (Max r) >? Y (Max s) then Y (Max s) else Y (Max r) in
  let r' := mkRectangle (Pt minx miny) (Pt maxx maxy) in
  if Empty r' then ZR else r'.

(** The [image.Image] interface: [Bounds()] and [At(x, y)], the colour
    seen through [color.Color]. *)
Record Image : Type := mkImage {
  Bounds : Rectangle;
  At : Z -> Z -> color.Color
}.

(** [*image.RGBA]: the pixel store is seen as a function of the pixel
    coordinates instead of the [Pix] slice and its [Stride]. *)
Record RGBA : Type := mkRGBA {
  Pix : Z -> Z -> color.RGBA;
  RGBARect : Rectangle
}.

(** [func (p *RGBA) RGBAAt(x, y int) color.RGBA]. *)
Definition RGBAAt (p : RGBA) (x y : Z) : color.RGBA :=
  if PointIn (Pt x y) (RGBARect p) then Pix p x y else color.zero.

(** [*image.Alpha], the type of glyph masks. *)
Record Alpha : Type := mkAlpha {
  APix : Z -> Z -> Z;
  AlphaRect : Rectangle
}.

(** [func (c *Uniform) Bounds() Rectangle] is
    [Rectangle{Point{-1e9, -1e9}, Point{1e9, 1e9}}]. *)
Definition Uniform (c : color.RGBA) : Image :=
  mkImage (mkRectangle (Pt (-1000000000) (-1000000000))
                       (Pt 1000000000 1000000000))
          (fun _ _ => color.RGBA_RGBA c).

(** [mul3NonNeg(x, y, z)]: the product, or -1 when an argument is
    negative or a partial product overflows [int]. *)
Definition mul3NonNeg (x y z : Z) : Z :=
  if (x <? 0) || (y <? 0) || (z <? 0) then -1
  else if x * y >=? 2 ^ 64 then -1
  else if ((x * y) mod 2 ^ 64) * z >=? 2 ^ 64 then -1
  else let a := GoInt.wrap (((x * y) mod 2 ^ 64) * z) in
       if a <? 0 then -1 else a.

(** [maxAlloc] of the Go runtime, the largest size of one allocation:
    [1 << heapAddrBits], with the 48 address bits of amd64 and arm64. *)
Definition maxAlloc : Z := 2 ^ 48.

(** [func NewRGBA(r Rectangle) *RGBA], that is
    [&RGBA{Pix: make([]uint8, pixelBufferLength(4, r, "RGBA")), ...}].
    [None] stands for its two panics: "NewRGBA Rectangle has huge or
    negative dimensions" of [pixelBufferLength] when the length does not
    fit in an [int], and "makeslice: len out of range" of [make] when the
    length is above [maxAlloc].  Below that the runtime is taken to have
    the memory; a new image is zeroed. *)
Definition NewRGBA (r : Rectangle) : option RGBA :=
  let totalLength := mul3NonNeg 4 (Dx r) (Dy r) in
  if totalLength <? 0 then None
  else if totalLength >? maxAlloc then None
  else Some (mkRGBA (fun _ _ => color.zero) r).

End image.

(* ===================================================================== *)
(** ** Package [image/draw] *)
(* ===================================================================== *)

Module draw.
Import image.

(** [func clip(dst Image, r *image.Rectangle, src image.Image,
    sp *image.Point, mask image.Image, mp *image.Point)]. *)
Definition clip (dstB r srcB : Rectangle) (sp : Point)
    (maskB : option Rectangle) (mp : Point) : Rectangle * Point * Point :=
  let orig := Min r in
  let r1 := Intersect r dstB in
  let r2 := Intersect r1 (RectAdd srcB (PointSub orig sp)) in
  let r3 := match maskB with
            | Some mb => Intersect r2 (RectAdd mb (PointSub orig mp))
            | None => r2
            end in
  let dx := GoInt.sub (X (Min r3)) (X orig) in
  let dy := GoInt.sub (Y (Min r3)) (Y orig) in
  if (dx =? 0) && (dy =? 0) then (r3, sp, mp)
  else (r3, Pt (GoInt.add (X sp) dx) (GoInt.add (Y sp) dy),
            Pt (GoInt.add (X mp) dx) (GoInt.add (Y mp) dy)).

(** [draw.Draw(dst, r, src, sp, draw.Src)] on an [*image.RGBA]
    destination.  Whatever the dynamic type of [src] ([drawFillSrc] for a
    uniform, [drawCopySrc], [drawNRGBASrc], [DrawYCbCr], ..., or the
    general loop of [drawRGBA]), the bytes stored for a pixel are the high
    bytes of the four channels of [src.At(sx, sy).RGBA()]. *)
Definition Draw_Src (dst : RGBA) (r : Rectangle) (src : Image) (sp : Point)
    : RGBA :=
  let '(r', sp', _) := clip (RGBARect dst) r (Bounds src) sp None (Pt 0 0) in
  if Empty r' then dst
  else mkRGBA
         (fun x y =>
            if PointIn (Pt x y) r'
            then color.rgbaModel
                   (At src (GoInt.add (X sp') (GoInt.sub x (X (Min r'))))
                           (GoInt.add (Y sp') (GoInt.sub y (Y (Min r')))))
            else Pix dst x y)
         (RGBARect dst).

(** The constant [m = 1<<16 - 1]. *)
Definition m : Z := 65535.

(** One channel of [drawGlyphOver]:
    [uint8((uint32(d)*a + s*ma) / m >> 8)]. *)
Definition overChannel (d a s ma : Z) : Z :=
  uint8 (Z.shiftr (uint32 (uint32 (d * a) + uint32 (s * ma)) / m) 8).

(** The body of the inner loop of [drawGlyphOver] for one pixel whose mask
    byte is [ma0]. *)
Definition glyphOverPixel (d : color.RGBA) (s : color.Color) (ma0 : Z)
    : color.RGBA :=
  if ma0 =? 0 then d
  else
    let ma := Z.lor ma0 (Z.shiftl ma0 8) in
    let a := uint32 ((m - (uint32 (color.ca s * ma) / m)) * 257) in
    color.mkRGBA (overChannel (color.R d) a (color.cr s) ma)
                 (overChannel (color.G d) a (color.cg s) ma)
                 (overChannel (color.B d) a (color.cb s) ma)
                 (overChannel (color.A d) a (color.ca s) ma).

(** The mask byte that [drawGlyphOver] reads for the destination pixel
    [(x, y)] of the clipped rectangle [r'], the mask being read from
    [mp']. *)
Definition maskByte (mask : Alpha) (r' : Rectangle) (mp' : Point) (x y : Z)
    : Z :=
  APix mask (GoInt.add (X mp') (GoInt.sub x (X (Min r'))))
            (GoInt.add (Y mp') (GoInt.sub y (Y (Min r')))).

(** [draw.DrawMask(dst, r, src, image.Point{}, mask, mp, draw.Over)] with
    an [*image.RGBA] destination, an [*image.Uniform] source and an
    [*image.Alpha] mask: the [drawGlyphOver] path. *)
Definition DrawMask_GlyphOver (dst : RGBA) (r : Rectangle) (src : color.RGBA)
    (mask : Alpha) (mp : Point) : RGBA :=
  let '(r', _, mp') :=
    clip (RGBARect dst) r (Bounds (Uniform src)) (Pt 0 0)
         (Some (AlphaRect mask)) mp in
  if Empty r' then dst
  else mkRGBA
         (fun x y =>
            if PointIn (Pt x y) r'
            then glyphOverPixel (Pix dst x y) (color.RGBA_RGBA src)
                                (maskByte mask r' mp' x y)
            else Pix dst x y)
         (RGBARect dst).

(** Whether that call puts ink on the pixel [(x, y)]: the pixel is in the
    clipped rectangle and its mask byte is not zero. *)
Definition glyphInk (dstB : Rectangle) (r : Rectangle) (src : color.RGBA)
    (mask : Alpha) (mp : Point) (x y : Z) : bool :=
  let '(r', _, mp') :=
    clip dstB r (Bounds (Uniform src)) (Pt 0 0) (Some (AlphaRect mask)) mp in
  negb (Empty r') && PointIn (Pt x y) r' &&
  negb (maskByte mask r' mp' x y =? 0).

End draw.

(* ===================================================================== *)
(** ** Package [golang.org/x/image/math/fixed] *)
(* ===================================================================== *)

Module fixed.

(** [Int26_6] is an [int32]. *)
Definition wrap32 (z : Z) : Z := (z + 2 ^ 31) mod 2 ^ 32 - 2 ^ 31.

(** [func I(i int) Int26_6 { return Int26_6(i << 6) }]. *)
Definition I (i : Z) : Z := wrap32 (Z.shiftl i 6).

Definition add (a b : Z) : Z := wrap32 (a + b).

(** [func (x Int26_6) Round() int { return int((x + 0x20) >> 6) }]. *)
Definition Round (x : Z) : Z := Z.shiftr (wrap32 (x + 32)) 6.

Record Point26_6 : Type := mkPoint26_6 { PX : Z; PY : Z }.

End fixed.

(* ===================================================================== *)
(** ** Package [golang.org/x/image/font] *)
(* ===================================================================== *)

Module font.

Definition rune : Type := Z.

(** The methods of the [font.Face] interface that [Drawer.DrawString] and
    [MeasureString] call.  [Glyph] returns [dr, mask, maskp, advance]; the
    callers discard the [ok] that comes with them. *)
Record Face : Type := mkFace {
  Glyph : fixed.Point26_6 -> rune ->
          image.Rectangle * image.Alpha * image.Point * Z;
  GlyphAdvance : rune -> Z;
  Kern : rune -> rune -> Z
}.

Definition kerned (f : Face) (dot : fixed.Point26_6) (prevC c : rune)
    : fixed.Point26_6 :=
  if prevC >=? 0
  then fixed.mkPoint26_6 (fixed.add (fixed.PX dot) (Kern f prevC c))
                         (fixed.PY dot)
  else dot.

Definition advanced (dot : fixed.Point26_6) (advance : Z)
    : fixed.Point26_6 :=
  fixed.mkPoint26_6 (fixed.add (fixed.PX dot) advance) (fixed.PY dot).

(** [func (d *Drawer) DrawString(s string)] with [d.Src] a uniform colour
    and [d.Dst] an [*image.RGBA]; [s] is the string already ranged over
    as runes, [prevC] starts at -1.  A glyph is drawn when its rectangle is
    not empty, and the dot advances in either case. *)
Fixpoint DrawString (f : Face) (src : color.RGBA) (dst : image.RGBA)
    (dot : fixed.Point26_6) (prevC : rune) (s : list rune) : image.RGBA :=
  match s with
  | [] => dst
  | c :: s' =>
      let dot1 := kerned f dot prevC c in
      let '(dr, mask, maskp, advance) := Glyph f dot1 c in
      let dst1 :=
        if negb (image.Empty dr)
        then draw.DrawMask_GlyphOver dst dr src mask maskp
        else dst in
      DrawString f src dst1 (advanced dot1 advance) c s'
  end.

(** Whether [DrawString] puts ink on the pixel [(x, y)] of a destination
    of bounds [dstB]. *)
Fixpoint stringInk (f : Face) (src : color.RGBA) (dstB : image.Rectangle)
    (dot : fixed.Point26_6) (prevC : rune) (s : list rune) (x y : Z)
    : bool :=
  match s with
  | [] => false
  | c :: s' =>
      let dot1 := kerned f dot prevC c in
      let '(dr, mask, maskp, advance) := Glyph f dot1 c in
      (negb (image.Empty dr) && draw.glyphInk dstB dr src mask maskp x y)
      || stringInk f src dstB (advanced dot1 advance) c s' x y
  end.

(** [func MeasureString(f Face, s string) (advance fixed.Int26_6)]. *)
Fixpoint MeasureString (f : Face) (advance : Z) (prevC : rune)
    (s : list rune) : Z :=
  match s with
  | [] => advance
  | c :: s' =>
      let advance1 :=
        if prevC >=? 0 then fixed.add advance (Kern f prevC c)
        else advance in
      MeasureString f (fixed.add advance1 (GlyphAdvance f c)) c s'
  end.

End font.

(* ===================================================================== *)
(** ** [float64] arithmetic *)
(* ===================================================================== *)

Module Float64.

Definition prec : Z := 53.
Definition emax : Z := 1024.

(** [float64(i)] for an [int]: round to nearest, ties to even. *)
Definition ofInt (i : Z) : spec_float := binary_normalize prec emax i 0 false.

Definition mul : spec_float -> spec_float -> spec_float := SFmul prec emax.

(** The constant [0.05] as a [float64]: 0x1.999999999999ap-5. *)
Definition c0_05 : spec_float := S754_finite false 7205759403792794 (-57).

(** [int(f)]: the fraction is discarded (truncation toward zero); a value
    that does not fit yields the smallest [int], as on amd64. *)
Definition toInt (f : spec_float) : Z :=
  match f with
  | S754_zero _ => 0
  | S754_finite s mt e =>
      let v := if e >=? 0 then Zpos mt * 2 ^ e else Zpos mt / 2 ^ (- e) in
      let v := if s then - v else v in
      if (GoInt.minInt <=? v) && (v <=? GoInt.maxInt) then v
      else GoInt.minInt
  | _ => GoInt.minInt
  end.

End Float64.

(* ===================================================================== *)
(** ** [main.go]: data *)
(* ===================================================================== *)

Local Open Scope string_scope.
Local Open Scope Z_scope.

(** [type BannerMode struct]. *)
Record BannerMode : Type := mkBannerMode {
  BgColor : color.RGBA;
  TextColor : color.RGBA;
  Text : string
}.

(** [var bannerModes = map[string]BannerMode{...}], as the list of its
    entries. *)
Definition bannerModes : list (string * BannerMode) :=
  [ ("cui",
     mkBannerMode (color.mkRGBA 0 255 0 255) (color.mkRGBA 0 0 0 255) "CUI");
    ("secret",
     mkBannerMode (color.mkRGBA 255 0 0 255) (color.mkRGBA 255 255 255 255)
                  "SECRET");
    ("unclassed",
     mkBannerMode (color.mkRGBA 0 0 0 255) (color.mkRGBA 255 255 255 255)
                  "UNCLASSIFIED");
    ("custom",
     mkBannerMode (color.mkRGBA 255 255 255 255) (color.mkRGBA 0 0 0 255)
                  "CUSTOM") ].

(** [banner, exists = bannerModes[key]]. *)
Fixpoint mapIndex (m : list (string * BannerMode)) (key : string)
    : option BannerMode :=
  match m with
  | [] => None
  | (k, v) :: m' => if String.eqb key k then Some v else mapIndex m' key
  end.

(** [parseRGB] after [fmt.Sscanf] has read the three integers [r], [g],
    [b]: the range check and the colour it builds. *)
Definition parseRGB_scanned (r g b : Z) : option color.RGBA :=
  if (r <? 0) || (r >? 255) || (g <? 0) || (g >? 255)
     || (b <? 0) || (b >? 255)
  then None
  else Some (color.mkRGBA (uint8 r) (uint8 g) (uint8 b) 255).

(** One call [addLabel(newImg, text, x, y, col, face)]. *)
Record LabelCall : Type := mkLabelCall {
  labelText : string;
  labelX : Z;
  labelY : Z;
  labelColor : color.RGBA
}.

(* ===================================================================== *)
(** ** [main.go]: the banner compositor inside [processImage] *)
(* ===================================================================== *)

Section Compositor.

(** [for _, c := range s]: the runes of a Go string. *)
Variable runesOf : string -> list font.rune.

(** [func measureText(face font.Face, text string) int]. *)
Definition measureText (face : font.Face) (text : string) : Z :=
  fixed.Round (font.MeasureString face 0 (-1) (runesOf text)).

(** [func addLabel(img *image.RGBA, text string, x, y int,
    col color.RGBA, face font.Face)]. *)
Definition addLabel (img : image.RGBA) (text : string) (x y : Z)
    (col : color.RGBA) (face : font.Face) : image.RGBA :=
  font.DrawString face col img
    (fixed.mkPoint26_6 (fixed.I x) (fixed.I y)) (-1) (runesOf text).

(** Whether that call puts ink on the pixel [(px, py)]. *)
Definition labelInk (dstB : image.Rectangle) (face : font.Face)
    (c : LabelCall) (px py : Z) : bool :=
  font.stringInk face (labelColor c) dstB
    (fixed.mkPoint26_6 (fixed.I (labelX c)) (fixed.I (labelY c))) (-1)
    (runesOf (labelText c)) px py.

(** [marginX := int(0.05 * float64(width))]. *)
Definition marginX (width : Z) : Z :=
  Float64.toInt (Float64.mul Float64.c0_05 (Float64.ofInt width)).

(** [topY := bannerHeight/2 + 10]. *)
Definition topY (bannerHeight : Z) : Z :=
  GoInt.add (GoInt.quot bannerHeight 2) 10.

(** [botY := (newHeight - bannerHeight/2) + 10]. *)
Definition botY (newHeight bannerHeight : Z) : Z :=
  GoInt.add (GoInt.sub newHeight (GoInt.quot bannerHeight 2)) 10.

(** [centerX := width/2 - (txtWidth / 2)]. *)
Definition centerX (width txtWidth : Z) : Z :=
  GoInt.sub (GoInt.quot width 2) (GoInt.quot txtWidth 2).

(** The [switch loc] of [processImage]: the calls of [addLabel] it makes,
    in order. *)
Definition labelCalls (loc : string) (banner : BannerMode)
    (width bannerHeight newHeight : Z) (face : font.Face)
    : list LabelCall :=
  if String.eqb loc "corners" then
    let marginX := marginX width in
    let topY := topY bannerHeight in
    let botY := botY newHeight bannerHeight in
    let txtWidth := measureText face (Text banner) in
    [ mkLabelCall (Text banner) marginX topY (TextColor banner);
      mkLabelCall (Text banner)
        (GoInt.sub (GoInt.sub width marginX) txtWidth) topY
        (TextColor banner);
      mkLabelCall (Text banner) marginX botY (TextColor banner);
      mkLabelCall (Text banner)
        (GoInt.sub (GoInt.sub width marginX) txtWidth) botY
        (TextColor banner) ]
  else
    let topY := topY bannerHeight in
    let botY := botY newHeight bannerHeight in
    let txtWidth := measureText face (Text banner) in
    let centerX := centerX width txtWidth in
    [ mkLabelCall (Text banner) centerX topY (TextColor banner);
      mkLabelCall (Text banner) centerX botY (TextColor banner) ].

(** The calls of [addLabel] applied one after the other to the canvas. *)
Definition drawLabels (newImg : image.RGBA) (face : font.Face)
    (calls : list LabelCall) : image.RGBA :=
  fold_left
    (fun img c =>
       addLabel img (labelText c) (labelX c) (labelY c) (labelColor c) face)
    calls newImg.

(** Whether one of the calls puts ink on the pixel [(px, py)]. *)
Definition inkAt (dstB : image.Rectangle) (face : font.Face)
    (calls : list LabelCall) (px py : Z) : bool :=
  existsb (fun c => labelInk dstB face c px py) calls.

(** [newHeight := height + 2*bannerHeight]. *)
Definition newHeightOf (height bannerHeight : Z) : Z :=
  GoInt.add height (GoInt.mul 2 bannerHeight).

(** Lines 222 to 243 of [processImage]: the canvas, the two banner fills
    and the copy of the source.  [None] is the panic of [image.NewRGBA]. *)
Definition buildCanvas (img : image.Image) (banner : BannerMode)
    (bannerHeight : Z) : option image.RGBA :=
  let bounds := image.Bounds img in
  let width := image.Dx bounds in
  let height := image.Dy bounds in
  let newHeight := newHeightOf height bannerHeight in
  match image.NewRGBA (image.Rect 0 0 width newHeight) with
  | None => None
  | Some newImg =>
      let topBanner := image.Rect 0 0 width bannerHeight in
      let bottomBanner :=
        image.Rect 0 (GoInt.sub newHeight bannerHeight) width newHeight in
      let newImg :=
        draw.Draw_Src newImg topBanner (image.Uniform (BgColor banner))
                      (image.Pt 0 0) in
      let newImg :=
        draw.Draw_Src newImg bottomBanner (image.Uniform (BgColor banner))
                      (image.Pt 0 0) in
      let newImg :=
        draw.Draw_Src newImg
          (image.Rect 0 bannerHeight width (GoInt.add bannerHeight height))
          img (image.Min bounds) in
      Some newImg
  end.

(** Lines 251 to 289: the labels drawn on the canvas with a loaded face. *)
Definition labelCanvas (img : image.Image) (banner : BannerMode)
    (bannerHeight : Z) (loc : string) (face : font.Face)
    (newImg : image.RGBA) : image.RGBA :=
  let width := image.Dx (image.Bounds img) in
  let height := image.Dy (image.Bounds img) in
  let newHeight := newHeightOf height bannerHeight in
  drawLabels newImg face
    (labelCalls loc banner width bannerHeight newHeight face).

(** What the annotation of one decoded image ends in. *)
Inductive Annotated : Type :=
| Canvas (newImg : image.RGBA)
| FontFailed
| Panicked.

(** The annotation of a decoded image, lines 222 to 289: [face] is the
    result of [loadFontFace(36)], [None] when it returns an error. *)
Definition annotate (img : image.Image) (banner : BannerMode)
    (bannerHeight : Z) (loc : string) (face : option font.Face)
    : Annotated :=
  match buildCanvas img banner bannerHeight with
  | None => Panicked
  | Some newImg =>
      match face with
      | None => FontFailed
      | Some face =>
          Canvas (labelCanvas img banner bannerHeight loc face newImg)
      end
  end.

(** The calls of [addLabel] that the annotation of [img] makes. *)
Definition placements (img : image.Image) (banner : BannerMode)
    (bannerHeight : Z) (loc : string) (face : font.Face)
    : list LabelCall :=
  let width := image.Dx (image.Bounds img) in
  let height := image.Dy (image.Bounds img) in
  labelCalls loc banner width bannerHeight
             (newHeightOf height bannerHeight) face.

End Compositor.

(* ===================================================================== *)
(** ** [main.go]: the operating system seen from the program *)
(* ===================================================================== *)

(** The errors that [processImage], [loadFontFace] and [processDirectory]
    build with [fmt.Errorf], by the message they carry. *)
Inductive Error : Type :=
| ErrNotWritable          (* output directory '%s' is not writable *)
| ErrOpenImage            (* failed to open image *)
| ErrDecode               (* failed to decode image '%s'. Ensure ... *)
| ErrUnsupportedFormat (format : string)
                          (* unsupported image format '%s' for file: %s *)
| ErrReadFont             (* unable to read embedded font *)
| ErrParseFont            (* unable to parse font *)
| ErrCreateFace           (* unable to create font face *)
| ErrLoadFontFace (cause : Error)
                          (* failed to load font face: %w *)
| ErrMkdirAll             (* failed to create output directory *)
| ErrCreateOutput         (* failed to create output file *)
| ErrEncode               (* failed to encode image *)
| ErrReadDir              (* failed to read directory *)
| ErrSomeImagesFailed.    (* some images failed to process *)

(** An [os.DirEntry]. *)
Record DirEntry : Type := mkDirEntry { Name : string; IsDir : bool }.

(** The lines that [processDirectory] prints. *)
Inductive Message : Type :=
| MsgErrorProcessing (filePath : string) (err : Error)
| MsgClassified (filePath : string).

(** The calls that leave the program. *)
Inductive Call : Type :=
| OsStat (path : string)
| OsCreate (path : string)
| OsRemove (path : string)
| OsOpen (path : string)
| FileClose (path : string)
| ImageDecode (path : string)
| FontDataReadFile (name : string)
| OpentypeParse
| OpentypeNewFace
| OsMkdirAll (path : string)
| JpegEncode (path : string) (img : image.RGBA)
| PngEncode (path : string) (img : image.RGBA)
| OsReadDir (path : string)
| Print (msg : Message).

(** What comes back.  [ROk b]: the call returned a nil error ([b] true) or
    an error; for [OsStat] the boolean is [os.IsNotExist(err)]. *)
Inductive Resp : Type :=
| ROk (b : bool)
| RDecoded (r : option (image.Image * string))
| RFace (r : option font.Face)
| RDir (r : option (list DirEntry)).

Definition Event : Type := (Call * Resp)%type.

Definition asBool (r : Resp) : bool :=
  match r with ROk b => b | _ => false end.
Definition asDecoded (r : Resp) : option (image.Image * string) :=
  match r with RDecoded d => d | _ => None end.
Definition asFace (r : Resp) : option font.Face :=
  match r with RFace f => f | _ => None end.
Definition asDir (r : Resp) : option (list DirEntry) :=
  match r with RDir d => d | _ => None end.

(** A computation reads the events so far and extends them; [None] as a
    result is a panic. *)
Definition IO (A : Type) : Type := list Event -> option A * list Event.

Definition ret {A : Type} (a : A) : IO A := fun tr => (Some a, tr).

Definition bind {A B : Type} (m : IO A) (k : A -> IO B) : IO B :=
  fun tr =>
    match m tr with
    | (Some a, tr') => k a tr'
    | (None, tr') => (None, tr')
    end.

Definition panic {A : Type} : IO A := fun tr => (None, tr).

(** [defer d]: [d] runs when the body returns or panics. *)
Definition deferring {A : Type} (d : IO Resp) (body : IO A) : IO A :=
  fun tr =>
    let '(r, tr1) := body tr in
    let '(_, tr2) := d tr1 in
    (r, tr2).

Notation "x <- m ;; k" := (bind m (fun x => k))
  (at level 61, m at next level, right associativity).

(** The calls that [processImage] makes only once the canvas is built. *)
Definition afterCanvas (c : Call) : bool :=
  match c with
  | FontDataReadFile _ | OpentypeParse | OpentypeNewFace | OsMkdirAll _
  | JpegEncode _ _ | PngEncode _ _ => true
  | _ => false
  end.

(** The line that [processDirectory] prints for one file. *)
Definition report (filePath : string) (err : option Error) : Message :=
  match err with
  | Some e => MsgErrorProcessing filePath e
  | None => MsgClassified filePath
  end.

Definition failed (o : string * option Error) : bool :=
  match snd o with Some _ => true | None => false end.

Section Pipeline.

Variable runesOf : string -> list font.rune.

(** [filepath.Join] of two elements and [filepath.Base]. *)
Variable Join : string -> string -> string.
Variable Base : string -> string.

(** The answer of the outside world to a call, given the events so far. *)
Variable env : list Event -> Call -> Resp.

Definition call (c : Call) : IO Resp :=
  fun tr => let r := env tr c in (Some r, (tr ++ [(c, r)])%list).

(** [func loadFontFace(fontSize float64) (font.Face, error)]. *)
Definition loadFontFace : IO (Error + font.Face) :=
  rd <- call (FontDataReadFile "fonts/DejaVuSans-Bold.ttf") ;;
  if negb (asBool rd) then ret (inl ErrReadFont) else
  tt <- call OpentypeParse ;;
  if negb (asBool tt) then ret (inl ErrParseFont) else
  face <- call OpentypeNewFace ;;
  match asFace face with
  | None => ret (inl ErrCreateFace)
  | Some face => ret (inr face)
  end.

(** The [switch format] at the end of [processImage]; without a matching
    case [err] stays nil. *)
Definition encode (format outputPath : string) (newImg : image.RGBA)
    : IO bool :=
  if String.eqb format "jpeg" then
    r <- call (JpegEncode outputPath newImg) ;; ret (asBool r)
  else if String.eqb format "png" then
    r <- call (PngEncode outputPath newImg) ;; ret (asBool r)
  else ret true.

(** [func processImage(imagePath string, banner BannerMode,
    outputDir string, bannerHeight int, loc string) error]; the result
    [None] is a nil error. *)
Definition processImage (imagePath : string) (banner : BannerMode)
    (outputDir : string) (bannerHeight : Z) (loc : string)
    : IO (option Error) :=
  notExist <- call (OsStat outputDir) ;;
  writable <-
    (if negb (asBool notExist) then
       let testFile := Join outputDir "test_write.tmp" in
       f <- call (OsCreate testFile) ;;
       if negb (asBool f) then ret false else
       _ <- call (FileClose testFile) ;;
       _ <- call (OsRemove testFile) ;;
       ret true
     else ret true) ;;
  if negb writable then ret (Some ErrNotWritable) else
  file <- call (OsOpen imagePath) ;;
  if negb (asBool file) then ret (Some ErrOpenImage) else
  deferring (call (FileClose imagePath)) (
    decoded <- call (ImageDecode imagePath) ;;
    match asDecoded decoded with
    | None => ret (Some ErrDecode)
    | Some (img, format) =>
        if negb (String.eqb format "jpeg") && negb (String.eqb format "png")
        then ret (Some (ErrUnsupportedFormat format)) else
        match buildCanvas img banner bannerHeight with
        | None => panic
        | Some newImg =>
            face <- loadFontFace ;;
            match face with
            | inl err => ret (Some (ErrLoadFontFace err))
            | inr face =>
                let newImg :=
                  labelCanvas runesOf img banner bannerHeight loc face
                              newImg in
                mk <- call (OsMkdirAll outputDir) ;;
                if negb (asBool mk) then ret (Some ErrMkdirAll) else
                let outputPath := Join outputDir (Base imagePath) in
                outputFile <- call (OsCreate outputPath) ;;
                if negb (asBool outputFile) then ret (Some ErrCreateOutput)
                else
                deferring (call (FileClose outputPath)) (
                  ok <- encode format outputPath newImg ;;
                  if negb ok then ret (Some ErrEncode) else ret None)
            end
        end
    end).

(** The [for _, file := range files] loop of [processDirectory]; the
    result is [hasErrors]. *)
Fixpoint processFiles (dirPath : string) (banner : BannerMode)
    (outputDir : string) (bannerHeight : Z) (loc : string)
    (files : list DirEntry) (hasErrors : bool) : IO bool :=
  match files with
  | [] => ret hasErrors
  | file :: files' =>
      if negb (IsDir file) then
        let filePath := Join dirPath (Name file) in
        err <- processImage filePath banner outputDir bannerHeight loc ;;
        match err with
        | Some e =>
            _ <- call (Print (MsgErrorProcessing filePath e)) ;;
            processFiles dirPath banner outputDir bannerHeight loc files'
                         true
        | None =>
            _ <- call (Print (MsgClassified filePath)) ;;
            processFiles dirPath banner outputDir bannerHeight loc files'
                         hasErrors
        end
      else
        processFiles dirPath banner outputDir bannerHeight loc files'
                     hasErrors
  end.

(** [func processDirectory(dirPath string, banner BannerMode,
    outputDir string, bannerHeight int, loc string) error]. *)
Definition processDirectory (dirPath : string) (banner : BannerMode)
    (outputDir : string) (bannerHeight : Z) (loc : string)
    : IO (option Error) :=
  files <- call (OsReadDir dirPath) ;;
  match asDir files with
  | None => ret (Some ErrReadDir)
  | Some files =>
      hasErrors <-
        processFiles dirPath banner outputDir bannerHeight loc files false ;;
      if hasErrors then ret (Some ErrSomeImagesFailed) else ret None
  end.

(** No decoded image is too large for its canvas: [image.NewRGBA] does
    not panic. *)
Definition canvasesFit (banner : BannerMode) (bh : Z) : Prop :=
  forall tr p img fmt,
    asDecoded (env tr (ImageDecode p)) = Some (img, fmt) ->
    buildCanvas img banner bh <> None.

(** What a run of [processImage] on [imagePath] does about the format:
    [res] is its result and [seg] the events of the run. *)
Definition formatPreserved (imagePath : string) (banner : BannerMode)
    (outputDir : string) (bh : Z) (loc : string)
    (res : option (option Error)) (seg : list Event) : Prop :=
  (forall img fmt,
      In (ImageDecode imagePath, RDecoded (Some (img, fmt))) seg ->
      (forall p out r, In (JpegEncode p out, r) seg -> fmt = "jpeg") /\
      (forall p out r, In (PngEncode p out, r) seg -> fmt = "png") /\
      (res = Some None ->
       exists face out,
         annotate runesOf img banner bh loc (Some face) = Canvas out /\
         (fmt = "jpeg" /\
          In (JpegEncode (Join outputDir (Base imagePath)) out, ROk true)
             seg \/
          fmt = "png" /\
          In (PngEncode (Join outputDir (Base imagePath)) out, ROk true)
             seg)) /\
      (fmt <> "jpeg" -> fmt <> "png" ->
       res = Some (Some (ErrUnsupportedFormat fmt)) /\
       forall c r, In (c, r) seg -> afterCanvas c = false)) /\
  (res = Some None ->
   exists img fmt,
     In (ImageDecode imagePath, RDecoded (Some (img, fmt))) seg).

(** The runs of [processImage] on the files [ps], one after the other
    from the events [tr] to the events [tr'], each followed by the line
    that reports its outcome: [outs] pairs each file with its outcome. *)
Inductive Batch (banner : BannerMode) (outputDir : string) (bh : Z)
    (loc : string) :
    list Event -> list string -> list (string * option Error) ->
    list Event -> Prop :=
| Batch_nil (tr : list Event) : Batch banner outputDir bh loc tr [] [] tr
| Batch_cons (tr : list Event) (p : string) (ps : list string)
    (err : option Error) (tr1 : list Event)
    (outs : list (string * option Error)) (tr2 : list Event) :
    processImage p banner outputDir bh loc tr
    = (Some err, tr1) ->
    Batch banner outputDir bh loc
          (tr1 ++ [(Print (report p err), env tr1 (Print (report p err)))])
          ps outs tr2 ->
    Batch banner outputDir bh loc tr (p :: ps) ((p, err) :: outs) tr2.

(** The non-directory entries of a directory, as paths. *)
Definition filePaths (dirPath : string) (files : list DirEntry)
    : list string :=
  map (fun f => Join dirPath (Name f))
      (filter (fun f => negb (IsDir f)) files).

End Pipeline.

(** The computation [m], started after the events [tr], ends with a result
    and new events that satisfy [Q]. *)
Definition sat {A : Type} (m : IO A) (tr : list Event)
    (Q : option A -> list Event -> Prop) : Prop :=
  exists r seg, m tr = (r, (tr ++ seg)%list) /\ Q r seg.

(* ===================================================================== *)
(** ** [main.go]: the banner that [main] hands to [processImage] *)
(* ===================================================================== *)

(** [func parseRGB(str string) (color.RGBA, error)]: [scan] is what
    [fmt.Sscanf(str, "%d,%d,%d", &r, &g, &b)] read, [None] when it failed. *)
Definition parseRGB (scan : option (Z * Z * Z)) : option color.RGBA :=
  match scan with
  | None => None
  | Some (r, g, b) => parseRGB_scanned r g b
  end.

(** The banner selection of [main]: [None] when [main] exits. *)
Definition resolveBanner (classFlag textFlag : string)
    (bgScan txtScan : option (Z * Z * Z)) : option BannerMode :=
  if String.eqb classFlag EmptyString then None
  else if String.eqb classFlag "custom" then
    match parseRGB bgScan with
    | None => None
    | Some bgCol =>
        match parseRGB txtScan with
        | None => None
        | Some txtCol =>
            if String.eqb textFlag EmptyString then None
            else Some (mkBannerMode bgCol txtCol textFlag)
        end
    end
  else mapIndex bannerModes classFlag.

(* ===================================================================== *)
(** ** Valid inputs *)
(* ===================================================================== *)

(** The coordinates of the bounds of a source image are in order and far
    from the limits of [int]. *)
Definition coordLimit : Z := 2 ^ 60.

Definition validBounds (b : image.Rectangle) : Prop :=
  - coordLimit <= image.X (image.Min b) /\
  image.X (image.Min b) <= image.X (image.Max b) /\
  image.X (image.Max b) <= coordLimit /\
  - coordLimit <= image.Y (image.Min b) /\
  image.Y (image.Min b) <= image.Y (image.Max b) /\
  image.Y (image.Max b) <= coordLimit.

(** The pixel buffer of the canvas is one that [make] allocates:
    [image.NewRGBA] does not panic. *)
Definition allocatable (img : image.Image) (bannerHeight : Z) : Prop :=
  - coordLimit <= bannerHeight <= coordLimit /\
  4 * image.Dx (image.Bounds img)
    * Z.abs (image.Dy (image.Bounds img) + 2 * bannerHeight)
  <= image.maxAlloc.

(** A valid source bitmap and banner height: at least one pixel each way
    and a positive banner height. *)
Definition validInput (img : image.Image) (bannerHeight : Z) : Prop :=
  validBounds (image.Bounds img) /\
  1 <= image.Dx (image.Bounds img) /\
  1 <= image.Dy (image.Bounds img) /\
  1 <= bannerHeight /\
  allocatable img bannerHeight.

(** The largest width and banner height that the bounds of an
    [image.Uniform] cover. *)
Definition uniformLimit : Z := 1000000000.

Section CanvasModel.
Import image.

(** The three [draw.Draw] calls of an allocated canvas, the arithmetic of
    [processImage] being exact on inputs in range. *)
Definition canvasOf (img : Image) (banner : BannerMode) (bh : Z) : RGBA :=
  let w := Dx (Bounds img) in
  let h := Dy (Bounds img) in
  let nh := h + 2 * bh in
  draw.Draw_Src
    (draw.Draw_Src
       (draw.Draw_Src (mkRGBA (fun _ _ => color.zero) (Rect 0 0 w nh))
                      (Rect 0 0 w bh) (Uniform (BgColor banner)) (Pt 0 0))
       (Rect 0 (nh - bh) w nh) (Uniform (BgColor banner)) (Pt 0 0))
    (Rect 0 bh w (bh + h)) img (Min (Bounds img)).

End CanvasModel.

(** [img2] is [img1] with its bounds and its pixels moved by [(dx, dy)]. *)
Definition translatedBy (dx dy : Z) (img1 img2 : image.Image) : Prop :=
  image.Bounds img2 =
    image.mkRectangle
      (image.Pt (image.X (image.Min (image.Bounds img1)) + dx)
                (image.Y (image.Min (image.Bounds img1)) + dy))
      (image.Pt (image.X (image.Max (image.Bounds img1)) + dx)
                (image.Y (image.Max (image.Bounds img1)) + dy)) /\
  forall x y, image.At img2 (x + dx) (y + dy) = image.At img1 x y.

(** The margin of the specification, [round(0.05 × imageWidth)]: the
    rational [imageWidth / 20] rounded to the nearest integer, halves up. *)
Definition specRoundedMargin (imageWidth : Z) : Z :=
  (2 * imageWidth + 20) / 40.

(* ===================================================================== *)
(** ** Sample inputs *)
(* ===================================================================== *)

Module Samples.

(** The bytes of an ASCII string as runes. *)
Fixpoint asciiRunes (s : string) : list font.rune :=
  match s with
  | EmptyString => []
  | String a s' => Z.of_N (N_of_ascii a) :: asciiRunes s'
  end.

(** A [w] by [h] image at the origin, of one colour. *)
Definition solid (w h : Z) (c : color.Color) : image.Image :=
  image.mkImage (image.mkRectangle (image.Pt 0 0) (image.Pt w h))
                (fun _ _ => c).

(** The same image with its bounds starting at [(x0, y0)]. *)
Definition solidAt (x0 y0 w h : Z) (c : color.Color) : image.Image :=
  image.mkImage
    (image.mkRectangle (image.Pt x0 y0) (image.Pt (x0 + w) (y0 + h)))
    (fun _ _ => c).

(** A face without glyphs. *)
Definition blankFace : font.Face :=
  font.mkFace
    (fun _ _ =>
       (image.ZR, image.mkAlpha (fun _ _ => 0) image.ZR, image.Pt 0 0, 0))
    (fun _ => 0)
    (fun _ _ => 0).

(** A face whose every glyph is one fully covered pixel just above the
    baseline, one pixel wide. *)
Definition blockFace : font.Face :=
  font.mkFace
    (fun dot _ =>
       let px := Z.shiftr (fixed.PX dot) 6 in
       let py := Z.shiftr (fixed.PY dot) 6 in
       (image.mkRectangle (image.Pt px (py - 1)) (image.Pt (px + 1) py),
        image.mkAlpha (fun _ _ => 255)
          (image.mkRectangle (image.Pt 0 0) (image.Pt 1 1)),
        image.Pt 0 0, 64))
    (fun _ => 64)
    (fun _ _ => 0).

Definition cui : BannerMode :=
  mkBannerMode (color.mkRGBA 0 255 0 255) (color.mkRGBA 0 0 0 255) "CUI".

(** An opaque pixel with 8 bits per channel. *)
Definition grey8 : color.Color := color.mkColor 4112 8224 12336 65535.

(** A translucent pixel with 16 bits per channel, as a 16-bit PNG with an
    alpha channel gives. *)
Definition deep16 : color.Color := color.mkColor 4660 0 0 33023.

(** A world in which every call succeeds and [image.Decode] returns
    [img] with the format name [format]. *)
Definition envOk (img : image.Image) (format : string) (face : font.Face)
    (files : list DirEntry) (_ : list Event) (c : Call) : Resp :=
  match c with
  | OsStat _ => ROk true
  | ImageDecode _ => RDecoded (Some (img, format))
  | OpentypeNewFace => RFace (Some face)
  | OsReadDir _ => RDir (Some files)
  | _ => ROk true
  end.

Definition joinSlash (a b : string) : string := a ++ "/" ++ b.

(** The source of the scenarios of the specification: 100 by 50. *)
Definition scenario : image.Image := solid 100 50 grey8.

(** The same source with its bounds starting at [(7, -3)]. *)
Definition scenarioMoved : image.Image := solidAt 7 (-3) 100 50 grey8.

(** A directory with two files and a subdirectory between them. *)
Definition threeEntries : list DirEntry :=
  [ mkDirEntry "a.png" false; mkDirEntry "sub" true;
    mkDirEntry "b.png" false ].

(** The world in which every call succeeds, for that directory. *)
Definition world : list Event -> Call -> Resp :=
  envOk scenario "png" blockFace threeEntries.

(** A directory with three images and a corrupt file. *)
Definition fourFiles : list DirEntry :=
  [ mkDirEntry "a.png" false; mkDirEntry "bad.png" false;
    mkDirEntry "b.png" false; mkDirEntry "c.png" false ].

(** The world of that directory: [image.Decode] fails on the corrupt
    file. *)
Definition worldCorrupt (tr : list Event) (c : Call) : Resp :=
  match c with
  | ImageDecode p =>
      if String.eqb p "dir/bad.png" then RDecoded None
      else RDecoded (Some (scenario, "png"))
  | _ => envOk scenario "png" blockFace fourFiles tr c
  end.

(** The lines printed and the number of images encoded in a run. *)
Definition printed (tr : list Event) : list Message :=
  flat_map (fun e => match fst e with Print m => [m] | _ => [] end) tr.

Definition encodings (tr : list Event) : nat :=
  List.length (filter (fun e => match fst e with
                           | JpegEncode _ _ | PngEncode _ _ => true
                           | _ => false
                           end) tr).

End Samples.

(* ===================================================================== *)
(** ** [main.go]: [main] *)
(* ===================================================================== *)

(** The values of the flags after [flag.Parse()]. *)
Record Flags : Type := mkFlags {
  dirFlag : string;
  fileFlag : string;
  classFlag : string;
  outputFlag : string;
  bannerHeightFlag : Z;
  locFlag : string;
  textFlag : string;
  bgColorFlag : string;
  txtColorFlag : string
}.

(** The lines that [main] and [printUsageAndExit] print, by their text. *)
Inductive Line : Type :=
| LnClassRequired
    (* Error: Classification type (-c) is required. *)
| LnUsage
    (* the lines of printUsageAndExit, from "Usage:" on *)
| LnBadBackground
    (* Error parsing background color: err *)
| LnBadTextColor
    (* Error parsing text color: err *)
| LnTextRequired
    (* Error: You must provide -text for custom banner mode. *)
| LnBackgroundRequired
    (* Error: You must provide -background-color for custom banner color *)
| LnTextColorRequired
    (* Error: You must provide -text-color for custom banner color *)
| LnInvalidMode
    (* Error: Invalid classification mode. Options: unclassed, cui,
       secret. *)
| LnInvalidModeOrCustom
    (* Error: Invalid classification mode. Options: unclassed, cui, secret,
       custom. *)
| LnFileOrDirectory
    (* Error: You must specify either a file (-f) or a directory (-d). *)
| LnFileMissing (file : string)
    (* Error: File '%s' does not exist. *)
| LnFileFailed (file : string) (err : Error)
    (* Error processing file '%s': %v *)
| LnFileClassified (file : string)
    (* File classified successfully: file *)
| LnDirMissing (dir : string)
    (* Error: Directory '%s' does not exist. *)
| LnDirFailed (dir : string) (err : Error)
    (* Error processing directory '%s': %v *)
| LnDirClassified (dir : string).
    (* All images in directory classified successfully: dir *)

(** How a program ends before the end of [main]: [os.Exit(code)] or a
    panic that nothing recovers. *)
Inductive Stop : Type :=
| OsExit (code : Z)
| Panic.

(** What a run of the program leaves behind, in order: the lines of [main]
    and the calls to the outside world. *)
Definition Item : Type := (Line + Event)%type.

Definition sysOf (out : list Item) : list Event :=
  flat_map (fun i => match i with inr e => [e] | inl _ => [] end) out.

Definition linesOf (out : list Item) : list Line :=
  flat_map (fun i => match i with inl l => [l] | inr _ => [] end) out.

(** A computation of [main]: it extends what the run left so far and
    either stops the program or goes on with a value. *)
Definition Prog (A : Type) : Type := list Item -> (Stop + A) * list Item.

Definition pret {A : Type} (a : A) : Prog A := fun out => (inr a, out).

Definition pbind {A B : Type} (m : Prog A) (k : A -> Prog B) : Prog B :=
  fun out =>
    match m out with
    | (inr a, out') => k a out'
    | (inl s, out') => (inl s, out')
    end.

(** [fmt.Println] and [fmt.Printf] in [main]. *)
Definition Println (l : Line) : Prog unit :=
  fun out => (inr tt, (out ++ [inl l])%list).

(** [os.Exit(code)]. *)
Definition osExit {A : Type} (code : Z) : Prog A :=
  fun out => (inl (OsExit code), out).

(** A computation on the outside world run from [main]: its calls follow
    what the run left so far, and its panic stops the program. *)
Definition lift {A : Type} (m : IO A) : Prog A :=
  fun out =>
    let tr := sysOf out in
    let '(r, tr') := m tr in
    let out' := (out ++ map inr (skipn (List.length tr) tr'))%list in
    match r with
    | Some a => (inr a, out')
    | None => (inl Panic, out')
    end.

Notation "x <-- m ;; k" := (pbind m (fun x => k))
  (at level 61, m at next level, right associativity).

(** The exit status of a run that is past [flag.Parse]: 0 when [main]
    returns, the argument of [os.Exit], 2 after a panic. *)
Definition exitStatus (r : Stop + unit) : Z :=
  match r with
  | inr _ => 0
  | inl (OsExit code) => code
  | inl Panic => 2
  end.

(** [func printUsageAndExit()]. *)
Definition printUsageAndExit {A : Type} : Prog A :=
  _ <-- Println LnUsage ;; osExit 1.

(** The zero value [BannerMode{}]. *)
Definition zeroBanner : BannerMode :=
  mkBannerMode color.zero color.zero EmptyString.

Section Main.

Variable runesOf : string -> list font.rune.
Variable Join : string -> string -> string.
Variable Base : string -> string.
Variable env : list Event -> Call -> Resp.

(** [fmt.Sscanf(str, "%d,%d,%d", &r, &g, &b)]: the three integers it
    read, [None] when it returns an error. *)
Variable Sscanf : string -> option (Z * Z * Z).

(** Lines 58 to 97 of [main]: the banner and the value of [exists]. *)
Definition selectBanner (fl : Flags) : Prog (BannerMode * bool) :=
  if String.eqb (classFlag fl) "custom" then
    match parseRGB (Sscanf (bgColorFlag fl)) with
    | None => _ <-- Println LnBadBackground ;; osExit 1
    | Some bgCol =>
        match parseRGB (Sscanf (txtColorFlag fl)) with
        | None => _ <-- Println LnBadTextColor ;; osExit 1
        | Some txtCol =>
            _ <-- (if String.eqb (textFlag fl) EmptyString then
                     _ <-- Println LnTextRequired ;; osExit 1
                   else pret tt) ;;
            _ <-- (if String.eqb (bgColorFlag fl) EmptyString then
                     Println LnBackgroundRequired
                   else pret tt) ;;
            _ <-- (if String.eqb (txtColorFlag fl) EmptyString then
                     Println LnTextColorRequired
                   else pret tt) ;;
            pret (mkBannerMode bgCol txtCol (textFlag fl), true)
        end
    end
  else
    let '(banner, exists_) :=
      match mapIndex bannerModes (classFlag fl) with
      | Some banner => (banner, true)
      | None => (zeroBanner, false)
      end in
    _ <-- (if negb exists_ then
             _ <-- Println LnInvalidMode ;; printUsageAndExit
           else pret tt) ;;
    pret (banner, exists_).

(** The stat with which a mode starts, [out] being what the run left so
    far. *)
Definition statOf (out : list Item) (path : string) : Event :=
  (OsStat path, env (sysOf out) (OsStat path)).

(** Lines 111 to 121 of [main]: the body of the test of [*fileFlag]. *)
Definition fileMode (fl : Flags) (banner : BannerMode) : Prog unit :=
  notExist <-- lift (call env (OsStat (fileFlag fl))) ;;
  _ <-- (if asBool notExist then
           _ <-- Println (LnFileMissing (fileFlag fl)) ;; osExit 1
         else pret tt) ;;
  err <-- lift (processImage runesOf Join Base env (fileFlag fl) banner
                  (outputFlag fl) (bannerHeightFlag fl) (locFlag fl)) ;;
  _ <-- (match err with
         | Some e => _ <-- Println (LnFileFailed (fileFlag fl) e) ;; osExit 1
         | None => pret tt
         end) ;;
  Println (LnFileClassified (fileFlag fl)).

(** Lines 125 to 135 of [main]: the body of the test of [*dirFlag]. *)
Definition dirMode (fl : Flags) (banner : BannerMode) : Prog unit :=
  notExist <-- lift (call env (OsStat (dirFlag fl))) ;;
  _ <-- (if asBool notExist then
           _ <-- Println (LnDirMissing (dirFlag fl)) ;; osExit 1
         else pret tt) ;;
  err <-- lift (processDirectory runesOf Join Base env (dirFlag fl) banner
                  (outputFlag fl) (bannerHeightFlag fl) (locFlag fl)) ;;
  _ <-- (match err with
         | Some e => _ <-- Println (LnDirFailed (dirFlag fl) e) ;; osExit 1
         | None => pret tt
         end) ;;
  Println (LnDirClassified (dirFlag fl)).

(** Lines 105 to 136 of [main]: the check of [-f] and [-d], and the two
    modes. *)
Definition dispatch (fl : Flags) (banner : BannerMode) : Prog unit :=
  _ <-- (if (String.eqb (fileFlag fl) EmptyString
             && String.eqb (dirFlag fl) EmptyString)
            || (negb (String.eqb (fileFlag fl) EmptyString)
                && negb (String.eqb (dirFlag fl) EmptyString))
         then _ <-- Println LnFileOrDirectory ;; printUsageAndExit
         else pret tt) ;;
  _ <-- (if negb (String.eqb (fileFlag fl) EmptyString)
         then fileMode fl banner else pret tt) ;;
  if negb (String.eqb (dirFlag fl) EmptyString)
  then dirMode fl banner else pret tt.

(** [func main()], from the line that follows [flag.Parse()]: the run of
    the program once [flag.Parse] has returned, [fl] being the values it
    has given to the flags. *)
Definition main (fl : Flags) : Prog unit :=
  _ <-- (if String.eqb (classFlag fl) EmptyString then
           _ <-- Println LnClassRequired ;; printUsageAndExit
         else pret tt) ;;
  sel <-- selectBanner fl ;;
  let '(banner, exists_) := sel in
  _ <-- (if negb exists_ then
           _ <-- Println LnInvalidModeOrCustom ;; printUsageAndExit
         else pret tt) ;;
  dispatch fl banner.

(** What the lines 77 to 82 of [main] print when they are reached. *)
Definition customWarnings (fl : Flags) : list Line :=
  if String.eqb (classFlag fl) "custom" then
    ((if String.eqb (bgColorFlag fl) EmptyString
      then [LnBackgroundRequired] else []) ++
     (if String.eqb (txtColorFlag fl) EmptyString
      then [LnTextColorRequired] else []))%list
  else [].

(** The banner of a run of [main] on flags that [resolveBanner]
    accepts. *)
Definition bannerOf (fl : Flags) : option BannerMode :=
  resolveBanner (classFlag fl) (textFlag fl) (Sscanf (bgColorFlag fl))
                (Sscanf (txtColorFlag fl)).

(** How the program goes on after [processImage] or [processDirectory]
    ended with [r]: a panic stops it, an error makes [main] exit with
    status 1. *)
Definition verdict (r : option (option Error)) : Stop + unit :=
  match r with
  | None => inl Panic
  | Some (Some _) => inl (OsExit 1)
  | Some None => inr tt
  end.

(** The line that [main] prints after that, [failure] and [classified]
    being its two lines for the mode. *)
Definition closing (failure : Error -> Line) (classified : Line)
    (r : option (option Error)) : list Item :=
  match r with
  | None => []
  | Some (Some e) => [inl (failure e)]
  | Some None => [inl classified]
  end.

End Main.

(** The flags name exactly one of a file and a directory. *)
Definition oneTarget (fl : Flags) : bool :=
  negb (String.eqb (fileFlag fl) EmptyString
        && String.eqb (dirFlag fl) EmptyString)
  && negb (negb (String.eqb (fileFlag fl) EmptyString)
           && negb (String.eqb (dirFlag fl) EmptyString)).

(** The lines with which [main] turns the flags down. *)
Definition refusal (l : Line) : bool :=
  match l with
  | LnClassRequired | LnUsage | LnBadBackground | LnBadTextColor
  | LnTextRequired | LnInvalidMode | LnFileOrDirectory => true
  | _ => false
  end.

(* ===================================================================== *)
(** ** What a run shows *)
(* ===================================================================== *)

Section Footprint.

Variable Join : string -> string -> string.
Variable Base : string -> string.

(** The calls of a run of [processImage] on [imagePath] for the output
    directory [outputDir]: on the input file, on the output directory, on
    the two files that the run creates in it, and on the embedded font. *)
Definition touches (imagePath outputDir : string) (c : Call) : bool :=
  let testFile := Join outputDir "test_write.tmp" in
  let outputPath := Join outputDir (Base imagePath) in
  match c with
  | OsStat p => String.eqb p outputDir
  | OsCreate p => String.eqb p testFile || String.eqb p outputPath
  | OsRemove p => String.eqb p testFile
  | OsOpen p => String.eqb p imagePath
  | FileClose p =>
      String.eqb p testFile || String.eqb p imagePath
      || String.eqb p outputPath
  | ImageDecode p => String.eqb p imagePath
  | FontDataReadFile name => String.eqb name "fonts/DejaVuSans-Bold.ttf"
  | OpentypeParse | OpentypeNewFace => true
  | OsMkdirAll p => String.eqb p outputDir
  | JpegEncode p _ | PngEncode p _ => String.eqb p outputPath
  | OsReadDir _ | Print _ => false
  end.

End Footprint.

(** The errors that [processImage] returns. *)
Definition processImageError (e : Error) : bool :=
  match e with
  | ErrNotWritable | ErrOpenImage | ErrDecode | ErrUnsupportedFormat _
  | ErrLoadFontFace ErrReadFont | ErrLoadFontFace ErrParseFont
  | ErrLoadFontFace ErrCreateFace
  | ErrMkdirAll | ErrCreateOutput | ErrEncode => true
  | _ => false
  end.

(** The calls that create or fill something in the output directory for
    good: [os.MkdirAll] and the encoders. *)
Definition producesOutput (c : Call) : bool :=
  match c with
  | OsMkdirAll _ | JpegEncode _ _ | PngEncode _ _ => true
  | _ => false
  end.

(** The files that a run removes and the directories that it lists. *)
Definition removals (seg : list Event) : list string :=
  flat_map (fun e => match fst e with OsRemove p => [p] | _ => [] end) seg.

Definition listings (seg : list Event) : list string :=
  flat_map (fun e => match fst e with OsReadDir p => [p] | _ => [] end) seg.

(** The file that a line of [processDirectory] names. *)
Definition messagePath (m : Message) : string :=
  match m with
  | MsgErrorProcessing filePath _ => filePath
  | MsgClassified filePath => filePath
  end.

(* ===================================================================== *)
(** ** Sample runs of [main] *)
(* ===================================================================== *)

Module Cases.
Import Samples.

(** The answers of [fmt.Sscanf] on the colours of the examples of the
    usage text, and its failure on other strings. *)
Definition scanRGB (str : string) : option (Z * Z * Z) :=
  if String.eqb str "255,0,0" then Some (255, 0, 0)
  else if String.eqb str "255,255,255" then Some (255, 255, 255)
  else if String.eqb str "255,255,0" then Some (255, 255, 0)
  else if String.eqb str "0,0,0" then Some (0, 0, 0)
  else None.

(** A world in which the output directory ["out"] does not exist yet,
    every other path does, every call succeeds and the directory that is
    listed holds [files]. *)
Definition worldOf (files : list DirEntry) (tr : list Event) (c : Call)
    : Resp :=
  match c with
  | OsStat p => ROk (String.eqb p "out")
  | _ => envOk scenario "png" blockFace files tr c
  end.

(** [-f in.png -c cui -o out]. *)
Definition fileFlags : Flags :=
  mkFlags EmptyString "in.png" "cui" "out" 60 "center" EmptyString
          "255,0,0" "255,255,255".

(** [-d dir -c secret -o out -l corners]. *)
Definition dirFlags : Flags :=
  mkFlags "dir" EmptyString "secret" "out" 60 "corners" EmptyString
          "255,0,0" "255,255,255".

Definition secret : BannerMode :=
  mkBannerMode (color.mkRGBA 255 0 0 255) (color.mkRGBA 255 255 255 255)
               "SECRET".

(** A directory that holds two subdirectories and no file. *)
Definition onlySubdirs : list DirEntry :=
  [ mkDirEntry "a" true; mkDirEntry "b" true ].

End Cases.

(* ===================================================================== *)
(** ** Properties of the embedded packages *)
(* ===================================================================== *)

Lemma wrap_small (z : Z) : GoInt.minInt <= z <= GoInt.maxInt -> GoInt.wrap z = z.
Proof.
  unfold GoInt.wrap, GoInt.minInt, GoInt.maxInt. intros H.
  rewrite Z.mod_small by lia. lia.
Qed.

Lemma wrap_range (z : Z) : GoInt.minInt <= GoInt.wrap z <= GoInt.maxInt.
Proof.
  unfold GoInt.wrap, GoInt.minInt, GoInt.maxInt.
  pose proof (Z.mod_pos_bound (z + 2 ^ 63) (2 ^ 64) ltac:(lia)). lia.
Qed.

Ltac unwrap :=
  repeat match goal with
         | |- context [GoInt.wrap ?z] =>
             rewrite (wrap_small z)
               by (unfold GoInt.minInt, GoInt.maxInt; lia)
         end.

Section ImageFacts.
Import image.

Lemma byte_roundtrip (c : Z) :
  0 <= c <= 255 -> uint8 (Z.shiftr (Z.lor c (Z.shiftl c 8)) 8) = c.
Proof.
  intros Hc. unfold uint8.
  rewrite Z.shiftr_lor, Z.shiftr_shiftl_l by lia.
  replace (8 - 8) with 0 by lia. rewrite Z.shiftl_0_r.
  rewrite Z.shiftr_div_pow2 by lia.
  rewrite (Z.div_small c (2 ^ 8)) by lia.
  rewrite Z.lor_0_l. apply Z.mod_small. lia.
Qed.

(** Storing a [color.RGBA] through its [RGBA()] method gives it back. *)
Lemma rgbaModel_RGBA (c : color.RGBA) :
  color.wf c -> color.rgbaModel (color.RGBA_RGBA c) = c.
Proof.
  intros (Hr & Hg & Hb & Ha). destruct c as [r g b a]; simpl in *.
  unfold color.rgbaModel, color.RGBA_RGBA; simpl.
  now rewrite !byte_roundtrip by assumption.
Qed.

Lemma Empty_not_In (r : Rectangle) (p : Point) :
  Empty r = true -> PointIn p r = false.
Proof. unfold Empty, PointIn. intros H. lia. Qed.

Lemma ite_max (a b : Z) : (if a <? b then b else a) = Z.max a b.
Proof. destruct (Z.ltb_spec a b); lia. Qed.

Lemma ite_min (a b : Z) : (if a >? b then b else a) = Z.min a b.
Proof. rewrite Z.gtb_ltb. destruct (Z.ltb_spec b a); lia. Qed.

(** [Intersect] with the maxima and minima written as such. *)
Lemma Intersect_eq (r s : Rectangle) :
  Intersect r s =
  let r' := mkRectangle
              (Pt (Z.max (X (Min r)) (X (Min s)))
                  (Z.max (Y (Min r)) (Y (Min s))))
              (Pt (Z.min (X (Max r)) (X (Max s)))
                  (Z.min (Y (Max r)) (Y (Max s)))) in
  if Empty r' then ZR else r'.
Proof. unfold Intersect. now rewrite !ite_max, !ite_min. Qed.

Lemma Intersect_inside (r s : Rectangle) :
  X (Min r) < X (Max r) -> Y (Min r) < Y (Max r) ->
  X (Min s) <= X (Min r) -> X (Max r) <= X (Max s) ->
  Y (Min s) <= Y (Min r) -> Y (Max r) <= Y (Max s) ->
  Intersect r s = r.
Proof.
  intros. rewrite Intersect_eq. destruct r as [[a b] [c d]]; simpl in *.
  unfold Empty; simpl.
  destruct (_ || _) eqn:E; [lia|].
  repeat f_equal; lia.
Qed.

Lemma Intersect_not_In (r s : Rectangle) (p : Point) :
  PointIn p r = false -> PointIn p (Intersect r s) = false.
Proof.
  intros H. rewrite Intersect_eq. simpl.
  destruct (Empty _) eqn:E; [unfold PointIn, ZR; simpl; lia|].
  unfold PointIn in *; simpl in *. lia.
Qed.

(** A rectangle that lies in the destination and in the translated source
    is not clipped. *)
Lemma clip_inside (dstB r srcB : Rectangle) (sp mp : Point) :
  X (Min r) < X (Max r) -> Y (Min r) < Y (Max r) ->
  X (Min dstB) <= X (Min r) -> X (Max r) <= X (Max dstB) ->
  Y (Min dstB) <= Y (Min r) -> Y (Max r) <= Y (Max dstB) ->
  let s := RectAdd srcB (PointSub (Min r) sp) in
  X (Min s) <= X (Min r) -> X (Max r) <= X (Max s) ->
  Y (Min s) <= Y (Min r) -> Y (Max r) <= Y (Max s) ->
  draw.clip dstB r srcB sp None mp = (r, sp, mp).
Proof.
  intros Hx Hy H1 H2 H3 H4 s H5 H6 H7 H8.
  unfold draw.clip. fold s.
  rewrite (Intersect_inside r dstB) by assumption.
  rewrite (Intersect_inside r s) by assumption.
  unfold GoInt.sub. rewrite !Z.sub_diag.
  change (GoInt.wrap 0) with 0. reflexivity.
Qed.

(** The pixels of a destination after [draw.Draw] with [draw.Src]. *)
Lemma Draw_Src_Pix (dst : RGBA) (r : Rectangle) (src : Image) (sp : Point)
    (x y : Z) :
  Pix (draw.Draw_Src dst r src sp) x y =
  let '(r', sp', _) :=
    draw.clip (RGBARect dst) r (Bounds src) sp None (Pt 0 0) in
  if PointIn (Pt x y) r'
  then color.rgbaModel
         (At src (GoInt.add (X sp') (GoInt.sub x (X (Min r'))))
                 (GoInt.add (Y sp') (GoInt.sub y (Y (Min r')))))
  else Pix dst x y.
Proof.
  unfold draw.Draw_Src.
  destruct (draw.clip _ _ _ _ _ _) as [[r' sp'] mp'].
  destruct (Empty r') eqn:E; [|reflexivity].
  now rewrite (Empty_not_In _ _ E).
Qed.

Lemma Draw_Src_Rect (dst : RGBA) (r : Rectangle) (src : Image) (sp : Point) :
  RGBARect (draw.Draw_Src dst r src sp) = RGBARect dst.
Proof.
  unfold draw.Draw_Src.
  destruct (draw.clip _ _ _ _ _ _) as [[r' sp'] mp'].
  now destruct (Empty r').
Qed.

(** A pixel outside the rectangle given to [draw.Draw] is not touched. *)
Lemma Draw_Src_outside (dst : RGBA) (r : Rectangle) (src : Image)
    (sp : Point) (x y : Z) :
  PointIn (Pt x y) r = false ->
  Pix (draw.Draw_Src dst r src sp) x y = Pix dst x y.
Proof.
  intros Hout. rewrite Draw_Src_Pix.
  unfold draw.clip.
  set (r2 := Intersect (Intersect r (RGBARect dst)) _).
  assert (H2 : PointIn (Pt x y) r2 = false)
    by (subst r2; now do 2 apply Intersect_not_In).
  destruct (_ && _); now rewrite H2.
Qed.

Lemma GlyphOver_Rect (dst : RGBA) (r : Rectangle) (src : color.RGBA)
    (mask : Alpha) (mp : Point) :
  RGBARect (draw.DrawMask_GlyphOver dst r src mask mp) = RGBARect dst.
Proof.
  unfold draw.DrawMask_GlyphOver.
  destruct (draw.clip _ _ _ _ _ _) as [[r' sp'] mp'].
  now destruct (Empty r').
Qed.

(** A glyph changes no pixel on which it puts no ink. *)
Lemma GlyphOver_no_ink (dst : RGBA) (r : Rectangle) (src : color.RGBA)
    (mask : Alpha) (mp : Point) (x y : Z) :
  draw.glyphInk (RGBARect dst) r src mask mp x y = false ->
  Pix (draw.DrawMask_GlyphOver dst r src mask mp) x y = Pix dst x y.
Proof.
  unfold draw.glyphInk, draw.DrawMask_GlyphOver.
  destruct (draw.clip _ _ _ _ _ _) as [[r' sp'] mp'].
  destruct (Empty r') eqn:E; [reflexivity|]; simpl.
  destruct (PointIn (Pt x y) r') eqn:Hin; [|reflexivity]; simpl.
  intros H. apply negb_false_iff in H.
  unfold draw.glyphOverPixel. now rewrite H.
Qed.

(** Two destinations with the same bounds and the same pixels stay so
    under the same glyph. *)
Lemma GlyphOver_ext (d1 d2 : RGBA) (r : Rectangle) (src : color.RGBA)
    (mask : Alpha) (mp : Point) :
  RGBARect d1 = RGBARect d2 ->
  (forall x y, Pix d1 x y = Pix d2 x y) ->
  forall x y,
    Pix (draw.DrawMask_GlyphOver d1 r src mask mp) x y =
    Pix (draw.DrawMask_GlyphOver d2 r src mask mp) x y.
Proof.
  intros HR HP x y. unfold draw.DrawMask_GlyphOver. rewrite HR.
  destruct (draw.clip _ _ _ _ _ _) as [[r' sp'] mp'].
  destruct (Empty r'); simpl; [apply HP|].
  destruct (PointIn (Pt x y) r'); [|apply HP]. now rewrite HP.
Qed.

End ImageFacts.

Section FontFacts.

Lemma DrawString_Rect (f : font.Face) (src : color.RGBA) (s : list font.rune) :
  forall dst dot prevC,
    image.RGBARect (font.DrawString f src dst dot prevC s) =
    image.RGBARect dst.
Proof.
  induction s as [|c s IH]; intros dst dot prevC;
    cbn [font.DrawString font.stringInk]; [reflexivity|].
  destruct (font.Glyph f _ c) as [[[dr mask] maskp] adv].
  rewrite IH. destruct (negb (image.Empty dr)); [|reflexivity].
  apply GlyphOver_Rect.
Qed.

Lemma DrawString_no_ink (f : font.Face) (src : color.RGBA)
    (s : list font.rune) (x y : Z) :
  forall dst dot prevC,
    font.stringInk f src (image.RGBARect dst) dot prevC s x y = false ->
    image.Pix (font.DrawString f src dst dot prevC s) x y =
    image.Pix dst x y.
Proof.
  induction s as [|c s IH]; intros dst dot prevC;
    cbn [font.DrawString font.stringInk]; [reflexivity|].
  destruct (font.Glyph f _ c) as [[[dr mask] maskp] adv].
  intros H. apply orb_false_iff in H. destruct H as [H1 H2].
  destruct (image.Empty dr); simpl negb in H1 |- *; cbv iota.
  - apply IH. exact H2.
  - rewrite andb_true_l in H1. rewrite IH.
    + apply GlyphOver_no_ink. exact H1.
    + rewrite GlyphOver_Rect. exact H2.
Qed.

Lemma DrawString_ext (f : font.Face) (src : color.RGBA)
    (s : list font.rune) :
  forall d1 d2 dot prevC,
    image.RGBARect d1 = image.RGBARect d2 ->
    (forall x y, image.Pix d1 x y = image.Pix d2 x y) ->
    forall x y,
      image.Pix (font.DrawString f src d1 dot prevC s) x y =
      image.Pix (font.DrawString f src d2 dot prevC s) x y.
Proof.
  induction s as [|c s IH]; intros d1 d2 dot prevC HR HP;
    cbn [font.DrawString]; [exact HP|].
  destruct (font.Glyph f _ c) as [[[dr mask] maskp] adv].
  destruct (negb (image.Empty dr)).
  - apply IH.
    + now rewrite !GlyphOver_Rect.
    + now apply GlyphOver_ext.
  - now apply IH.
Qed.

End FontFacts.

(* ===================================================================== *)
(** ** The canvas built by [processImage] *)
(* ===================================================================== *)

Section CanvasFacts.
Import image.

Variable runesOf : string -> list font.rune.

Lemma Rect_ordered (x0 y0 x1 y1 : Z) :
  x0 <= x1 -> y0 <= y1 ->
  Rect x0 y0 x1 y1 = mkRectangle (Pt x0 y0) (Pt x1 y1).
Proof.
  intros Hx Hy. unfold Rect.
  destruct (Z.gtb_spec x0 x1); [lia|].
  destruct (Z.gtb_spec y0 y1); [lia|]. reflexivity.
Qed.

Lemma Rect_swapped_Y (x0 y0 x1 y1 : Z) :
  x0 <= x1 -> y1 < y0 ->
  Rect x0 y0 x1 y1 = mkRectangle (Pt x0 y1) (Pt x1 y0).
Proof.
  intros Hx Hy. unfold Rect.
  destruct (Z.gtb_spec x0 x1); [lia|].
  destruct (Z.gtb_spec y0 y1); [|lia]. reflexivity.
Qed.

Lemma Dx_mk (x0 y0 x1 y1 : Z) :
  GoInt.inRange (x1 - x0) ->
  Dx (mkRectangle (Pt x0 y0) (Pt x1 y1)) = x1 - x0.
Proof. intros H. unfold Dx, GoInt.sub. now apply wrap_small. Qed.

Lemma Dy_mk (x0 y0 x1 y1 : Z) :
  GoInt.inRange (y1 - y0) ->
  Dy (mkRectangle (Pt x0 y0) (Pt x1 y1)) = y1 - y0.
Proof. intros H. unfold Dy, GoInt.sub. now apply wrap_small. Qed.

Lemma Dx_valid (b : Rectangle) :
  validBounds b ->
  Dx b = X (Max b) - X (Min b) /\ 0 <= Dx b <= 2 * coordLimit.
Proof.
  unfold validBounds, coordLimit, Dx, GoInt.sub. intros H.
  unwrap. lia.
Qed.

Lemma Dy_valid (b : Rectangle) :
  validBounds b ->
  Dy b = Y (Max b) - Y (Min b) /\ 0 <= Dy b <= 2 * coordLimit.
Proof.
  unfold validBounds, coordLimit, Dy, GoInt.sub. intros H.
  unwrap. lia.
Qed.

Lemma newHeightOf_exact (h bh : Z) :
  0 <= h <= 2 * coordLimit -> - coordLimit <= bh <= coordLimit ->
  newHeightOf h bh = h + 2 * bh.
Proof.
  unfold newHeightOf, GoInt.add, GoInt.mul, coordLimit. intros Hh Hb.
  unwrap. reflexivity.
Qed.

Lemma mul3NonNeg_fits (w h : Z) :
  0 <= w <= 2 * coordLimit -> 0 <= h -> 4 * w * h <= GoInt.maxInt ->
  mul3NonNeg 4 w h = 4 * w * h.
Proof.
  unfold mul3NonNeg, coordLimit, GoInt.maxInt. intros Hw Hh Hfit.
  destruct ((4 <? 0) || (w <? 0) || (h <? 0)) eqn:E1; [lia|].
  destruct (4 * w >=? 2 ^ 64) eqn:E2; [lia|].
  rewrite (Z.mod_small (4 * w)) by lia.
  destruct (4 * w * h >=? 2 ^ 64) eqn:E3; [lia|].
  rewrite wrap_small by (unfold GoInt.minInt, GoInt.maxInt; lia).
  destruct (4 * w * h <? 0) eqn:E4; [lia|]. reflexivity.
Qed.

Lemma buildCanvas_eq (img : Image) (banner : BannerMode) (bh : Z) :
  validBounds (Bounds img) -> allocatable img bh ->
  buildCanvas img banner bh = Some (canvasOf img banner bh).
Proof.
  intros Hb [Hbh Hal]. unfold buildCanvas, canvasOf.
  destruct (Dx_valid _ Hb) as [_ Hw]. destruct (Dy_valid _ Hb) as [_ Hh].
  rewrite newHeightOf_exact by assumption.
  set (w := Dx (Bounds img)) in *. set (h := Dy (Bounds img)) in *.
  assert (HN : NewRGBA (Rect 0 0 w (h + 2 * bh)) =
               Some (mkRGBA (fun _ _ => color.zero)
                            (Rect 0 0 w (h + 2 * bh)))).
  { unfold NewRGBA.
    assert (Hd : Dx (Rect 0 0 w (h + 2 * bh)) = w /\
                 Dy (Rect 0 0 w (h + 2 * bh)) = Z.abs (h + 2 * bh)).
    { destruct (Z_le_gt_dec 0 (h + 2 * bh)).
      - rewrite Rect_ordered by lia.
        unfold Dx, Dy, GoInt.sub; cbn [X Y Min Max].
        unfold coordLimit in *. unwrap. lia.
      - rewrite Rect_swapped_Y by lia.
        unfold Dx, Dy, GoInt.sub; cbn [X Y Min Max].
        unfold coordLimit in *. unwrap. lia. }
    destruct Hd as [-> ->]. cbv zeta.
    pose proof (Z.abs_nonneg (h + 2 * bh)) as Habs.
    unfold maxAlloc in *.
    rewrite mul3NonNeg_fits
      by (try assumption; unfold GoInt.maxInt; lia).
    destruct (4 * w * Z.abs (h + 2 * bh) <? 0) eqn:E; [nia|].
    destruct (4 * w * Z.abs (h + 2 * bh) >? 2 ^ 48) eqn:E';
      [lia|reflexivity]. }
  rewrite HN. unfold GoInt.sub, GoInt.add.
  unfold coordLimit in *. unwrap. reflexivity.
Qed.

(** The canvas is allocated whatever the sign of the banner height, with
    the bounds that [image.Rect] makes of the four numbers. *)
Lemma buildCanvas_bounds (img : Image) (banner : BannerMode) (bh : Z) :
  validBounds (Bounds img) -> allocatable img bh ->
  exists c,
    buildCanvas img banner bh = Some c /\
    RGBARect c = Rect 0 0 (Dx (Bounds img)) (Dy (Bounds img) + 2 * bh).
Proof.
  intros Hb Hal. rewrite buildCanvas_eq by assumption.
  eexists. split; [reflexivity|].
  unfold canvasOf. now rewrite !Draw_Src_Rect.
Qed.

(** The middle band of the canvas of a valid input holds the source,
    converted to the colour model of the canvas. *)
Lemma canvasOf_middle (img : Image) (banner : BannerMode) (bh x y : Z) :
  validInput img bh ->
  0 <= x < Dx (Bounds img) -> bh <= y < bh + Dy (Bounds img) ->
  Pix (canvasOf img banner bh) x y =
  color.rgbaModel (At img (X (Min (Bounds img)) + x)
                          (Y (Min (Bounds img)) + (y - bh))).
Proof.
  intros (Hb & Hw1 & Hh1 & Hbh1 & Hbh & Hal) Hx Hy.
  destruct (Dx_valid _ Hb) as [Ew Hw]. destruct (Dy_valid _ Hb) as [Eh Hh].
  unfold canvasOf. rewrite Draw_Src_Pix.
  set (w := Dx (Bounds img)) in *. set (h := Dy (Bounds img)) in *.
  rewrite Draw_Src_Rect, Draw_Src_Rect. cbn [RGBARect].
  rewrite (Rect_ordered 0 0 w (h + 2 * bh)) by lia.
  rewrite (Rect_ordered 0 bh w (bh + h)) by lia.
  destruct Hb as (B1 & B2 & B3 & B4 & B5 & B6).
  rewrite clip_inside; cbn [X Y Min Max RectAdd PointAdd PointSub];
    unfold GoInt.add, GoInt.sub, coordLimit in *; unwrap; try lia.
  unfold PointIn; cbn [X Y Min Max].
  destruct (_ && _) eqn:E; [|lia].
  f_equal. f_equal; lia.
Qed.

(** The two banner bands of the canvas of a valid input hold the
    background colour as [draw.Draw] stores it. *)
Lemma canvasOf_banner (img : Image) (banner : BannerMode) (bh x y : Z) :
  validInput img bh ->
  Dx (Bounds img) <= uniformLimit -> bh <= uniformLimit ->
  0 <= x < Dx (Bounds img) ->
  0 <= y < bh \/
  Dy (Bounds img) + bh <= y < Dy (Bounds img) + 2 * bh ->
  Pix (canvasOf img banner bh) x y =
  color.rgbaModel (color.RGBA_RGBA (BgColor banner)).
Proof.
  intros (Hb & Hw1 & Hh1 & Hbh1 & Hbh & Hal) Hwu Hbu Hx Hy.
  destruct (Dx_valid _ Hb) as [Ew Hw]. destruct (Dy_valid _ Hb) as [Eh Hh].
  unfold canvasOf.
  set (w := Dx (Bounds img)) in *. set (h := Dy (Bounds img)) in *.
  rewrite Draw_Src_outside.
  2:{ rewrite Rect_ordered by lia. unfold PointIn; cbn [X Y Min Max]. lia. }
  unfold uniformLimit in *.
  destruct Hy as [Hy|Hy].
  - rewrite Draw_Src_outside.
    2:{ rewrite Rect_ordered by lia. unfold PointIn; cbn [X Y Min Max].
        lia. }
    rewrite Draw_Src_Pix. cbn [RGBARect].
    rewrite (Rect_ordered 0 0 w (h + 2 * bh)) by lia.
    rewrite (Rect_ordered 0 0 w bh) by lia.
    rewrite clip_inside;
      cbn [X Y Min Max RectAdd PointAdd PointSub Bounds Uniform];
      unfold GoInt.add, GoInt.sub, coordLimit in *; unwrap; try lia.
    unfold PointIn; cbn [X Y Min Max At].
    destruct (_ && _) eqn:E; [reflexivity|lia].
  - rewrite Draw_Src_Pix. rewrite Draw_Src_Rect. cbn [RGBARect].
    rewrite (Rect_ordered 0 0 w (h + 2 * bh)) by lia.
    rewrite (Rect_ordered 0 (h + 2 * bh - bh) w (h + 2 * bh)) by lia.
    rewrite clip_inside;
      cbn [X Y Min Max RectAdd PointAdd PointSub Bounds Uniform];
      unfold GoInt.add, GoInt.sub, coordLimit in *; unwrap; try lia.
    unfold PointIn; cbn [X Y Min Max At].
    destruct (_ && _) eqn:E; [reflexivity|lia].
Qed.

Lemma drawLabels_Rect (face : font.Face) (calls : list LabelCall) :
  forall c, RGBARect (drawLabels runesOf c face calls) = RGBARect c.
Proof.
  unfold drawLabels.
  induction calls as [|k calls IH]; intros c; simpl; [reflexivity|].
  rewrite IH. unfold addLabel. apply DrawString_Rect.
Qed.

(** The labels change no pixel on which none of them puts ink. *)
Lemma drawLabels_no_ink (face : font.Face) (calls : list LabelCall)
    (x y : Z) :
  forall c,
    inkAt runesOf (RGBARect c) face calls x y = false ->
    Pix (drawLabels runesOf c face calls) x y = Pix c x y.
Proof.
  unfold drawLabels, inkAt.
  induction calls as [|k calls IH]; intros c; simpl; [reflexivity|].
  intros H. apply orb_false_iff in H. destruct H as [H1 H2].
  rewrite IH.
  - unfold addLabel. apply DrawString_no_ink. exact H1.
  - unfold addLabel. now rewrite DrawString_Rect.
Qed.

Lemma drawLabels_ext (face : font.Face) (calls : list LabelCall) :
  forall c1 c2,
    RGBARect c1 = RGBARect c2 ->
    (forall x y, Pix c1 x y = Pix c2 x y) ->
    forall x y,
      Pix (drawLabels runesOf c1 face calls) x y =
      Pix (drawLabels runesOf c2 face calls) x y.
Proof.
  unfold drawLabels.
  induction calls as [|k calls IH]; intros c1 c2 HR HP; simpl;
    [exact HP|].
  apply IH.
  - unfold addLabel. now rewrite !DrawString_Rect.
  - unfold addLabel. now apply DrawString_ext.
Qed.

(** The annotation returns a canvas whenever the font face is loaded and
    the canvas can be allocated. *)
Lemma annotate_bounds (img : Image) (banner : BannerMode) (bh : Z)
    (loc : string) (face : font.Face) :
  validBounds (Bounds img) -> allocatable img bh ->
  exists out c,
    buildCanvas img banner bh = Some c /\
    out = labelCanvas runesOf img banner bh loc face c /\
    annotate runesOf img banner bh loc (Some face) = Canvas out /\
    RGBARect c = Rect 0 0 (Dx (Bounds img)) (Dy (Bounds img) + 2 * bh) /\
    RGBARect out = RGBARect c.
Proof.
  intros Hb Hal.
  destruct (buildCanvas_bounds img banner bh Hb Hal) as (c & Hc & HR).
  exists (labelCanvas runesOf img banner bh loc face c), c.
  unfold annotate. rewrite Hc. repeat split; try assumption.
  unfold labelCanvas. apply drawLabels_Rect.
Qed.

End CanvasFacts.

Lemma parseRGB_opaque (scan : option (Z * Z * Z)) (c : color.RGBA) :
  parseRGB scan = Some c -> color.wf c /\ color.A c = 255.
Proof.
  destruct scan as [[[r g] b]|]; [|discriminate]. simpl.
  unfold parseRGB_scanned.
  destruct (_ || _) eqn:E; [discriminate|].
  intros H. injection H as <-. unfold color.wf, uint8; simpl.
  rewrite !Z.mod_small by lia. lia.
Qed.

(** Every banner that [main] builds has a well-formed, opaque background. *)
Lemma resolveBanner_opaque (classFlag textFlag : string)
    (bgScan txtScan : option (Z * Z * Z)) (banner : BannerMode) :
  resolveBanner classFlag textFlag bgScan txtScan = Some banner ->
  color.wf (BgColor banner) /\ color.A (BgColor banner) = 255.
Proof.
  unfold resolveBanner.
  destruct (String.eqb classFlag EmptyString) ; [discriminate|].
  destruct (String.eqb classFlag "custom").
  - destruct (parseRGB bgScan) as [bg|] eqn:Eb; [|discriminate].
    destruct (parseRGB txtScan) as [tc|]; [|discriminate].
    destruct (String.eqb textFlag EmptyString); [discriminate|].
    intros H. injection H as <-. simpl. eapply parseRGB_opaque; eassumption.
  - unfold bannerModes. cbn [mapIndex].
    repeat match goal with
           | |- context [if ?c then _ else _] => destruct c
           end; intros H; try discriminate; injection H as <-;
      unfold color.wf; simpl; lia.
Qed.

(* ===================================================================== *)
(** ** The canvas: dimensions, bands, and the missing dimension check *)
(* ===================================================================== *)

Section CanvasClaims.
Import image.

Variable runesOf : string -> list font.rune.

Lemma RGBAAt_inside (c : RGBA) (w nh x y : Z) :
  RGBARect c = mkRectangle (Pt 0 0) (Pt w nh) ->
  0 <= x < w -> 0 <= y < nh -> RGBAAt c x y = Pix c x y.
Proof.
  intros HR Hx Hy. unfold RGBAAt. rewrite HR.
  unfold PointIn; cbn [X Y Min Max].
  destruct (_ && _) eqn:E; [reflexivity|lia].
Qed.

(** The output of a valid input, with its bounds. *)
Lemma annotate_valid (img : Image) (banner : BannerMode) (bh : Z)
    (loc : string) (face : font.Face) :
  validInput img bh ->
  let c := canvasOf img banner bh in
  let out := labelCanvas runesOf img banner bh loc face c in
  annotate runesOf img banner bh loc (Some face) = Canvas out /\
  RGBARect c = RGBARect out /\
  RGBARect out =
    mkRectangle (Pt 0 0)
                (Pt (Dx (Bounds img)) (Dy (Bounds img) + 2 * bh)).
Proof.
  intros (Hb & Hw1 & Hh1 & Hbh1 & Hal) c out.
  assert (HR : RGBARect out = RGBARect c)
    by (unfold out, labelCanvas; apply drawLabels_Rect).
  repeat split.
  - unfold annotate. now rewrite buildCanvas_eq.
  - now rewrite HR.
  - rewrite HR. unfold c, canvasOf. rewrite !Draw_Src_Rect.
    cbn [RGBARect]. apply Rect_ordered; lia.
Qed.

(** ** C1 *)

(** C1. For every valid source bitmap and banner height, the annotation
    returns an output bitmap whose width is the width of the source and
    whose height is the height of the source plus twice the banner
    height. *)
Theorem C1_output_dimensions (img : Image) (banner : BannerMode) (bh : Z)
    (loc : string) (face : font.Face) :
  validInput img bh ->
  exists out,
    annotate runesOf img banner bh loc (Some face) = Canvas out /\
    Dx (RGBARect out) = Dx (Bounds img) /\
    Dy (RGBARect out) = Dy (Bounds img) + 2 * bh.
Proof.
  intros Hv. destruct (annotate_valid img banner bh loc face Hv)
    as (Ha & _ & HR).
  eexists. split; [exact Ha|]. rewrite HR.
  destruct Hv as (Hb & Hw1 & Hh1 & Hbh1 & Hbh & Hal).
  destruct (Dx_valid _ Hb) as [_ Hw]. destruct (Dy_valid _ Hb) as [_ Hh].
  unfold coordLimit in *.
  rewrite Dx_mk, Dy_mk
    by (unfold GoInt.inRange, GoInt.minInt, GoInt.maxInt; lia).
  lia.
Qed.

(** ** C2 *)

(** C2, as amended. For every valid source bitmap and banner height, every
    pixel of the middle band on which no label puts ink is the source
    pixel at [(x, y - bannerHeight)], counted from the minimum of the
    source bounds, converted to the 8-bit premultiplied colour model of
    the canvas (the high byte of each channel), without blending; it is
    the source pixel itself when that pixel is such a colour. *)
Theorem C2_middle_band (img : Image) (banner : BannerMode) (bh : Z)
    (loc : string) (face : font.Face) :
  validInput img bh ->
  exists out,
    annotate runesOf img banner bh loc (Some face) = Canvas out /\
    forall x y,
      0 <= x < Dx (Bounds img) -> bh <= y < bh + Dy (Bounds img) ->
      inkAt runesOf (RGBARect out) face
            (placements runesOf img banner bh loc face) x y = false ->
      let src := At img (X (Min (Bounds img)) + x)
                        (Y (Min (Bounds img)) + (y - bh)) in
      RGBAAt out x y = color.rgbaModel src /\
      (forall c, color.wf c -> src = color.RGBA_RGBA c ->
                 color.RGBA_RGBA (RGBAAt out x y) = src).
Proof.
  intros Hv. destruct (annotate_valid img banner bh loc face Hv)
    as (Ha & HRc & HR).
  eexists. split; [exact Ha|]. intros x y Hx Hy Hink src.
  pose proof Hv as (Hb & Hw1 & Hh1 & Hbh1 & Hbh & Hal).
  assert (E : RGBAAt (labelCanvas runesOf img banner bh loc face
                        (canvasOf img banner bh)) x y =
              color.rgbaModel src).
  { rewrite (RGBAAt_inside _ _ _ x y HR) by lia.
    unfold labelCanvas. rewrite drawLabels_no_ink.
    - now apply canvasOf_middle.
    - rewrite HRc. exact Hink. }
  split; [exact E|].
  intros c Hc Hsrc. rewrite E, Hsrc. now rewrite rgbaModel_RGBA.
Qed.

(** ** The banner bands *)

(** The fill of the banners where it is complete.  For every valid source
    bitmap and banner height within the bounds of an [image.Uniform], the
    source of the fill, and every banner that [main] builds, every pixel
    of the top band and of the bottom band on which no label puts ink is
    the background colour of the banner, fully opaque: [draw.Draw] with
    [draw.Src] overwrites and does not blend. *)
Theorem banner_bands_filled (img : Image) (banner : BannerMode) (bh : Z)
    (loc : string) (face : font.Face)
    (classFlag textFlag : string) (bgScan txtScan : option (Z * Z * Z)) :
  validInput img bh ->
  Dx (Bounds img) <= uniformLimit -> bh <= uniformLimit ->
  resolveBanner classFlag textFlag bgScan txtScan = Some banner ->
  exists out,
    annotate runesOf img banner bh loc (Some face) = Canvas out /\
    forall x y,
      0 <= x < Dx (RGBARect out) ->
      0 <= y < bh \/ Dy (RGBARect out) - bh <= y < Dy (RGBARect out) ->
      inkAt runesOf (RGBARect out) face
            (placements runesOf img banner bh loc face) x y = false ->
      RGBAAt out x y = BgColor banner /\ color.A (RGBAAt out x y) = 255.
Proof.
  intros Hv Hwu Hbu Hres.
  destruct (resolveBanner_opaque _ _ _ _ _ Hres) as [Hwf Hop].
  destruct (annotate_valid img banner bh loc face Hv) as (Ha & HRc & HR).
  eexists. split; [exact Ha|]. intros x y Hx Hy Hink.
  pose proof Hv as (Hb & Hw1 & Hh1 & Hbh1 & Hbh & Hal).
  destruct (Dx_valid _ Hb) as [_ Hw]. destruct (Dy_valid _ Hb) as [_ Hh].
  rewrite HR in Hx, Hy. unfold coordLimit in *.
  rewrite Dx_mk in Hx
    by (unfold GoInt.inRange, GoInt.minInt, GoInt.maxInt; lia).
  rewrite Dy_mk in Hy
    by (unfold GoInt.inRange, GoInt.minInt, GoInt.maxInt; lia).
  assert (E : RGBAAt (labelCanvas runesOf img banner bh loc face
                        (canvasOf img banner bh)) x y = BgColor banner).
  { rewrite (RGBAAt_inside _ _ _ x y HR) by lia.
    unfold labelCanvas. rewrite drawLabels_no_ink.
    - rewrite canvasOf_banner; try assumption; try lia.
      now apply rgbaModel_RGBA.
    - rewrite HRc. exact Hink. }
  split; [exact E|]. now rewrite E.
Qed.

(** ** C4 *)

(** C4, as amended. The annotation checks no dimension and has no error
    for one: with a banner height that is zero or negative, or a source
    without width or height, it still returns an output bitmap whenever
    the canvas can be allocated and the font face is loaded; its width is
    the width of the source and its height the absolute value of the
    height of the source plus twice the banner height. *)
Theorem C4_no_dimension_check (img : Image) (banner : BannerMode) (bh : Z)
    (loc : string) (face : font.Face) :
  validBounds (Bounds img) -> allocatable img bh ->
  bh <= 0 \/ Dx (Bounds img) = 0 \/ Dy (Bounds img) = 0 ->
  exists out,
    annotate runesOf img banner bh loc (Some face) = Canvas out /\
    Dx (RGBARect out) = Dx (Bounds img) /\
    Dy (RGBARect out) = Z.abs (Dy (Bounds img) + 2 * bh).
Proof.
  intros Hb Hal _.
  destruct (annotate_bounds runesOf img banner bh loc face Hb Hal)
    as (out & c & _ & _ & Ha & HRc & HR).
  exists out. split; [exact Ha|]. rewrite HR, HRc.
  destruct Hal as [Hbh Hal].
  destruct (Dx_valid _ Hb) as [_ Hw]. destruct (Dy_valid _ Hb) as [_ Hh].
  destruct (Z_le_gt_dec 0 (Dy (Bounds img) + 2 * bh)).
  - rewrite Rect_ordered by lia. unfold coordLimit in *.
    rewrite Dx_mk, Dy_mk
      by (unfold GoInt.inRange, GoInt.minInt, GoInt.maxInt; lia).
    lia.
  - rewrite Rect_swapped_Y by lia. unfold coordLimit in *.
    rewrite Dx_mk, Dy_mk
      by (unfold GoInt.inRange, GoInt.minInt, GoInt.maxInt; lia).
    lia.
Qed.

End CanvasClaims.

(* ===================================================================== *)
(** ** [float64]: the product by 0.05 and its conversion to [int] *)
(* ===================================================================== *)

Section Float64Facts.

Lemma digits2_pos_bounds (p : positive) :
  2 ^ (Zpos (digits2_pos p) - 1) <= Zpos p < 2 ^ Zpos (digits2_pos p).
Proof.
  induction p as [p IH|p IH|]; cbn [digits2_pos].
  - rewrite Pos2Z.inj_succ.
    replace (Z.succ (Zpos (digits2_pos p)) - 1)
      with (Z.succ (Zpos (digits2_pos p) - 1)) by lia.
    rewrite !Z.pow_succ_r by lia. lia.
  - rewrite Pos2Z.inj_succ.
    replace (Z.succ (Zpos (digits2_pos p)) - 1)
      with (Z.succ (Zpos (digits2_pos p) - 1)) by lia.
    rewrite !Z.pow_succ_r by lia. lia.
  - simpl. lia.
Qed.

Lemma digits2_pos_unique (p : positive) (d : Z) :
  2 ^ (d - 1) <= Zpos p < 2 ^ d -> Zpos (digits2_pos p) = d.
Proof.
  intros H. pose proof (digits2_pos_bounds p) as B.
  set (D := Zpos (digits2_pos p)) in *.
  assert (HD : 0 < D) by (subst D; lia).
  assert (Hd : 0 < d).
  { destruct (Z_lt_le_dec 0 d); [assumption|].
    rewrite (Z.pow_neg_r 2 (d-1)) in H by lia.
    destruct (Z.eq_dec d 0) as [->|]; [simpl in H; lia|].
    rewrite (Z.pow_neg_r 2 d) in H by lia. lia. }
  destruct (Z.lt_trichotomy D d) as [Hlt|[Heq|Hgt]]; [|assumption|].
  - assert (2 ^ D <= 2 ^ (d - 1)) by (apply Z.pow_le_mono_r; lia). lia.
  - assert (2 ^ d <= 2 ^ (D - 1)) by (apply Z.pow_le_mono_r; lia). lia.
Qed.

Lemma iter_xO (d : positive) (m : positive) :
  Zpos (Pos.iter xO m d) = Zpos m * 2 ^ Zpos d.
Proof.
  induction d as [|d IHd] using Pos.peano_ind.
  - simpl. lia.
  - rewrite Pos.iter_succ, Pos2Z.inj_xO, IHd, Pos2Z.inj_succ,
      Z.pow_succ_r by lia. lia.
Qed.

Lemma iter_pos_nat {A : Type} (f : A -> A) (p : positive) (x : A) :
  iter_pos f p x = Nat.iter (Pos.to_nat p) f x.
Proof.
  revert x. induction p as [p IH|p IH|]; intros x; cbn [iter_pos].
  - rewrite !IH, Pos2Nat.inj_xI.
    replace (S (2 * Pos.to_nat p)) with (Pos.to_nat p + (Pos.to_nat p + 1))%nat
      by lia.
    rewrite !Nat.iter_add. reflexivity.
  - rewrite !IH, Pos2Nat.inj_xO.
    replace (2 * Pos.to_nat p)%nat with (Pos.to_nat p + Pos.to_nat p)%nat
      by lia.
    rewrite Nat.iter_add. reflexivity.
  - reflexivity.
Qed.

Lemma shr_1_m (mrs : shr_record) :
  0 <= shr_m mrs ->
  shr_m (shr_1 mrs) = shr_m mrs / 2 /\ shr_r (shr_1 mrs) = Z.odd (shr_m mrs).
Proof.
  destruct mrs as [m r s]; simpl. intros Hm.
  destruct m as [|[p|p|]|p]; simpl; try lia; split; try reflexivity.
  - rewrite Pos2Z.inj_xI. symmetry.
    replace (2 * Zpos p + 1) with (1 + Zpos p * 2) by lia.
    rewrite Z.div_add by lia. reflexivity.
  - rewrite Pos2Z.inj_xO. symmetry. rewrite Z.mul_comm.
    apply Z.div_mul. lia.
Qed.

Lemma shr_iter_m (k : nat) (mrs : shr_record) :
  0 <= shr_m mrs ->
  shr_m (Nat.iter k shr_1 mrs) = shr_m mrs / 2 ^ Z.of_nat k.
Proof.
  intros Hm. induction k as [|k IH].
  - simpl. now rewrite Z.div_1_r.
  - rewrite Nat.iter_succ.
    assert (Hk : 0 <= shr_m (Nat.iter k shr_1 mrs)).
    { rewrite IH. apply Z.div_pos; lia. }
    destruct (shr_1_m _ Hk) as [E _]. rewrite E, IH.
    rewrite Nat2Z.inj_succ, Z.pow_succ_r by lia.
    rewrite Z.div_div by lia. f_equal. lia.
Qed.

Lemma shr_iter_r (k : nat) (mrs : shr_record) :
  0 <= shr_m mrs ->
  shr_r (Nat.iter (S k) shr_1 mrs) = Z.odd (shr_m mrs / 2 ^ Z.of_nat k).
Proof.
  intros Hm. rewrite Nat.iter_succ.
  assert (Hk : 0 <= shr_m (Nat.iter k shr_1 mrs)).
  { rewrite shr_iter_m by assumption. apply Z.div_pos; lia. }
  destruct (shr_1_m _ Hk) as [_ E]. rewrite E.
  now rewrite shr_iter_m.
Qed.

Lemma odd_div_mod (m : Z) (k : Z) :
  0 <= m -> 0 <= k -> Z.odd (m / 2 ^ k) = true ->
  2 ^ (k + 1) <= 2 * (m mod 2 ^ (k + 1)).
Proof.
  intros Hm Hk Hodd.
  rewrite Z.pow_add_r by lia. change (2 ^ 1) with 2.
  assert (Hp : 0 < 2 ^ k) by (apply Z.pow_pos_nonneg; lia).
  rewrite Z.rem_mul_r by lia.
  rewrite Zmod_odd, Hodd.
  pose proof (Z.mod_pos_bound m (2 ^ k) Hp). lia.
Qed.

Lemma fexp_normal (D e : Z) :
  -1074 <= D + e - 53 -> fexp 53 1024 (D + e) = D + e - 53.
Proof. intros H. unfold fexp, emin. lia. Qed.

(** Rounding a positive integer of 53 + n digits to 53 digits. *)
Lemma round_aux_pos (P : positive) (e : Z) (n : positive) :
  Zpos (digits2_pos P) = 53 + Zpos n ->
  -1074 <= e + Zpos n -> e + Zpos n + 1 <= 971 ->
  exists m2,
    (m2 = Zpos P / 2 ^ Zpos n \/
     m2 = Zpos P / 2 ^ Zpos n + 1 /\
     2 ^ Zpos n <= 2 * (Zpos P mod 2 ^ Zpos n)) /\
    2 ^ 52 <= m2 <= 2 ^ 53 /\
    binary_round_aux 53 1024 false (Zpos P) e loc_Exact =
    if m2 =? 2 ^ 53
    then S754_finite false (Z.to_pos (2 ^ 52)) (e + Zpos n + 1)
    else S754_finite false (Z.to_pos m2) (e + Zpos n).
Proof.
  intros HD He1 He2.
  pose proof (digits2_pos_bounds P) as HB. rewrite HD in HB.
  assert (Hpn : 0 < 2 ^ Zpos n) by (apply Z.pow_pos_nonneg; lia).
  assert (Hm1 : 2 ^ 52 <= Zpos P / 2 ^ Zpos n < 2 ^ 53).
  { replace (53 + Zpos n - 1) with (52 + Zpos n) in HB by lia.
    rewrite !Z.pow_add_r in HB by lia.
    split.
    - apply Z.div_le_lower_bound; lia.
    - apply Z.div_lt_upper_bound; lia. }
  unfold binary_round_aux, shr_fexp.
  cbn [Zdigits2 shr_record_of_loc]. rewrite HD.
  rewrite fexp_normal by lia.
  replace (53 + Zpos n + e - 53 - e) with (Zpos n) by lia.
  cbn [shr]. rewrite iter_pos_nat.
  set (mrs := Nat.iter (Pos.to_nat n) shr_1
                {| shr_m := Zpos P; shr_r := false; shr_s := false |}).
  assert (Em : shr_m mrs = Zpos P / 2 ^ Zpos n).
  { subst mrs. rewrite shr_iter_m by (simpl; lia).
    now rewrite positive_nat_Z. }
  assert (Er : shr_r mrs = true ->
               2 ^ Zpos n <= 2 * (Zpos P mod 2 ^ Zpos n)).
  { subst mrs. destruct (Pos.to_nat n) as [|k] eqn:Ek;
      [pose proof (Pos2Nat.is_pos n); lia|].
    rewrite shr_iter_r by (simpl; lia). cbn [shr_m]. intros Hodd.
    replace (Zpos n) with (Z.of_nat k + 1)
      by (rewrite <- (positive_nat_Z n), Ek; lia).
    apply odd_div_mod; [lia|lia|exact Hodd]. }
  set (m2 := round_nearest_even (shr_m mrs) (loc_of_shr_record mrs)).
  assert (H2 : m2 = Zpos P / 2 ^ Zpos n \/
               m2 = Zpos P / 2 ^ Zpos n + 1 /\
               2 ^ Zpos n <= 2 * (Zpos P mod 2 ^ Zpos n)).
  { subst m2. rewrite <- Em. destruct mrs as [m [|] [|]]; cbn in *;
      try (now left); try (right; split; [reflexivity|now apply Er]).
    destruct (Z.even m); [now left|].
    right; split; [reflexivity|now apply Er]. }
  exists m2. split; [exact H2|].
  assert (Hm2 : 2 ^ 52 <= m2 <= 2 ^ 53) by lia.
  split; [exact Hm2|].
  destruct (Z.eqb_spec m2 (2 ^ 53)) as [E53|N53].
  - rewrite E53. vm_compute Zdigits2.
    change (Zdigits2 (2 ^ 53)) with 54.
    replace (fexp 53 1024 (54 + (e + Zpos n)) - (e + Zpos n)) with 1
      by (unfold fexp, emin; lia).
    cbn [shr iter_pos shr_1 shr_record_of_loc shr_m].
    change (2 ^ 53) with (Zpos (2 ^ 53)%positive).
    cbn.
    destruct (Z.leb_spec (e + Zpos n + 1) 971); [reflexivity|lia].
  - assert (Hd : Zdigits2 m2 = 53).
    { destruct m2 as [|q|q]; try lia. cbn [Zdigits2].
      apply digits2_pos_unique. lia. }
    rewrite Hd.
    replace (fexp 53 1024 (53 + (e + Zpos n)) - (e + Zpos n)) with 0
      by (unfold fexp, emin; lia).
    cbn [shr shr_record_of_loc shr_m].
    destruct m2 as [|q|q]; try lia.
    cbn [Z.to_pos].
    destruct (Z.leb_spec (e + Zpos n) (1024 - 53)); [reflexivity|lia].
Qed.

(** A mantissa of 53 digits is already rounded. *)
Lemma round_aux_exact (mz : positive) (ez : Z) :
  Zpos (digits2_pos mz) = 53 -> -1074 <= ez <= 971 ->
  binary_round_aux 53 1024 false (Zpos mz) ez loc_Exact =
  S754_finite false mz ez.
Proof.
  intros HD He. unfold binary_round_aux, shr_fexp.
  cbn [Zdigits2 shr_record_of_loc]. rewrite HD.
  replace (fexp 53 1024 (53 + ez) - ez) with 0 by (unfold fexp, emin; lia).
  cbn [shr shr_m loc_of_shr_record round_nearest_even Zdigits2
       shr_record_of_loc].
  rewrite HD.
  replace (fexp 53 1024 (53 + ez) - ez) with 0 by (unfold fexp, emin; lia).
  cbn [shr shr_m].
  destruct (Z.leb_spec ez (1024 - 53)); [reflexivity|lia].
Qed.

(** [float64(w)] for a positive [w] of [d] digits, [d] below 53. *)
Lemma ofInt_pos (p : positive) (d : Z) :
  2 ^ (d - 1) <= Zpos p < 2 ^ d -> 1 <= d <= 52 ->
  exists mz,
    Zpos mz = Zpos p * 2 ^ (53 - d) /\
    Float64.ofInt (Zpos p) = S754_finite false mz (d - 53).
Proof.
  intros Hp Hd.
  pose proof (digits2_pos_unique p d Hp) as HD.
  unfold Float64.ofInt, Float64.prec, Float64.emax, binary_normalize,
    binary_round, shl_align.
  rewrite Z.add_0_r, HD.
  replace (fexp 53 1024 d) with (d - 53) by (unfold fexp, emin; lia).
  destruct (d - 53 - 0) as [|q|q] eqn:Eq; try lia.
  exists (Pos.iter xO p q).
  assert (Emz : Zpos (Pos.iter xO p q) = Zpos p * 2 ^ (53 - d)).
  { rewrite iter_xO. f_equal. f_equal. lia. }
  split; [exact Emz|].
  apply round_aux_exact; [|lia].
  apply digits2_pos_unique. rewrite Emz.
  assert (E1 : 2 ^ (53 - 1) = 2 ^ (d - 1) * 2 ^ (53 - d))
    by (rewrite <- Z.pow_add_r by lia; f_equal; lia).
  assert (E2 : 2 ^ 53 = 2 ^ d * 2 ^ (53 - d))
    by (rewrite <- Z.pow_add_r by lia; f_equal; lia).
  rewrite E1, E2.
  assert (0 < 2 ^ (53 - d)) by (apply Z.pow_pos_nonneg; lia).
  split.
  - apply Z.mul_le_mono_nonneg_r; lia.
  - apply Z.mul_lt_mono_pos_r; lia.
Qed.

Lemma toInt_finite_neg (m : positive) (e : Z) :
  e < 0 -> Zpos m / 2 ^ (- e) <= GoInt.maxInt ->
  Float64.toInt (S754_finite false m e) = Zpos m / 2 ^ (- e).
Proof.
  intros He Hv. unfold Float64.toInt.
  destruct (Z.geb_spec e 0); [lia|].
  assert (0 <= Zpos m / 2 ^ (- e)) by (apply Z.div_pos; [lia|apply Z.pow_pos_nonneg; lia]).
  unfold GoInt.minInt, GoInt.maxInt in *.
  destruct (_ && _) eqn:E; [reflexivity|lia].
Qed.

Ltac split_digits d lo hi :=
  let rec go k :=
    tryif (let b := eval vm_compute in (Z.ltb hi k) in
           match b with true => idtac | false => fail end)
    then (exfalso; lia)
    else (destruct (Z.eq_dec d k) as [->|?];
          [|let k' := eval vm_compute in (k + 1) in go k'])
  in go lo.

Ltac pow_consts :=
  repeat match goal with
         | H : context [2 ^ ?e] |- _ =>
             let v := eval cbv in (2 ^ e) in change (2 ^ e) with v in H
         | |- context [2 ^ ?e] =>
             let v := eval cbv in (2 ^ e) in change (2 ^ e) with v
         end.

Lemma marginX_one_case (w d n : Z) (P m2 : Z) :
  1 <= d <= 31 -> (n = 52 \/ n = 53) ->
  2 ^ (d - 1) <= w < 2 ^ d ->
  P = 7205759403792794 * (w * 2 ^ (53 - d)) ->
  2 ^ (52 + n) <= P < 2 ^ (53 + n) ->
  (m2 = P / 2 ^ n \/ m2 = P / 2 ^ n + 1 /\ 2 ^ n <= 2 * (P mod 2 ^ n)) ->
  m2 / 2 ^ (110 - d - n) = w / 20 /\
  (m2 = 2 ^ 53 -> 2 ^ 52 / 2 ^ (110 - d - n - 1) = w / 20).
Proof.
  intros Hd Hn Hw HP HPb Hm2.
  split_digits d 1 31.
  all: destruct Hn as [-> | ->].
  all: pow_consts.
  all: Z.div_mod_to_equations; lia.
Qed.

Lemma marginX_floor (w : Z) : 0 <= w < 2 ^ 31 -> marginX w = w / 20.
Proof.
  intros Hw. destruct w as [|p|p]; [reflexivity| |lia].
  set (d := Zpos (digits2_pos p)).
  pose proof (digits2_pos_bounds p) as HB. fold d in HB.
  assert (Hd : 1 <= d <= 31).
  { split; [subst d; lia|].
    destruct (Z_le_gt_dec d 31); [assumption|].
    assert (2 ^ 31 <= 2 ^ (d - 1)) by (apply Z.pow_le_mono_r; lia). lia. }
  destruct (ofInt_pos p d HB ltac:(lia)) as (mz & Emz & Eof).
  unfold marginX, Float64.mul. rewrite Eof.
  unfold Float64.c0_05, Float64.prec, Float64.emax, SFmul. cbn [xorb].
  set (P := (7205759403792794 * mz)%positive).
  assert (EP : Zpos P = 7205759403792794 * (Zpos p * 2 ^ (53 - d)))
    by (subst P; rewrite Pos2Z.inj_mul, Emz; reflexivity).
  assert (Hmz : 2 ^ 52 <= Zpos mz < 2 ^ 53).
  { rewrite Emz.
    assert (E1 : 2 ^ 52 = 2 ^ (d - 1) * 2 ^ (53 - d))
      by (rewrite <- Z.pow_add_r by lia; f_equal; lia).
    assert (E2 : 2 ^ 53 = 2 ^ d * 2 ^ (53 - d))
      by (rewrite <- Z.pow_add_r by lia; f_equal; lia).
    rewrite E1, E2.
    assert (0 < 2 ^ (53 - d)) by (apply Z.pow_pos_nonneg; lia).
    split.
    - apply Z.mul_le_mono_nonneg_r; lia.
    - apply Z.mul_lt_mono_pos_r; lia. }
  assert (HPb : 2 ^ 104 <= Zpos P < 2 ^ 106).
  { subst P. rewrite Pos2Z.inj_mul.
    change (2 ^ 52) with 4503599627370496 in Hmz.
    change (2 ^ 53) with 9007199254740992 in Hmz.
    change (2 ^ 104) with 20282409603651670423947251286016.
    change (2 ^ 106) with 81129638414606681695789005144064.
    lia. }
  assert (Hn : exists n : positive,
             (Zpos n = 52 \/ Zpos n = 53) /\
             2 ^ (52 + Zpos n) <= Zpos P < 2 ^ (53 + Zpos n)).
  { destruct (Z_lt_le_dec (Zpos P) (2 ^ 105)).
    - exists 52%positive. split; [now left|]. split; [apply HPb|assumption].
    - exists 53%positive. split; [now right|]. split; [assumption|apply HPb]. }
  destruct Hn as (n & Hn & HPn).
  assert (HD : Zpos (digits2_pos P) = 53 + Zpos n).
  { apply digits2_pos_unique.
    replace (53 + Zpos n - 1) with (52 + Zpos n) by lia. exact HPn. }
  destruct (round_aux_pos P (-57 + (d - 53)) n HD ltac:(lia) ltac:(lia))
    as (m2 & Hm2 & Hm2b & Er).
  rewrite Er.
  destruct (marginX_one_case (Zpos p) d (Zpos n) (Zpos P) m2 Hd Hn HB EP HPn
              Hm2) as [Ha Hb].
  assert (Hq : 0 <= Zpos p / 20 < 2 ^ 31)
    by (split; [apply Z.div_pos; lia|apply Z.div_lt_upper_bound; lia]).
  destruct (Z.eqb_spec m2 (2 ^ 53)) as [E53|N53].
  - rewrite toInt_finite_neg.
    + rewrite <- (Hb E53). rewrite Z2Pos.id by lia. f_equal. f_equal. lia.
    + lia.
    + rewrite Z2Pos.id by lia.
      replace (- (-57 + (d - 53) + Zpos n + 1)) with (110 - d - Zpos n - 1)
        by lia.
      rewrite (Hb E53). unfold GoInt.maxInt. lia.
  - rewrite toInt_finite_neg.
    + rewrite <- Ha. rewrite Z2Pos.id by lia. f_equal. f_equal. lia.
    + lia.
    + rewrite Z2Pos.id by lia.
      replace (- (-57 + (d - 53) + Zpos n)) with (110 - d - Zpos n) by lia.
      rewrite Ha. unfold GoInt.maxInt. lia.
Qed.

End Float64Facts.

(* ===================================================================== *)
(** ** Label placement *)
(* ===================================================================== *)

Section PlacementClaims.

Variable runesOf : string -> list font.rune.

Lemma wrap32_range (z : Z) : - 2 ^ 31 <= fixed.wrap32 z < 2 ^ 31.
Proof.
  unfold fixed.wrap32.
  pose proof (Z.mod_pos_bound (z + 2 ^ 31) (2 ^ 32) ltac:(lia)). lia.
Qed.

(** A measured width is a rounded [Int26_6]. *)
Lemma measureText_range (face : font.Face) (text : string) :
  - 2 ^ 25 <= measureText runesOf face text < 2 ^ 25.
Proof.
  unfold measureText, fixed.Round.
  pose proof (wrap32_range
                (font.MeasureString face 0 (-1) (runesOf text) + 32)) as H.
  rewrite Z.shiftr_div_pow2 by lia.
  split.
  - apply Z.div_le_lower_bound; lia.
  - apply Z.div_lt_upper_bound; lia.
Qed.

Lemma quot2_exact (z : Z) :
  GoInt.inRange z -> GoInt.quot z 2 = Z.quot z 2 /\
  - 2 ^ 62 <= Z.quot z 2 <= 2 ^ 62 - 1.
Proof.
  unfold GoInt.inRange, GoInt.quot, GoInt.minInt, GoInt.maxInt. intros H.
  assert (Hq : - 2 ^ 62 <= Z.quot z 2 <= 2 ^ 62 - 1).
  { pose proof (Z.quot_rem' z 2) as E.
    destruct (Z_le_gt_dec 0 z).
    - pose proof (Z.rem_bound_pos_pos z 2 ltac:(lia) ltac:(lia)). lia.
    - pose proof (Z.rem_bound_pos_neg z 2 ltac:(lia) ltac:(lia)). lia. }
  split; [|exact Hq].
  apply wrap_small. unfold GoInt.minInt, GoInt.maxInt. lia.
Qed.

(** ** C5 *)

(** C5, as amended. The vertical anchor of the top label is
    [bannerHeight/2 + 10] and that of the bottom label is
    [(outputHeight - bannerHeight/2) + 10], with the division of Go, in
    both placement modes.  The bottom anchor is the top anchor offset by
    [outputHeight - bannerHeight] when the banner height is even, and one
    pixel below that when it is odd and positive. *)
Theorem C5_vertical_anchors (bh newHeight : Z) :
  - coordLimit <= bh <= coordLimit ->
  - coordLimit <= newHeight <= 4 * coordLimit ->
  topY bh = Z.quot bh 2 + 10 /\
  botY newHeight bh = (newHeight - Z.quot bh 2) + 10 /\
  (Z.even bh = true ->
   botY newHeight bh = Z.quot bh 2 + 10 + (newHeight - bh)) /\
  (Z.odd bh = true -> 0 < bh ->
   botY newHeight bh = Z.quot bh 2 + 10 + (newHeight - bh) + 1) /\
  (forall loc banner width face c,
      In c (labelCalls runesOf loc banner width bh newHeight face) ->
      labelY c = topY bh \/ labelY c = botY newHeight bh).
Proof.
  intros Hbh Hnh. unfold coordLimit in *.
  assert (Hr : GoInt.inRange bh)
    by (unfold GoInt.inRange, GoInt.minInt, GoInt.maxInt; lia).
  destruct (quot2_exact bh Hr) as [Eq _].
  assert (Hq : - 2 ^ 60 <= Z.quot bh 2 <= 2 ^ 60).
  { pose proof (Z.quot_rem' bh 2) as E.
    pose proof (Z.rem_bound_abs bh 2 ltac:(lia)) as R. lia. }
  assert (Et : topY bh = Z.quot bh 2 + 10).
  { unfold topY, GoInt.add. rewrite Eq. unwrap. reflexivity. }
  assert (Eb : botY newHeight bh = newHeight - Z.quot bh 2 + 10).
  { unfold botY, GoInt.add, GoInt.sub. rewrite Eq. unwrap. reflexivity. }
  split; [exact Et|]. split; [exact Eb|]. split; [|split].
  - intros Hev. rewrite Eb.
    apply Z.even_spec in Hev. destruct Hev as [k ->].
    rewrite (Z.mul_comm 2 k), Z.quot_mul by lia. lia.
  - intros Hod Hpos. rewrite Eb.
    apply Z.odd_spec in Hod. destruct Hod as [k ->].
    rewrite Z.quot_div_nonneg by lia.
    replace (2 * k + 1) with (1 + k * 2) by lia.
    rewrite Z.div_add by lia. rewrite (Z.div_small 1 2) by lia. lia.
  - intros loc banner width face c. unfold labelCalls.
    destruct (String.eqb loc "corners"); simpl;
      intros H; repeat (destruct H as [<-|H]; [simpl; tauto|]);
      contradiction.
Qed.

(** ** C6 *)

(** C6, as amended. In corners mode exactly four labels are placed, top
    left, top right, bottom left, bottom right, all with the text and the
    text colour of the banner; the left ones at [x = margin] and the right
    ones at [x = imageWidth - margin - textWidth], where [textWidth] is
    the measured width and [margin] is [int(0.05 * float64(imageWidth))],
    the product with its fraction cut off; for a width below 2^31 that is
    the twentieth of the width rounded down. *)
Theorem C6_corners (banner : BannerMode) (width bh newHeight : Z)
    (face : font.Face) :
  let text := Text banner in
  let col := TextColor banner in
  let tw := measureText runesOf face text in
  let margin := marginX width in
  labelCalls runesOf "corners" banner width bh newHeight face =
    [ mkLabelCall text margin (topY bh) col;
      mkLabelCall text (GoInt.sub (GoInt.sub width margin) tw) (topY bh) col;
      mkLabelCall text margin (botY newHeight bh) col;
      mkLabelCall text (GoInt.sub (GoInt.sub width margin) tw)
                  (botY newHeight bh) col ] /\
  (0 <= width < 2 ^ 31 ->
   margin = width / 20 /\
   GoInt.sub (GoInt.sub width margin) tw = width - width / 20 - tw).
Proof.
  intros text col tw margin. split; [reflexivity|].
  intros Hw. subst margin. rewrite marginX_floor by assumption.
  split; [reflexivity|].
  pose proof (measureText_range face (Text banner)) as Ht. fold text tw in Ht.
  assert (0 <= width / 20 <= width).
  { split; [apply Z.div_pos; lia|].
    apply Z.div_le_upper_bound; lia. }
  unfold GoInt.sub. unwrap. reflexivity.
Qed.

(** ** C7 *)

(** C7. In center mode, and with every other placement value than
    ["corners"], exactly two labels are placed, one for each banner, at
    [x = imageWidth/2 - textWidth/2]; such a value gives the result of
    center mode, whatever that is. *)
Theorem C7_center_and_fallback (loc : string) (banner : BannerMode)
    (width bh newHeight : Z) (face : font.Face) :
  GoInt.inRange width -> loc <> "corners" ->
  let text := Text banner in
  let col := TextColor banner in
  let tw := measureText runesOf face text in
  labelCalls runesOf loc banner width bh newHeight face =
    [ mkLabelCall text (Z.quot width 2 - Z.quot tw 2) (topY bh) col;
      mkLabelCall text (Z.quot width 2 - Z.quot tw 2)
                  (botY newHeight bh) col ] /\
  labelCalls runesOf loc banner width bh newHeight face =
    labelCalls runesOf "center" banner width bh newHeight face /\
  (forall img faceResult,
      annotate runesOf img banner bh loc faceResult =
      annotate runesOf img banner bh "center" faceResult).
Proof.
  intros Hw Hloc text col tw.
  apply String.eqb_neq in Hloc.
  assert (Ec : labelCalls runesOf loc banner width bh newHeight face =
               labelCalls runesOf "center" banner width bh newHeight face).
  { unfold labelCalls. rewrite Hloc. reflexivity. }
  split; [|split; [exact Ec|]].
  - rewrite Ec. unfold labelCalls. simpl String.eqb. cbv iota.
    fold text col tw.
    assert (Ex : centerX width tw = Z.quot width 2 - Z.quot tw 2).
    { pose proof (measureText_range face (Text banner)) as Ht.
      fold text tw in Ht.
      assert (Htr : GoInt.inRange tw)
        by (unfold GoInt.inRange, GoInt.minInt, GoInt.maxInt; lia).
      destruct (quot2_exact width Hw) as [E1 B1].
      destruct (quot2_exact tw Htr) as [E2 B2].
      unfold centerX, GoInt.sub. rewrite E1, E2. unwrap. reflexivity. }
    now rewrite Ex.
  - intros img faceResult. unfold annotate, labelCanvas, labelCalls.
    rewrite Hloc. reflexivity.
Qed.

End PlacementClaims.

(* ===================================================================== *)
(** ** The origin of the source bounds *)
(* ===================================================================== *)

Section OriginClaims.
Import image.

Variable runesOf : string -> list font.rune.

(** The canvas of a valid input, pixel by pixel: the source inside the
    middle band, the banner fills elsewhere. *)
Lemma canvasOf_Pix (img : Image) (banner : BannerMode) (bh x y : Z) :
  validInput img bh ->
  let w := Dx (Bounds img) in
  let h := Dy (Bounds img) in
  Pix (canvasOf img banner bh) x y =
  if PointIn (Pt x y) (mkRectangle (Pt 0 bh) (Pt w (bh + h)))
  then color.rgbaModel (At img (X (Min (Bounds img)) + x)
                               (Y (Min (Bounds img)) + (y - bh)))
  else Pix (draw.Draw_Src
              (draw.Draw_Src
                 (mkRGBA (fun _ _ => color.zero)
                         (Rect 0 0 w (h + 2 * bh)))
                 (Rect 0 0 w bh) (Uniform (BgColor banner)) (Pt 0 0))
              (Rect 0 (h + 2 * bh - bh) w (h + 2 * bh))
              (Uniform (BgColor banner)) (Pt 0 0)) x y.
Proof.
  intros Hv w h.
  destruct (PointIn _ _) eqn:E.
  - apply canvasOf_middle; [exact Hv| |];
      unfold PointIn in E; cbn [X Y Min Max] in E; fold w h; lia.
  - unfold canvasOf. fold w h. apply Draw_Src_outside.
    destruct Hv as (Hb & Hw1 & Hh1 & Hbh1 & Hbh & Hal).
    rewrite Rect_ordered by (fold h in Hh1; lia). exact E.
Qed.

(** ** C10 *)

(** C10. The bounds of the output of a valid input start at the origin,
    and two valid sources that are the same up to a translation of their
    bounds have the same output: the same bounds and the same pixels. *)
Theorem C10_origin_and_translation (img1 img2 : Image) (dx dy : Z)
    (banner : BannerMode) (bh : Z) (loc : string) (face : font.Face) :
  validInput img1 bh -> validBounds (Bounds img2) ->
  translatedBy dx dy img1 img2 ->
  exists out1 out2,
    annotate runesOf img1 banner bh loc (Some face) = Canvas out1 /\
    annotate runesOf img2 banner bh loc (Some face) = Canvas out2 /\
    Min (RGBARect out1) = Pt 0 0 /\
    Min (RGBARect out2) = Pt 0 0 /\
    RGBARect out1 = RGBARect out2 /\
    forall x y, RGBAAt out1 x y = RGBAAt out2 x y.
Proof.
  intros Hv1 Hb2 [HB HAt].
  pose proof Hv1 as (Hb1 & Hw1 & Hh1 & Hbh1 & Hbh & Hal).
  destruct (Dx_valid _ Hb1) as [Ew1 _]. destruct (Dy_valid _ Hb1) as [Eh1 _].
  destruct (Dx_valid _ Hb2) as [Ew2 _]. destruct (Dy_valid _ Hb2) as [Eh2 _].
  assert (Ew : Dx (Bounds img2) = Dx (Bounds img1))
    by (rewrite Ew1, Ew2, HB; cbn [X Y Min Max]; lia).
  assert (Eh : Dy (Bounds img2) = Dy (Bounds img1))
    by (rewrite Eh1, Eh2, HB; cbn [X Y Min Max]; lia).
  assert (Hv2 : validInput img2 bh).
  { unfold validInput, allocatable. rewrite Ew, Eh.
    split; [exact Hb2|]. split; [exact Hw1|]. split; [exact Hh1|].
    split; [exact Hbh1|]. split; [exact Hbh|exact Hal]. }
  destruct (annotate_valid runesOf img1 banner bh loc face Hv1)
    as (Ha1 & HRc1 & HR1).
  destruct (annotate_valid runesOf img2 banner bh loc face Hv2)
    as (Ha2 & HRc2 & HR2).
  do 2 eexists. split; [exact Ha1|]. split; [exact Ha2|].
  rewrite HR1, HR2, Ew, Eh. repeat split.
  assert (HP : forall x y,
             Pix (labelCanvas runesOf img1 banner bh loc face
                    (canvasOf img1 banner bh)) x y =
             Pix (labelCanvas runesOf img2 banner bh loc face
                    (canvasOf img2 banner bh)) x y).
  { unfold labelCanvas. rewrite Ew, Eh. apply drawLabels_ext.
    - rewrite HRc1, HRc2, HR1, HR2, Ew, Eh. reflexivity.
    - intros x y. rewrite !canvasOf_Pix by assumption.
      rewrite Ew, Eh.
      destruct (PointIn _ _); [|reflexivity].
      rewrite HB; cbn [X Y Min Max]. rewrite <- HAt. f_equal.
      f_equal; lia. }
  intros x y. unfold RGBAAt. rewrite HR1, HR2, Ew, Eh.
  destruct (PointIn _ _); [apply HP|reflexivity].
Qed.

End OriginClaims.

(* ===================================================================== *)
(** ** Reasoning on computations that talk to the operating system *)
(* ===================================================================== *)

Section IOFacts.

Variable env : list Event -> Call -> Resp.

Lemma sat_ret {A : Type} (a : A) (tr : list Event)
    (Q : option A -> list Event -> Prop) :
  Q (Some a) [] -> sat (ret a) tr Q.
Proof.
  intros H. exists (Some a), []. split; [|exact H].
  unfold ret. now rewrite app_nil_r.
Qed.

Lemma sat_panic {A : Type} (tr : list Event)
    (Q : option A -> list Event -> Prop) :
  Q None [] -> sat panic tr Q.
Proof.
  intros H. exists None, []. split; [|exact H].
  unfold panic. now rewrite app_nil_r.
Qed.

Lemma sat_bind {A B : Type} (m : IO A) (k : A -> IO B) (tr : list Event)
    (Q : option B -> list Event -> Prop) :
  sat m tr (fun r seg1 =>
              match r with
              | Some a => sat (k a) (tr ++ seg1)
                              (fun r2 seg2 => Q r2 (seg1 ++ seg2)%list)
              | None => Q None seg1
              end) ->
  sat (bind m k) tr Q.
Proof.
  intros (r & seg1 & Em & H). unfold sat, bind. rewrite Em.
  destruct r as [a|].
  - destruct H as (r2 & seg2 & Ek & HQ).
    exists r2, (seg1 ++ seg2)%list. rewrite Ek, app_assoc. now split.
  - exists None, seg1. now split.
Qed.

Lemma sat_call_bind {B : Type} (c : Call) (k : Resp -> IO B)
    (tr : list Event) (Q : option B -> list Event -> Prop) :
  sat (k (env tr c)) (tr ++ [(c, env tr c)])
      (fun r seg => Q r ((c, env tr c) :: seg)) ->
  sat (bind (call env c) k) tr Q.
Proof.
  intros H. apply sat_bind.
  exists (Some (env tr c)), [(c, env tr c)]. split; [reflexivity|exact H].
Qed.

Lemma sat_deferring {A : Type} (c : Call) (body : IO A) (tr : list Event)
    (Q : option A -> list Event -> Prop) :
  sat body tr (fun r seg =>
                 Q r (seg ++ [(c, env (tr ++ seg) c)])%list) ->
  sat (deferring (call env c) body) tr Q.
Proof.
  intros (r & seg & Eb & H). unfold sat, deferring, call. rewrite Eb.
  exists r, (seg ++ [(c, env (tr ++ seg) c)])%list.
  rewrite app_assoc. now split.
Qed.

End IOFacts.

(** One step along the text of a computation. *)
Ltac io_abs :=
  cbv beta iota; cbn [app];
  try match goal with
      | |- sat _ ?t _ =>
          tryif is_var t then idtac
          else (let tr' := fresh "tr" in generalize t; intro tr')
      end.

Ltac io_case b :=
  let E := fresh "E" in
  destruct b eqn:E; try discriminate E; try (cbn in E; discriminate E).

Ltac io_step env :=
  lazymatch goal with
  | |- sat (bind (call _ ?c) _) ?tr _ =>
      apply (sat_call_bind env);
      let r := fresh "r" in let Hr := fresh "Hr" in
      remember (env tr c) as r eqn:Hr
  | |- sat (bind _ _) _ _ => apply sat_bind
  | |- sat (deferring (call _ _) _) _ _ => apply (sat_deferring env)
  | |- sat (ret _) _ _ => apply sat_ret
  | |- sat panic _ _ => apply sat_panic
  | |- sat (if ?b then _ else _) _ _ => io_case b
  | |- sat (match ?x with inl _ => _ | inr _ => _ end) _ _ => io_case x
  | |- sat (match ?x with Some _ => _ | None => _ end) _ _ => io_case x
  | |- sat (let '(_, _) := ?x in _) _ _ => destruct x
  end; io_abs.

Ltac in_cases H :=
  cbn [In] in H;
  repeat match type of H with
         | _ \/ _ => destruct H as [H|H]
         | False => contradiction
         end.

Ltac in_now := cbn [In]; repeat (first [left; reflexivity | right]).

Ltac resp_true :=
  repeat match goal with
         | E : negb (asBool ?r) = false |- _ =>
             is_var r; destruct r as [[|]| | |]; cbn in E;
             try discriminate E; clear E
         end.

Ltac fmt_contra :=
  match goal with
  | E : String.eqb ?s "jpeg" = true, H : ?s <> "jpeg" |- _ =>
      apply String.eqb_eq in E; contradiction
  | E : String.eqb ?s "png" = true, H : ?s <> "png" |- _ =>
      apply String.eqb_eq in E; contradiction
  | E : negb (String.eqb ?s "jpeg") && negb (String.eqb ?s "png") = false,
    H1 : ?s <> "jpeg", H2 : ?s <> "png" |- _ =>
      apply String.eqb_neq in H1; apply String.eqb_neq in H2;
      rewrite H1, H2 in E; discriminate E
  | E : negb false && negb false = false |- _ => discriminate E
  end.

(* ===================================================================== *)
(** ** The per-file pipeline and the batch driver *)
(* ===================================================================== *)

Section PipelineClaims.

Variable runesOf : string -> list font.rune.
Variable Join : string -> string -> string.
Variable Base : string -> string.
Variable env : list Event -> Call -> Resp.

Ltac leaf_panic Hnp :=
  exfalso; subst;
  match goal with
  | E : asDecoded _ = Some (?i, ?s), E' : buildCanvas ?i _ _ = None |- _ =>
      exact (Hnp _ _ _ _ E E')
  end.

Ltac leaf_undecoded HIn :=
  injection HIn as HIn; subst;
  match goal with
  | E : asDecoded _ = None |- _ => cbn [asDecoded] in E; discriminate E
  end.

Ltac leaf_decoded HIn :=
  injection HIn as HIn; subst;
  match goal with
  | E : asDecoded _ = Some _ |- _ =>
      cbn [asDecoded] in E; injection E as ? ?; subst
  end;
  split; [|split; [|split]];
  [ let H := fresh "H" in
    intros p out r' H; in_cases H; try discriminate H;
    try (apply String.eqb_eq; assumption); try fmt_contra
  | let H := fresh "H" in
    intros p out r' H; in_cases H; try discriminate H;
    try (apply String.eqb_eq; assumption); try fmt_contra
  | let H := fresh "H" in
    intros H; try discriminate H; try fmt_contra;
    match goal with
    | Ec : buildCanvas _ _ _ = Some _, Ef : asFace _ = Some ?f |- _ =>
        exists f; eexists; split;
        [ unfold annotate; rewrite Ec; reflexivity
        | resp_true;
          first [ left; split; [apply String.eqb_eq; assumption|in_now]
                | right; split; [apply String.eqb_eq; assumption|in_now] ] ]
    end
  | let H1 := fresh "H" in let H2 := fresh "H" in
    intros H1 H2;
    first [ fmt_contra
          | split; [reflexivity|];
            let H := fresh "H" in
            intros c r' H; in_cases H; injection H as H _; subst;
            reflexivity ] ].

Ltac leaf_success :=
  match goal with
  | E : asDecoded ?r = Some (?i, ?s) |- _ =>
      exists i, s; destruct r as [| [[? ?]|] | |]; cbn in E;
      try discriminate E; injection E as ? ?; subst; in_now
  end.

Ltac leaf :=
  repeat match goal with H : _ = env _ _ |- _ => clear H end;
  unfold formatPreserved; split;
  [ let HIn := fresh "HIn" in
    intros img fmt HIn; in_cases HIn; try discriminate HIn;
    first [leaf_undecoded HIn | leaf_decoded HIn]
  | let H := fresh "H" in
    intros H; try discriminate H; try fmt_contra; leaf_success ].

(** [processImage] returns, with an error or without, when the canvas
    fits. *)
Lemma processImage_returns (imagePath : string) (banner : BannerMode)
    (outputDir : string) (bh : Z) (loc : string) (tr : list Event) :
  canvasesFit env banner bh ->
  sat (processImage runesOf Join Base env imagePath banner outputDir bh loc)
      tr (fun r _ => exists err, r = Some err).
Proof.
  intros Hnp. unfold processImage, loadFontFace, encode.
  repeat io_step env.
  all: try (eexists; reflexivity).
  all: leaf_panic Hnp.
Qed.

Lemma processImage_format (imagePath : string) (banner : BannerMode)
    (outputDir : string) (bh : Z) (loc : string) (tr : list Event) :
  sat (processImage runesOf Join Base env imagePath banner outputDir bh loc)
      tr (formatPreserved runesOf Join Base imagePath banner outputDir bh loc).
Proof.
  unfold processImage, loadFontFace, encode.
  repeat io_step env.
  all: solve [leaf].
Qed.

(** ** C9 *)

(** C9. In every run of [processImage], whatever the outside world
    answers: when [image.Decode] returns an image with the format [fmt],
    every encoding of the run is in that format, a run that ends without
    error has encoded the annotated image with the encoder of [fmt], and
    when [fmt] is neither "jpeg" nor "png" the run ends with the
    unsupported-format error before any call that follows the building of
    the canvas.  A run without error has decoded an image. *)
Theorem C9_format_preserved (imagePath : string) (banner : BannerMode)
    (outputDir : string) (bh : Z) (loc : string) (tr : list Event) :
  exists res seg,
    processImage runesOf Join Base env imagePath banner outputDir bh loc tr
    = (res, (tr ++ seg)%list) /\
    (forall img fmt,
        In (ImageDecode imagePath, RDecoded (Some (img, fmt))) seg ->
        (forall p out r, In (JpegEncode p out, r) seg -> fmt = "jpeg") /\
        (forall p out r, In (PngEncode p out, r) seg -> fmt = "png") /\
        (res = Some None ->
         exists face out,
           annotate runesOf img banner bh loc (Some face) = Canvas out /\
           (fmt = "jpeg" /\
            In (JpegEncode (Join outputDir (Base imagePath)) out, ROk true)
               seg \/
            fmt = "png" /\
            In (PngEncode (Join outputDir (Base imagePath)) out, ROk true)
               seg)) /\
        (fmt <> "jpeg" -> fmt <> "png" ->
         res = Some (Some (ErrUnsupportedFormat fmt)) /\
         forall c r, In (c, r) seg -> afterCanvas c = false)) /\
    (res = Some None ->
     exists img fmt,
       In (ImageDecode imagePath, RDecoded (Some (img, fmt))) seg).
Proof.
  destruct (processImage_format imagePath banner outputDir bh loc tr)
    as (res & seg & E & H).
  exists res, seg. split; [exact E|exact H].
Qed.

Lemma Batch_paths (banner : BannerMode) (outputDir : string) (bh : Z)
    (loc : string) (tr : list Event) (ps : list string)
    (outs : list (string * option Error)) (tr' : list Event) :
  Batch runesOf Join Base env banner outputDir bh loc tr ps outs tr' -> map fst outs = ps.
Proof. induction 1; simpl; congruence. Qed.

Lemma processFiles_batch (dirPath : string) (banner : BannerMode)
    (outputDir : string) (bh : Z) (loc : string) (files : list DirEntry) :
  canvasesFit env banner bh ->
  forall tr hasErrors,
  exists outs tr',
    processFiles runesOf Join Base env dirPath banner outputDir bh loc
                 files hasErrors tr
    = (Some (hasErrors || existsb failed outs), tr') /\
    Batch runesOf Join Base env banner outputDir bh loc tr (filePaths Join dirPath files) outs tr'.
Proof.
  intros Hnp. unfold filePaths.
  induction files as [|file files IH]; intros tr hasErrors.
  - exists [], tr. simpl. rewrite orb_false_r. split; [reflexivity|].
    constructor.
  - simpl. destruct (IsDir file); simpl; [apply IH|].
    destruct (processImage_returns (Join dirPath (Name file)) banner
                outputDir bh loc tr Hnp) as (r & seg & E & err & ->).
    unfold bind at 1. rewrite E.
    destruct err as [e|].
    + unfold bind at 1, call at 1.
      destruct (IH ((tr ++ seg) ++
                    [(Print (MsgErrorProcessing (Join dirPath (Name file)) e),
                      env (tr ++ seg)
                        (Print (MsgErrorProcessing
                                  (Join dirPath (Name file)) e)))])%list
                   true) as (outs & tr' & E2 & HB).
      exists ((Join dirPath (Name file), Some e) :: outs), tr'.
      split.
      * rewrite E2. simpl. now rewrite orb_true_r.
      * econstructor; [exact E|exact HB].
    + unfold bind at 1, call at 1.
      destruct (IH ((tr ++ seg) ++
                    [(Print (MsgClassified (Join dirPath (Name file))),
                      env (tr ++ seg)
                        (Print (MsgClassified
                                  (Join dirPath (Name file)))))])%list
                   hasErrors) as (outs & tr' & E2 & HB).
      exists ((Join dirPath (Name file), None) :: outs), tr'.
      split.
      * rewrite E2. reflexivity.
      * econstructor; [exact E|exact HB].
Qed.

Lemma existsb_failed (outs : list (string * option Error)) :
  existsb failed outs = true <-> exists p e, In (p, Some e) outs.
Proof.
  rewrite existsb_exists. split.
  - intros ([p [e|]] & HIn & Hf); [|discriminate]. now exists p, e.
  - intros (p & e & HIn). now exists (p, Some e).
Qed.

(** A directory that cannot be read ends [processDirectory] with its own
    error, before any file. *)
Lemma processDirectory_unreadable (dirPath : string) (banner : BannerMode)
    (outputDir : string) (bh : Z) (loc : string) (tr : list Event) :
  asDir (env tr (OsReadDir dirPath)) = None ->
  processDirectory runesOf Join Base env dirPath banner outputDir bh loc tr
  = (Some (Some ErrReadDir),
     (tr ++ [(OsReadDir dirPath, env tr (OsReadDir dirPath))])%list).
Proof.
  intros H. unfold processDirectory, bind, call. now rewrite H.
Qed.

(** ** C8 *)

(** C8. When the directory can be read and the canvases fit,
    [processDirectory] returns after one run of [processImage] on each
    non-directory entry of the directory, in order and whatever the
    outcome of the runs before it; it returns the error "some images
    failed to process" if and only if one of these runs returned an
    error, and no error if and only if none did. *)
Theorem C8_batch_driver (dirPath : string) (banner : BannerMode)
    (outputDir : string) (bh : Z) (loc : string) (tr : list Event)
    (files : list DirEntry) :
  env tr (OsReadDir dirPath) = RDir (Some files) ->
  canvasesFit env banner bh ->
  exists outs tr' res,
    processDirectory runesOf Join Base env dirPath banner outputDir bh loc
                     tr = (Some res, tr') /\
    Batch runesOf Join Base env banner outputDir bh loc
          (tr ++ [(OsReadDir dirPath, RDir (Some files))])
          (filePaths Join dirPath files) outs tr' /\
    map fst outs = filePaths Join dirPath files /\
    (res = Some ErrSomeImagesFailed <-> exists p e, In (p, Some e) outs) /\
    (res = None <-> forall p r, In (p, r) outs -> r = None).
Proof.
  intros Hdir Hnp.
  destruct (processFiles_batch dirPath banner outputDir bh loc files Hnp
              (tr ++ [(OsReadDir dirPath, RDir (Some files))])%list false)
    as (outs & tr' & E & HB).
  exists outs, tr',
    (if existsb failed outs then Some ErrSomeImagesFailed else None).
  split; [|split; [exact HB|split; [exact (Batch_paths _ _ _ _ _ _ _ _ HB)|]]].
  - unfold processDirectory, bind at 1, call at 1. rewrite Hdir.
    cbn [asDir]. unfold bind. rewrite E. cbn [orb].
    destruct (existsb failed outs); reflexivity.
  - pose proof (existsb_failed outs) as Hf.
    destruct (existsb failed outs) eqn:Ex; (split; split).
    + intros _. now apply Hf.
    + intros _. reflexivity.
    + intros H. discriminate H.
    + intros Hall. exfalso.
      destruct (proj1 Hf eq_refl) as (p & e & HIn).
      specialize (Hall p (Some e) HIn). discriminate Hall.
    + intros H. discriminate H.
    + intros (p & e & HIn). exfalso.
      assert (Hc : false = true) by (apply Hf; now exists p, e).
      discriminate Hc.
    + intros _ p r HIn. destruct r as [e|]; [|reflexivity].
      assert (Hc : false = true) by (apply Hf; now exists p, e).
      discriminate Hc.
    + intros _. reflexivity.
Qed.

End PipelineClaims.

(* ===================================================================== *)
(** ** The claims on sample inputs *)
(* ===================================================================== *)

Ltac by_computation :=
  vm_compute; repeat split;
  let H := fresh "H" in intro H; discriminate H.

Section SampleRuns.
Import Samples.

Lemma scenario_valid : validInput scenario 60.
Proof. by_computation. Defined.

(** The first scenario of the specification: a 100 by 50 source and
    banners of 60 rows give a 100 by 170 output. *)
Lemma C1_witness :
  validInput scenario 60 /\
  exists out,
    annotate asciiRunes scenario cui 60 "center" (Some blockFace)
    = Canvas out /\
    image.Dx (image.RGBARect out) = image.Dx (image.Bounds scenario) /\
    image.Dy (image.RGBARect out)
    = image.Dy (image.Bounds scenario) + 2 * 60.
Proof.
  split; [exact scenario_valid|].
  apply (C1_output_dimensions asciiRunes scenario cui 60 "center" blockFace).
  exact scenario_valid.
Defined.

Lemma C2_witness :
  validInput scenario 60 /\
  exists out,
    annotate asciiRunes scenario cui 60 "center" (Some blockFace)
    = Canvas out /\
    forall x y,
      0 <= x < image.Dx (image.Bounds scenario) ->
      60 <= y < 60 + image.Dy (image.Bounds scenario) ->
      inkAt asciiRunes (image.RGBARect out) blockFace
            (placements asciiRunes scenario cui 60 "center" blockFace) x y
      = false ->
      let src :=
        image.At scenario
          (image.X (image.Min (image.Bounds scenario)) + x)
          (image.Y (image.Min (image.Bounds scenario)) + (y - 60)) in
      image.RGBAAt out x y = color.rgbaModel src /\
      (forall c, color.wf c -> src = color.RGBA_RGBA c ->
                 color.RGBA_RGBA (image.RGBAAt out x y) = src).
Proof.
  split; [exact scenario_valid|].
  apply (C2_middle_band asciiRunes scenario cui 60 "center" blockFace).
  exact scenario_valid.
Defined.

Lemma banner_bands_filled_witness :
  (validInput scenario 60 /\
   image.Dx (image.Bounds scenario) <= uniformLimit /\
   60 <= uniformLimit /\
   resolveBanner "cui" EmptyString None None = Some cui) /\
  exists out,
    annotate asciiRunes scenario cui 60 "center" (Some blockFace)
    = Canvas out /\
    forall x y,
      0 <= x < image.Dx (image.RGBARect out) ->
      0 <= y < 60 \/
      image.Dy (image.RGBARect out) - 60 <= y
        < image.Dy (image.RGBARect out) ->
      inkAt asciiRunes (image.RGBARect out) blockFace
            (placements asciiRunes scenario cui 60 "center" blockFace) x y
      = false ->
      image.RGBAAt out x y = BgColor cui /\
      color.A (image.RGBAAt out x y) = 255.
Proof.
  assert (Hw : image.Dx (image.Bounds scenario) <= uniformLimit)
    by by_computation.
  assert (Hb : 60 <= uniformLimit) by by_computation.
  assert (Hr : resolveBanner "cui" EmptyString None None = Some cui)
    by reflexivity.
  split; [exact (conj scenario_valid (conj Hw (conj Hb Hr)))|].
  exact (banner_bands_filled asciiRunes scenario cui 60 "center" blockFace
           "cui" EmptyString None None scenario_valid Hw Hb Hr).
Defined.

(** C3, which the code does not meet on every valid input.  [draw.Draw]
    clips the rectangle of a banner to the bounds of its source, and the
    bounds of an [image.Uniform] end 1000000000 pixels from the corner of
    the rectangle.  With a 1 by 1 source and banners of 1500000000 rows
    the canvas is 1 by 3000000001: row 999999999 of the top band is the
    background colour, and row 1000000000 of the top band and the last
    row of the bottom band, on which no label puts ink, are still the zero
    value of the new canvas.  With a source 1000000001 pixels wide and
    banners of one row, column 1000000000 of the top band is. *)
Theorem C3_fill_clipped :
  resolveBanner "cui" EmptyString None None = Some cui /\
  (validInput (solid 1 1 grey8) 1500000000 /\
   exists out,
     annotate asciiRunes (solid 1 1 grey8) cui 1500000000 "center"
              (Some blockFace) = Canvas out /\
     image.RGBARect out
     = image.mkRectangle (image.Pt 0 0) (image.Pt 1 3000000001) /\
     image.RGBAAt out 0 999999999 = BgColor cui /\
     inkAt asciiRunes (image.RGBARect out) blockFace
           (placements asciiRunes (solid 1 1 grey8) cui 1500000000 "center"
                       blockFace) 0 1000000000 = false /\
     image.RGBAAt out 0 1000000000 = color.zero /\
     inkAt asciiRunes (image.RGBARect out) blockFace
           (placements asciiRunes (solid 1 1 grey8) cui 1500000000 "center"
                       blockFace) 0 3000000000 = false /\
     image.RGBAAt out 0 3000000000 = color.zero) /\
  (validInput (solid 1000000001 1 grey8) 1 /\
   exists out,
     annotate asciiRunes (solid 1000000001 1 grey8) cui 1 "center"
              (Some blockFace) = Canvas out /\
     image.RGBARect out
     = image.mkRectangle (image.Pt 0 0) (image.Pt 1000000001 3) /\
     image.RGBAAt out 999999999 0 = BgColor cui /\
     inkAt asciiRunes (image.RGBARect out) blockFace
           (placements asciiRunes (solid 1000000001 1 grey8) cui 1 "center"
                       blockFace) 1000000000 0 = false /\
     image.RGBAAt out 1000000000 0 = color.zero) /\
  color.zero <> BgColor cui.
Proof.
  split; [reflexivity|]. split; [|split].
  - assert (Hv : validInput (solid 1 1 grey8) 1500000000)
      by by_computation.
    split; [exact Hv|].
    destruct (annotate_valid asciiRunes (solid 1 1 grey8) cui 1500000000
                "center" blockFace Hv) as (Ha & _ & HR).
    eexists. split; [exact Ha|]. split; [exact HR|].
    rewrite HR. vm_compute. repeat split.
  - assert (Hv : validInput (solid 1000000001 1 grey8) 1)
      by by_computation.
    split; [exact Hv|].
    destruct (annotate_valid asciiRunes (solid 1000000001 1 grey8) cui 1
                "center" blockFace Hv) as (Ha & _ & HR).
    eexists. split; [exact Ha|]. split; [exact HR|].
    rewrite HR. vm_compute. repeat split.
  - discriminate.
Qed.

Lemma C4_witness :
  (validBounds (image.Bounds scenario) /\ allocatable scenario 0 /\
   (0 <= 0 \/ image.Dx (image.Bounds scenario) = 0 \/
    image.Dy (image.Bounds scenario) = 0)) /\
  exists out,
    annotate asciiRunes scenario cui 0 "center" (Some blockFace)
    = Canvas out /\
    image.Dx (image.RGBARect out) = image.Dx (image.Bounds scenario) /\
    image.Dy (image.RGBARect out)
    = Z.abs (image.Dy (image.Bounds scenario) + 2 * 0).
Proof.
  assert (Hv : validBounds (image.Bounds scenario)) by by_computation.
  assert (Ha : allocatable scenario 0) by by_computation.
  assert (Hz : 0 <= 0 \/ image.Dx (image.Bounds scenario) = 0 \/
               image.Dy (image.Bounds scenario) = 0) by (left; lia).
  split; [exact (conj Hv (conj Ha Hz))|].
  exact (C4_no_dimension_check asciiRunes scenario cui 0 "center" blockFace
           Hv Ha Hz).
Defined.

(** A zero banner height and a source without pixels both give an output
    bitmap, and the whole pipeline ends without error on the first. *)
Lemma C4_counterexample :
  (exists out,
      annotate asciiRunes (solid 1 1 grey8) cui 0 "center" (Some blankFace)
      = Canvas out /\
      image.RGBARect out
      = image.mkRectangle (image.Pt 0 0) (image.Pt 1 1)) /\
  (exists out,
      annotate asciiRunes (solid 0 0 grey8) cui 60 "center"
               (Some blankFace)
      = Canvas out /\
      image.RGBARect out
      = image.mkRectangle (image.Pt 0 0) (image.Pt 0 120)) /\
  fst (processImage asciiRunes joinSlash (fun p => p)
         (envOk (solid 1 1 grey8) "png" blankFace [])
         "in.png" cui "out" 0 "center" [])
  = Some None.
Proof.
  split; [|split].
  - destruct (annotate_bounds asciiRunes (solid 1 1 grey8) cui 0 "center"
                blankFace) as (out & c & _ & _ & Ha & HRc & HR);
      [by_computation|by_computation|].
    exists out. split; [exact Ha|]. rewrite HR, HRc. reflexivity.
  - destruct (annotate_bounds asciiRunes (solid 0 0 grey8) cui 60 "center"
                blankFace) as (out & c & _ & _ & Ha & HRc & HR);
      [by_computation|by_computation|].
    exists out. split; [exact Ha|]. rewrite HR, HRc. reflexivity.
  - vm_compute. reflexivity.
Qed.

(** A translucent 16-bit pixel comes out with its channels cut to 8 bits,
    alpha included, and a banner of 10 rows lets the top label write on
    the fifth row of the source. *)
Lemma C2_counterexample :
  (validInput (solid 1 1 deep16) 1 /\
   exists out,
     annotate asciiRunes (solid 1 1 deep16) cui 1 "center" (Some blankFace)
     = Canvas out /\
     color.RGBA_RGBA (image.RGBAAt out 0 1)
     <> image.At (solid 1 1 deep16) 0 0 /\
     color.ca (color.RGBA_RGBA (image.RGBAAt out 0 1))
     <> color.ca (image.At (solid 1 1 deep16) 0 0)) /\
  (validInput (solid 100 50 grey8) 10 /\
   exists out,
     annotate asciiRunes (solid 100 50 grey8) cui 10 "center"
              (Some blockFace)
     = Canvas out /\
     color.RGBA_RGBA (image.RGBAAt out 50 14)
     <> image.At (solid 100 50 grey8) 50 4).
Proof.
  split.
  - assert (Hv : validInput (solid 1 1 deep16) 1) by by_computation.
    split; [exact Hv|].
    destruct (annotate_valid asciiRunes (solid 1 1 deep16) cui 1 "center"
                blankFace Hv) as (Ha & _).
    eexists. split; [exact Ha|]. split; by_computation.
  - assert (Hv : validInput (solid 100 50 grey8) 10) by by_computation.
    split; [exact Hv|].
    destruct (annotate_valid asciiRunes (solid 100 50 grey8) cui 10
                "center" blockFace Hv) as (Ha & _).
    eexists. split; [exact Ha|]. by_computation.
Qed.

Lemma C5_witness :
  (- coordLimit <= 60 <= coordLimit /\
   - coordLimit <= 170 <= 4 * coordLimit) /\
  (topY 60 = Z.quot 60 2 + 10 /\
   botY 170 60 = (170 - Z.quot 60 2) + 10 /\
   (Z.even 60 = true -> botY 170 60 = Z.quot 60 2 + 10 + (170 - 60)) /\
   (Z.odd 60 = true -> 0 < 60 ->
    botY 170 60 = Z.quot 60 2 + 10 + (170 - 60) + 1) /\
   (forall loc banner width face c,
       In c (labelCalls asciiRunes loc banner width 60 170 face) ->
       labelY c = topY 60 \/ labelY c = botY 170 60)).
Proof.
  assert (H1 : - coordLimit <= 60 <= coordLimit) by by_computation.
  assert (H2 : - coordLimit <= 170 <= 4 * coordLimit) by by_computation.
  split; [exact (conj H1 H2)|].
  exact (C5_vertical_anchors asciiRunes 60 170 H1 H2).
Defined.

(** With banners of 61 rows on the 100 by 50 source the output has 172
    rows and the bottom labels are anchored at row 152, one below the
    anchor of the claim. *)
Lemma C5_counterexample :
  map labelY (placements asciiRunes scenario cui 61 "center" blockFace)
  = [40; 152] /\
  map labelY (placements asciiRunes scenario cui 61 "corners" blockFace)
  = [40; 40; 152; 152] /\
  Z.quot 61 2 + 10 = 40 /\
  Z.quot 61 2 + 10 + ((50 + 2 * 61) - 61) = 151.
Proof. vm_compute. repeat split. Qed.

Lemma C6_witness :
  0 <= 100 < 2 ^ 31 /\
  (marginX 100 = 100 / 20 /\
   GoInt.sub (GoInt.sub 100 (marginX 100))
             (measureText asciiRunes blockFace (Text cui))
   = 100 - 100 / 20 - measureText asciiRunes blockFace (Text cui)).
Proof.
  assert (H : 0 <= 100 < 2 ^ 31) by lia.
  split; [exact H|].
  exact (proj2 (C6_corners asciiRunes cui 100 60 170 blockFace) H).
Defined.

(** On a source 15 pixels wide the margin of the code is 0 and the left
    labels start at [x = 0]; 0.05 × 15 = 0.75 rounds to 1. *)
Lemma C6_counterexample :
  map labelX
      (placements asciiRunes (solid 15 50 grey8) cui 60 "corners" blockFace)
  = [0; 12; 0; 12] /\
  marginX 15 = 0 /\
  specRoundedMargin 15 = 1.
Proof. vm_compute. repeat split. Qed.

Lemma C7_witness :
  (GoInt.inRange 100 /\ "middle" <> "corners") /\
  (labelCalls asciiRunes "middle" cui 100 60 170 blockFace =
     [ mkLabelCall (Text cui)
         (Z.quot 100 2
          - Z.quot (measureText asciiRunes blockFace (Text cui)) 2)
         (topY 60) (TextColor cui);
       mkLabelCall (Text cui)
         (Z.quot 100 2
          - Z.quot (measureText asciiRunes blockFace (Text cui)) 2)
         (botY 170 60) (TextColor cui) ] /\
   labelCalls asciiRunes "middle" cui 100 60 170 blockFace =
     labelCalls asciiRunes "center" cui 100 60 170 blockFace /\
   (forall img faceResult,
       annotate asciiRunes img cui 60 "middle" faceResult =
       annotate asciiRunes img cui 60 "center" faceResult)).
Proof.
  assert (H1 : GoInt.inRange 100) by by_computation.
  assert (H2 : "middle" <> "corners") by discriminate.
  split; [exact (conj H1 H2)|].
  exact (C7_center_and_fallback asciiRunes "middle" cui 100 60 170 blockFace
           H1 H2).
Defined.

Lemma world_fits : canvasesFit world cui 60.
Proof.
  intros tr p img fmt H. cbn in H. injection H as <- <-.
  vm_compute. intro H. discriminate H.
Defined.

(** The last scenario of the specification, with a subdirectory in place
    of the corrupt file: the two files are processed and the subdirectory
    is not. *)
Lemma C8_witness :
  (world [] (OsReadDir "dir") = RDir (Some threeEntries) /\
   canvasesFit world cui 60) /\
  exists outs tr' res,
    processDirectory asciiRunes joinSlash (fun p => p) world
                     "dir" cui "out" 60 "center" [] = (Some res, tr') /\
    Batch asciiRunes joinSlash (fun p => p) world cui "out" 60 "center"
          ([] ++ [(OsReadDir "dir", RDir (Some threeEntries))])
          (filePaths joinSlash "dir" threeEntries) outs tr' /\
    map fst outs = filePaths joinSlash "dir" threeEntries /\
    (res = Some ErrSomeImagesFailed <->
     exists p e, In (p, Some e) outs) /\
    (res = None <-> forall p r, In (p, r) outs -> r = None).
Proof.
  assert (H1 : world [] (OsReadDir "dir") = RDir (Some threeEntries))
    by reflexivity.
  split; [exact (conj H1 world_fits)|].
  exact (C8_batch_driver asciiRunes joinSlash (fun p => p) world
           "dir" cui "out" 60 "center" [] threeEntries H1 world_fits).
Defined.

Lemma C8_sample_run :
  filePaths joinSlash "dir" threeEntries = ["dir/a.png"; "dir/b.png"] /\
  fst (processDirectory asciiRunes joinSlash (fun p => p) world
         "dir" cui "out" 60 "center" []) = Some None.
Proof. vm_compute. split; reflexivity. Qed.

(** The batch scenario of the specification: three images and a corrupt
    file give three encoded images, one reported failure and the aggregate
    error. *)
Lemma C8_sample_partial_failure :
  let run := processDirectory asciiRunes joinSlash (fun p => p) worldCorrupt
               "dir" cui "out" 60 "center" [] in
  fst run = Some (Some ErrSomeImagesFailed) /\
  printed (snd run)
  = [ MsgClassified "dir/a.png"; MsgErrorProcessing "dir/bad.png" ErrDecode;
      MsgClassified "dir/b.png"; MsgClassified "dir/c.png" ] /\
  encodings (snd run) = 3%nat.
Proof. vm_compute. repeat split. Qed.

Lemma C9_witness :
  exists res seg,
    processImage asciiRunes joinSlash (fun p => p) world
                 "in.png" cui "out" 60 "center" []
    = (res, ([] ++ seg)%list) /\
    (forall img fmt,
        In (ImageDecode "in.png", RDecoded (Some (img, fmt))) seg ->
        (forall p out r, In (JpegEncode p out, r) seg -> fmt = "jpeg") /\
        (forall p out r, In (PngEncode p out, r) seg -> fmt = "png") /\
        (res = Some None ->
         exists face out,
           annotate asciiRunes img cui 60 "center" (Some face)
           = Canvas out /\
           (fmt = "jpeg" /\
            In (JpegEncode (joinSlash "out" "in.png") out, ROk true) seg \/
            fmt = "png" /\
            In (PngEncode (joinSlash "out" "in.png") out, ROk true) seg)) /\
        (fmt <> "jpeg" -> fmt <> "png" ->
         res = Some (Some (ErrUnsupportedFormat fmt)) /\
         forall c r, In (c, r) seg -> afterCanvas c = false)) /\
    (res = Some None ->
     exists img fmt,
       In (ImageDecode "in.png", RDecoded (Some (img, fmt))) seg).
Proof.
  exact (C9_format_preserved asciiRunes joinSlash (fun p => p) world
           "in.png" cui "out" 60 "center" []).
Defined.

(** An image of a format without encoder is turned down with the
    unsupported-format error, and a "png" image is written. *)
Lemma C9_sample_runs :
  fst (processImage asciiRunes joinSlash (fun p => p)
         (envOk scenario "gif" blockFace [])
         "in.gif" cui "out" 60 "center" [])
  = Some (Some (ErrUnsupportedFormat "gif")) /\
  fst (processImage asciiRunes joinSlash (fun p => p) world
         "in.png" cui "out" 60 "center" [])
  = Some None.
Proof. vm_compute. split; reflexivity. Qed.

Lemma C10_witness :
  (validInput scenario 60 /\ validBounds (image.Bounds scenarioMoved) /\
   translatedBy 7 (-3) scenario scenarioMoved) /\
  exists out1 out2,
    annotate asciiRunes scenario cui 60 "center" (Some blockFace)
    = Canvas out1 /\
    annotate asciiRunes scenarioMoved cui 60 "center" (Some blockFace)
    = Canvas out2 /\
    image.Min (image.RGBARect out1) = image.Pt 0 0 /\
    image.Min (image.RGBARect out2) = image.Pt 0 0 /\
    image.RGBARect out1 = image.RGBARect out2 /\
    forall x y, image.RGBAAt out1 x y = image.RGBAAt out2 x y.
Proof.
  assert (H2 : validBounds (image.Bounds scenarioMoved))
    by by_computation.
  assert (H3 : translatedBy 7 (-3) scenario scenarioMoved)
    by (split; [reflexivity|intros x y; reflexivity]).
  split; [exact (conj scenario_valid (conj H2 H3))|].
  exact (C10_origin_and_translation asciiRunes scenario scenarioMoved
           7 (-3) cui 60 "center" blockFace scenario_valid H2 H3).
Defined.

End SampleRuns.

(* ===================================================================== *)
(** ** The banner that [main] builds *)
(* ===================================================================== *)

Section BannerFacts.

(** [parseRGB] accepts exactly the triples of integers between 0 and 255
    and returns them unchanged as the three channels of an opaque colour:
    the conversions to [uint8] lose nothing. *)
Theorem parseRGB_exact (r g b : Z) (c : color.RGBA) :
  parseRGB (Some (r, g, b)) = Some c <->
  0 <= r <= 255 /\ 0 <= g <= 255 /\ 0 <= b <= 255 /\
  c = color.mkRGBA r g b 255.
Proof.
  cbn [parseRGB]. unfold parseRGB_scanned, uint8. split.
  - destruct (_ || _) eqn:E; [discriminate|].
    intros H. injection H as <-.
    rewrite !Z.mod_small by lia. repeat split; lia.
  - intros (Hr & Hg & Hb & ->).
    destruct (_ || _) eqn:E; [lia|].
    now rewrite !Z.mod_small by lia.
Qed.

(** Every banner that [main] hands to [processImage] has a text that is
    not empty and an opaque text colour; with the class ["custom"] the
    text and the two colours are those of the flags, never the entry
    ["custom"] of [bannerModes]. *)
Theorem resolveBanner_text (classFlag textFlag : string)
    (bgScan txtScan : option (Z * Z * Z)) (banner : BannerMode) :
  resolveBanner classFlag textFlag bgScan txtScan = Some banner ->
  Text banner <> EmptyString /\
  color.wf (TextColor banner) /\ color.A (TextColor banner) = 255 /\
  (classFlag = "custom" ->
   Text banner = textFlag /\
   parseRGB bgScan = Some (BgColor banner) /\
   parseRGB txtScan = Some (TextColor banner)).
Proof.
  unfold resolveBanner.
  destruct (String.eqb classFlag EmptyString); [discriminate|].
  destruct (String.eqb_spec classFlag "custom") as [Ec|Ec].
  - destruct (parseRGB bgScan) as [bg|] eqn:Eb; [|discriminate].
    destruct (parseRGB txtScan) as [tx|] eqn:Et; [|discriminate].
    destruct (String.eqb_spec textFlag EmptyString) as [E|E];
      [discriminate|].
    intros H. injection H as <-. cbn [Text TextColor BgColor].
    destruct (parseRGB_opaque _ _ Et) as [Hwf Ha].
    repeat split; try assumption; apply Hwf.
  - unfold bannerModes. cbn [mapIndex].
    repeat (destruct (String.eqb classFlag _);
            [intros H; injection H as <-; cbn;
             repeat split; try lia; try discriminate; contradiction|]).
    discriminate.
Qed.

End BannerFacts.

(* ===================================================================== *)
(** ** Centred labels and the panic of the canvas *)
(* ===================================================================== *)

Section PlacementFacts.
Import image.

(** In center mode a label of measured width [tw] is centred to the
    pixel: the space on its left and the space on its right differ by one
    pixel at most, and are equal when the width of the image and the
    width of the text have the same parity. *)
Theorem centerX_centred (width tw : Z) :
  0 <= width <= GoInt.maxInt -> 0 <= tw <= GoInt.maxInt ->
  let left := centerX width tw in
  let right := width - (centerX width tw + tw) in
  -1 <= right - left <= 1 /\
  (Z.even width = Z.even tw -> left = right).
Proof.
  unfold GoInt.maxInt. intros Hw Ht. cbv zeta.
  unfold centerX, GoInt.sub, GoInt.quot.
  rewrite !Z.quot_div_nonneg by lia.
  assert (H1 : 0 <= width / 2 <= width) by (Z.div_mod_to_equations; lia).
  assert (H2 : 0 <= tw / 2 <= tw) by (Z.div_mod_to_equations; lia).
  unwrap. split.
  - Z.div_mod_to_equations. lia.
  - intros H.
    assert (Hm : width mod 2 = tw mod 2) by now rewrite !Zmod_even, H.
    Z.div_mod_to_equations. lia.
Qed.

(** [processImage] panics in [image.NewRGBA] exactly when the pixels of
    the canvas, four bytes each, are more than [maxAlloc], the largest
    allocation of the runtime: above the largest [int] the panic is that
    of [pixelBufferLength], below it that of [make].  [processImage] has
    no error for an image that is too large. *)
Theorem buildCanvas_panics_iff (img : Image) (banner : BannerMode)
    (bh : Z) :
  validBounds (Bounds img) -> - coordLimit <= bh <= coordLimit ->
  (buildCanvas img banner bh = None <->
   maxAlloc < 4 * Dx (Bounds img) * Z.abs (Dy (Bounds img) + 2 * bh)).
Proof.
  intros Hb Hbh.
  destruct (Z_le_gt_dec
              (4 * Dx (Bounds img) * Z.abs (Dy (Bounds img) + 2 * bh))
              maxAlloc) as [Hfit|Hbig].
  - rewrite buildCanvas_eq by (try assumption; split; assumption).
    split; [discriminate|lia].
  - split; [lia|intros _].
    destruct (Dx_valid _ Hb) as [_ Hw]. destruct (Dy_valid _ Hb) as [_ Hh].
    unfold buildCanvas. rewrite newHeightOf_exact by assumption.
    set (w := Dx (Bounds img)) in *. set (h := Dy (Bounds img)) in *.
    assert (Hd : Dx (Rect 0 0 w (h + 2 * bh)) = w /\
                 Dy (Rect 0 0 w (h + 2 * bh)) = Z.abs (h + 2 * bh)).
    { destruct (Z_le_gt_dec 0 (h + 2 * bh)).
      - rewrite Rect_ordered by lia.
        unfold Dx, Dy, GoInt.sub; cbn [X Y Min Max].
        unfold coordLimit in *. unwrap. lia.
      - rewrite Rect_swapped_Y by lia.
        unfold Dx, Dy, GoInt.sub; cbn [X Y Min Max].
        unfold coordLimit in *. unwrap. lia. }
    unfold NewRGBA. destruct Hd as [-> ->]. cbv zeta.
    pose proof (Z.abs_nonneg (h + 2 * bh)) as Ha.
    destruct (Z_le_gt_dec (4 * w * Z.abs (h + 2 * bh)) GoInt.maxInt)
      as [Hint|Hover].
    + rewrite mul3NonNeg_fits by (try assumption; lia).
      destruct (4 * w * Z.abs (h + 2 * bh) <? 0); [reflexivity|].
      destruct (4 * w * Z.abs (h + 2 * bh) >? maxAlloc) eqn:E;
        [reflexivity|lia].
    + assert (Hm : mul3NonNeg 4 w (Z.abs (h + 2 * bh)) = -1).
      { unfold mul3NonNeg, coordLimit, GoInt.maxInt in *.
        destruct ((4 <? 0) || (w <? 0) || (Z.abs (h + 2 * bh) <? 0))
          eqn:E1; [reflexivity|].
        destruct (4 * w >=? 2 ^ 64) eqn:E2; [reflexivity|].
        rewrite (Z.mod_small (4 * w)) by lia.
        destruct (4 * w * Z.abs (h + 2 * bh) >=? 2 ^ 64) eqn:E3;
          [reflexivity|].
        unfold GoInt.wrap.
        replace ((4 * w * Z.abs (h + 2 * bh) + 2 ^ 63) mod 2 ^ 64)
          with (4 * w * Z.abs (h + 2 * bh) - 2 ^ 63).
        2:{ apply Z.mod_unique with (q := 1); lia. }
        destruct (4 * w * Z.abs (h + 2 * bh) - 2 ^ 63 - 2 ^ 63 <? 0)
          eqn:E4; [reflexivity|lia]. }
      rewrite Hm. reflexivity.
Qed.

End PlacementFacts.

Section CropFacts.
Import image.

Variable runesOf : string -> list font.rune.

(** The canvas of a banner height that is zero or negative, pixel by
    pixel: the banner rectangles are empty and the copy of the source is
    clipped to the canvas. *)
Lemma canvasOf_cropped (img : Image) (banner : BannerMode) (bh x y : Z) :
  validBounds (Bounds img) -> allocatable img bh ->
  bh <= 0 -> 1 <= Dy (Bounds img) + 2 * bh ->
  0 <= x < Dx (Bounds img) -> 0 <= y < Dy (Bounds img) + 2 * bh ->
  Pix (canvasOf img banner bh) x y =
  color.rgbaModel (At img (X (Min (Bounds img)) + x)
                          (Y (Min (Bounds img)) + (y - bh))).
Proof.
  intros Hb [Hbh Hal] Hneg Hnh Hx Hy.
  destruct (Dx_valid _ Hb) as [Ew Hw]. destruct (Dy_valid _ Hb) as [Eh Hh].
  unfold canvasOf. rewrite Draw_Src_Pix.
  set (w := Dx (Bounds img)) in *. set (h := Dy (Bounds img)) in *.
  rewrite Draw_Src_Rect, Draw_Src_Rect. cbn [RGBARect].
  rewrite (Rect_ordered 0 0 w (h + 2 * bh)) by lia.
  rewrite (Rect_ordered 0 bh w (bh + h)) by lia.
  destruct Hb as (B1 & B2 & B3 & B4 & B5 & B6).
  unfold coordLimit in *.
  set (canvas := mkRectangle (Pt 0 0) (Pt w (h + 2 * bh))).
  assert (E1 : Intersect (mkRectangle (Pt 0 bh) (Pt w (bh + h))) canvas
               = canvas).
  { rewrite Intersect_eq. unfold canvas; cbn [X Y Min Max].
    unfold Empty; cbn [X Y Min Max].
    destruct (_ || _) eqn:E; [lia|]. f_equal; f_equal; lia. }
  assert (E2 : Intersect canvas
                 (RectAdd (Bounds img)
                    (PointSub (Pt 0 bh) (Min (Bounds img))))
               = canvas).
  { rewrite Intersect_eq.
    unfold canvas; cbn [X Y Min Max RectAdd PointAdd PointSub].
    unfold GoInt.add, GoInt.sub. unwrap.
    unfold Empty; cbn [X Y Min Max].
    destruct (_ || _) eqn:E; [lia|]. f_equal; f_equal; lia. }
  unfold draw.clip. cbn [Min]. rewrite E1, E2.
  unfold canvas; cbn [X Y Min Max]. unfold GoInt.add, GoInt.sub. unwrap.
  replace (0 - 0) with 0 by lia. cbn [Z.eqb andb].
  assert (Hin : PointIn (Pt x y) (mkRectangle (Pt 0 0) (Pt w (h + 2 * bh)))
                = true).
  { unfold PointIn; cbn [X Y Min Max]. lia. }
  destruct (0 - bh =? 0) eqn:Eb.
  - rewrite Hin. unfold GoInt.add, GoInt.sub. cbn [X Y Min Max]. unwrap.
    f_equal. f_equal; lia.
  - rewrite Hin. unfold GoInt.add, GoInt.sub. cbn [X Y Min Max]. unwrap.
    f_equal. f_equal; lia.
Qed.

(** With a banner height that is zero or negative no banner is painted:
    the output is the source without its first and its last
    [-bannerHeight] rows, every pixel on which no label puts ink being the
    source pixel [-bannerHeight] rows below it, in the colour model of
    the canvas. *)
Theorem nonpositive_banner_crops (img : Image) (banner : BannerMode)
    (bh : Z) (loc : string) (face : font.Face) :
  validBounds (Bounds img) -> allocatable img bh ->
  bh <= 0 -> 1 <= Dy (Bounds img) + 2 * bh ->
  let cut := - bh in
  exists out,
    annotate runesOf img banner bh loc (Some face) = Canvas out /\
    RGBARect out =
      mkRectangle (Pt 0 0)
                  (Pt (Dx (Bounds img)) (Dy (Bounds img) - 2 * cut)) /\
    forall x y,
      0 <= x < Dx (Bounds img) ->
      0 <= y < Dy (Bounds img) - 2 * cut ->
      inkAt runesOf (RGBARect out) face
            (placements runesOf img banner bh loc face) x y = false ->
      RGBAAt out x y =
      color.rgbaModel (At img (X (Min (Bounds img)) + x)
                              (Y (Min (Bounds img)) + (y + cut))).
Proof.
  intros Hb Hal Hneg Hnh cut. subst cut.
  destruct (Dx_valid _ Hb) as [_ Hw].
  destruct (annotate_bounds runesOf img banner bh loc face Hb Hal)
    as (out & c & Hc & Hout & Ha & HRc & HR).
  rewrite buildCanvas_eq in Hc by assumption. injection Hc as <-.
  rewrite Rect_ordered in HRc by lia.
  exists out. split; [exact Ha|].
  replace (Dy (Bounds img) - 2 * - bh) with (Dy (Bounds img) + 2 * bh)
    by lia.
  split; [now rewrite HR|].
  intros x y Hx Hy Hink.
  rewrite (RGBAAt_inside out (Dx (Bounds img)) (Dy (Bounds img) + 2 * bh))
    by (try lia; now rewrite HR).
  subst out. unfold labelCanvas. rewrite drawLabels_no_ink.
  - rewrite canvasOf_cropped by assumption. f_equal; f_equal; lia.
  - unfold labelCanvas in HR, Hink. rewrite HR in Hink. exact Hink.
Qed.

End CropFacts.

(* ===================================================================== *)
(** ** The runs of [processImage], path by path *)
(* ===================================================================== *)

(** The answers recorded along a path, as equations on [asBool]. *)
Ltac bool_facts :=
  repeat match goal with
         | E : negb _ = true |- _ => apply negb_true_iff in E
         | E : negb _ = false |- _ => apply negb_false_iff in E
         end.

(** [sat] read as a statement on a run. *)
Lemma sat_run {A : Type} (m : IO A) (tr : list Event)
    (Q : option A -> list Event -> Prop) :
  sat m tr Q -> exists r seg, m tr = (r, (tr ++ seg)%list) /\ Q r seg.
Proof. intros H. exact H. Qed.

Section PipelineFacts.

Variable runesOf : string -> list font.rune.
Variable Join : string -> string -> string.
Variable Base : string -> string.
Variable env : list Event -> Call -> Resp.

Ltac paths :=
  apply sat_run;
  unfold processImage, loadFontFace, encode;
  repeat io_step env;
  repeat match goal with H : _ = env _ _ |- _ => clear H end;
  bool_facts.

(** [processImage] returns one of ten errors, the font errors wrapped in
    its own, and it panics only when [image.NewRGBA] does, for the image
    that it decoded. *)
Theorem processImage_outcomes (imagePath : string) (banner : BannerMode)
    (outputDir : string) (bh : Z) (loc : string) (tr : list Event) :
  exists res seg,
    processImage runesOf Join Base env imagePath banner outputDir bh loc tr
    = (res, (tr ++ seg)%list) /\
    (forall e, res = Some (Some e) -> processImageError e = true) /\
    (res = None ->
     exists img fmt r,
       In (ImageDecode imagePath, r) seg /\
       asDecoded r = Some (img, fmt) /\
       buildCanvas img banner bh = None).
Proof.
  paths.
  all: split;
    [ let e := fresh "e" in let H := fresh "H" in
      intros e H; try discriminate H; injection H as <-; reflexivity
    | let H := fresh "H" in
      intros H; try discriminate H ].
  all: match goal with
       | E : asDecoded ?r = Some (?i, ?s) |- _ =>
           exists i, s, r; split; [in_now|split; assumption]
       end.
Qed.

(** A run of [processImage] calls nothing but the input file, the output
    directory, the probe file and the output file in it, and the embedded
    font: it lists no directory, prints nothing, and removes no file but
    its probe. *)
Theorem processImage_footprint (imagePath : string) (banner : BannerMode)
    (outputDir : string) (bh : Z) (loc : string) (tr : list Event) :
  exists res seg,
    processImage runesOf Join Base env imagePath banner outputDir bh loc tr
    = (res, (tr ++ seg)%list) /\
    forall c r, In (c, r) seg -> touches Join Base imagePath outputDir c = true.
Proof.
  paths.
  all: let c := fresh "c" in let r := fresh "r" in let H := fresh "H" in
       intros c r H; in_cases H; injection H as <- _; cbn [touches];
       rewrite ?String.eqb_refl, ?orb_true_r; reflexivity.
Qed.

(** A run that ends before [os.MkdirAll] is called (the output directory
    is not writable, the input cannot be opened or decoded, its format is
    not supported, the font cannot be loaded, or [image.NewRGBA] panics)
    has created no directory, encoded nothing, and created no file but
    the probe. *)
Theorem processImage_failure_writes_nothing (imagePath : string)
    (banner : BannerMode) (outputDir : string) (bh : Z) (loc : string)
    (tr : list Event) :
  exists res seg,
    processImage runesOf Join Base env imagePath banner outputDir bh loc tr
    = (res, (tr ++ seg)%list) /\
    (res <> Some None -> res <> Some (Some ErrMkdirAll) ->
     res <> Some (Some ErrCreateOutput) -> res <> Some (Some ErrEncode) ->
     forall c r,
       In (c, r) seg ->
       producesOutput c = false /\
       forall p, c = OsCreate p -> p = Join outputDir "test_write.tmp").
Proof.
  paths.
  all: let H1 := fresh "H" in let H2 := fresh "H" in
       let H3 := fresh "H" in let H4 := fresh "H" in
       intros H1 H2 H3 H4; try congruence.
  all: let c := fresh "c" in let r := fresh "r" in let H := fresh "H" in
       intros c r H; in_cases H; injection H as <- _;
       (split; [reflexivity|]);
       let p := fresh "p" in let Hp := fresh "Hp" in
       intros p Hp; try discriminate Hp; injection Hp as <-; reflexivity.
Qed.

(** The deferred closes run last and in reverse order, on every path and
    when the run panics: once the input is open its close is the last
    call of the run, and the close of the output file comes just before
    it when the run got as far as encoding. *)
Theorem processImage_closes_files (imagePath : string) (banner : BannerMode)
    (outputDir : string) (bh : Z) (loc : string) (tr : list Event) :
  exists res seg,
    processImage runesOf Join Base env imagePath banner outputDir bh loc tr
    = (res, (tr ++ seg)%list) /\
    (forall r,
        In (OsOpen imagePath, r) seg -> asBool r = true ->
        exists seg' r', seg = (seg' ++ [(FileClose imagePath, r')])%list) /\
    (res = Some None \/ res = Some (Some ErrEncode) ->
     exists seg' r1 r2,
       seg = (seg' ++ [(FileClose (Join outputDir (Base imagePath)), r1);
                       (FileClose imagePath, r2)])%list).
Proof.
  paths.
  all: split.
  all: try (let H := fresh "H" in
            intros [H|H]; try discriminate H;
            match goal with
            | |- exists _ _ _, ?l = _ =>
                exists (removelast (removelast l)); do 2 eexists;
                cbn [removelast app]; reflexivity
            end).
  all: let r := fresh "r" in let H := fresh "H" in let Ht := fresh "Ht" in
       intros r H Ht;
       first [ match goal with
               | |- exists _ _, ?l = _ =>
                   exists (removelast l); eexists;
                   cbn [removelast app]; reflexivity
               end
             | in_cases H; try discriminate H; injection H as <-;
               congruence ].
Qed.

(** The writability probe.  A run starts with [os.Stat] on the output
    directory.  When the directory is missing nothing is probed or
    removed.  Otherwise the probe file is created next; if that fails the
    run ends there with the not-writable error, and if it succeeds the
    probe is closed and removed at once, and it is the only file that the
    run removes. *)
Theorem processImage_probe (imagePath : string) (banner : BannerMode)
    (outputDir : string) (bh : Z) (loc : string) (tr : list Event) :
  let testFile := Join outputDir "test_write.tmp" in
  exists res seg,
    processImage runesOf Join Base env imagePath banner outputDir bh loc tr
    = (res, (tr ++ seg)%list) /\
    exists notExist rest,
      seg = (OsStat outputDir, notExist) :: rest /\
      (asBool notExist = true -> removals seg = []) /\
      (asBool notExist = false ->
       exists created rest',
         rest = (OsCreate testFile, created) :: rest' /\
         (asBool created = false ->
          rest' = [] /\ res = Some (Some ErrNotWritable)) /\
         (asBool created = true ->
          removals seg = [testFile] /\
          exists r1 r2 rest'',
            rest' = (FileClose testFile, r1) :: (OsRemove testFile, r2)
                    :: rest'')).
Proof.
  intros testFile. subst testFile. paths.
  all: do 2 eexists; split; [reflexivity|].
  all: split;
    [ let H := fresh "H" in intros H; try congruence; reflexivity
    | let H := fresh "H" in intros H; try congruence ].
  all: do 2 eexists; split; [reflexivity|].
  all: split;
    [ let H := fresh "H" in intros H; try congruence; split; reflexivity
    | let H := fresh "H" in intros H; try congruence ].
  all: split; [reflexivity|]; do 3 eexists; reflexivity.
Qed.

(** [processImage] returns the not-writable error exactly in the runs
    that consist of two calls: [os.Stat] finds the output directory and
    the probe file cannot be created in it.  The input file is not opened
    then. *)
Theorem processImage_not_writable (imagePath : string) (banner : BannerMode)
    (outputDir : string) (bh : Z) (loc : string) (tr : list Event) :
  exists res seg,
    processImage runesOf Join Base env imagePath banner outputDir bh loc tr
    = (res, (tr ++ seg)%list) /\
    (res = Some (Some ErrNotWritable) <->
     exists notExist created,
       seg = [ (OsStat outputDir, notExist);
               (OsCreate (Join outputDir "test_write.tmp"), created) ] /\
       asBool notExist = false /\ asBool created = false).
Proof.
  paths.
  all: split;
    [ let H := fresh "H" in
      intros H;
      first [ discriminate H
            | do 2 eexists; split; [reflexivity|split; assumption] ]
    | let H := fresh "H" in
      intros (? & ? & H & ? & ?); try discriminate H;
      try reflexivity; injection H; intros; subst; congruence ].
Qed.

(** [loadFontFace] stops at the first of its three steps that fails and
    names it in its error; it returns the face of [opentype.NewFace] when
    the three succeed, and it never panics. *)
Theorem loadFontFace_steps (tr : list Event) :
  let fontFile := "fonts/DejaVuSans-Bold.ttf" in
  exists res seg,
    loadFontFace env tr = (res, (tr ++ seg)%list) /\
    exists rd,
      (res = Some (inl ErrReadFont) /\ asBool rd = false /\
       seg = [(FontDataReadFile fontFile, rd)]) \/
      asBool rd = true /\
      exists ps,
        (res = Some (inl ErrParseFont) /\ asBool ps = false /\
         seg = [(FontDataReadFile fontFile, rd); (OpentypeParse, ps)]) \/
        asBool ps = true /\
        exists nf,
          seg = [(FontDataReadFile fontFile, rd); (OpentypeParse, ps);
                 (OpentypeNewFace, nf)] /\
          res = Some (match asFace nf with
                      | Some face => inr face
                      | None => inl ErrCreateFace
                      end).
Proof.
  intros fontFile. subst fontFile. apply sat_run. unfold loadFontFace.
  repeat io_step env.
  all: repeat match goal with H : _ = env _ _ |- _ => clear H end.
  all: bool_facts.
  - exists r. left. repeat split; assumption.
  - exists r. right. split; [assumption|].
    exists r0. left. repeat split; assumption.
  - exists r. right. split; [assumption|].
    exists r0. right. split; [assumption|].
    exists r1. split; [reflexivity|]. now rewrite E1.
  - exists r. right. split; [assumption|].
    exists r0. right. split; [assumption|].
    exists r1. split; [reflexivity|]. now rewrite E1.
Qed.

(* ===================================================================== *)
(** ** The runs of [processDirectory] *)
(* ===================================================================== *)

Lemma sat_weaken {A : Type} (m : IO A) (tr : list Event)
    (Q1 Q2 : option A -> list Event -> Prop) :
  (forall r seg, Q1 r seg -> Q2 r seg) -> sat m tr Q1 -> sat m tr Q2.
Proof.
  intros HQ (r & seg & E & H). exists r, seg. split; [exact E|now apply HQ].
Qed.

Lemma listings_app (s1 s2 : list Event) :
  listings (s1 ++ s2) = (listings s1 ++ listings s2)%list.
Proof. apply flat_map_app. Qed.

Lemma listings_cons (c : Call) (r : Resp) (seg : list Event) :
  listings ((c, r) :: seg)
  = match c with
    | OsReadDir p => p :: listings seg
    | _ => listings seg
    end.
Proof. now destruct c. Qed.

Lemma printed_app (s1 s2 : list Event) :
  Samples.printed (s1 ++ s2)
  = (Samples.printed s1 ++ Samples.printed s2)%list.
Proof. apply flat_map_app. Qed.

(** A run of [processImage] lists no directory and prints nothing. *)
Lemma processImage_quiet (imagePath : string) (banner : BannerMode)
    (outputDir : string) (bh : Z) (loc : string) (tr : list Event) :
  sat (processImage runesOf Join Base env imagePath banner outputDir bh loc)
      tr (fun _ seg => listings seg = [] /\ Samples.printed seg = []).
Proof.
  unfold processImage, loadFontFace, encode.
  repeat io_step env.
  all: split; reflexivity.
Qed.

(** The loop of [processDirectory]: it lists no directory; when it ends
    it has printed one line for each file, in order, and [hasErrors] is
    still false only if it was and every line is a "Classified:" line. *)
Lemma processFiles_report (dirPath : string) (banner : BannerMode)
    (outputDir : string) (bh : Z) (loc : string) (files : list DirEntry) :
  forall tr hasErrors,
    sat (processFiles runesOf Join Base env dirPath banner outputDir bh loc
                      files hasErrors)
        tr (fun r seg =>
              listings seg = [] /\
              forall b, r = Some b ->
                map messagePath (Samples.printed seg)
                = filePaths Join dirPath files /\
                (b = false ->
                 hasErrors = false /\
                 Samples.printed seg
                 = map MsgClassified (filePaths Join dirPath files)) /\
                (b = true ->
                 hasErrors = true \/
                 exists p e,
                   In (MsgErrorProcessing p e) (Samples.printed seg))).
Proof.
  unfold filePaths.
  induction files as [|file files IH]; intros tr hasErrors.
  - apply sat_ret. split; [reflexivity|].
    intros b H. injection H as <-. cbn.
    repeat split; try assumption. now left.
  - cbn [processFiles filter map]. destruct (IsDir file); cbn [negb];
      [apply IH|].
    apply sat_bind.
    eapply sat_weaken; [|apply processImage_quiet].
    cbv beta. intros r seg1 [HL HP].
    destruct r as [[e|]|].
    + apply (sat_call_bind env).
      eapply sat_weaken; [|apply (IH _ true)].
      cbv beta. intros r2 seg2 [HL2 HB]. split.
      * rewrite listings_app, HL. cbn. exact HL2.
      * intros b Hb. destruct (HB b Hb) as (Hm & Hf & Ht).
        rewrite printed_app, HP. cbn [app Samples.printed flat_map fst map].
        fold (Samples.printed seg2). cbn [messagePath].
        split; [now rewrite Hm|]. split.
        -- intros ->. destruct (Hf eq_refl) as [Hc _]. discriminate Hc.
        -- intros _. right. exists (Join dirPath (Name file)), e. now left.
    + apply (sat_call_bind env).
      eapply sat_weaken; [|apply (IH _ hasErrors)].
      cbv beta. intros r2 seg2 [HL2 HB]. split.
      * rewrite listings_app, HL. cbn. exact HL2.
      * intros b Hb. destruct (HB b Hb) as (Hm & Hf & Ht).
        rewrite printed_app, HP. cbn [app Samples.printed flat_map fst map].
        fold (Samples.printed seg2). cbn [messagePath].
        split; [now rewrite Hm|]. split.
        -- intros Hb'. destruct (Hf Hb') as [Hh Hp]. split; [exact Hh|].
           now rewrite Hp.
        -- intros Hb'. destruct (Ht Hb') as [Hh|(p & e & Hin)];
             [now left|right]. exists p, e. now right.
    + split; [exact HL|]. intros b Hb. discriminate Hb.
Qed.

(** A run of [processDirectory]: the listing comes first and is the only
    one; when the directory can be listed and the run returns, the lines
    printed are one for each file. *)
Lemma processDirectory_run (dirPath : string) (banner : BannerMode)
    (outputDir : string) (bh : Z) (loc : string) (tr : list Event) :
  sat (processDirectory runesOf Join Base env dirPath banner outputDir bh
                        loc)
      tr (fun res seg =>
            (exists seg',
                seg = (OsReadDir dirPath, env tr (OsReadDir dirPath))
                      :: seg') /\
            listings seg = [dirPath] /\
            (res = Some None ->
             asDir (env tr (OsReadDir dirPath)) <> None) /\
            forall files,
              asDir (env tr (OsReadDir dirPath)) = Some files ->
              (res <> None ->
               map messagePath (Samples.printed seg)
               = filePaths Join dirPath files) /\
              (res = Some None ->
               Samples.printed seg
               = map MsgClassified (filePaths Join dirPath files)) /\
              (forall e, res = Some (Some e) ->
                 e = ErrSomeImagesFailed /\
                 exists p e',
                   In (MsgErrorProcessing p e') (Samples.printed seg))).
Proof.
  unfold processDirectory. apply (sat_call_bind env).
  destruct (asDir (env tr (OsReadDir dirPath))) as [files|] eqn:Hdir.
  - apply sat_bind.
    eapply sat_weaken; [|apply processFiles_report].
    cbv beta. intros r seg [HL HB].
    assert (HP : forall s : list Event,
               Samples.printed
                 ((OsReadDir dirPath, env tr (OsReadDir dirPath)) :: s)
               = Samples.printed s) by reflexivity.
    destruct r as [b|].
    + destruct (HB b eq_refl) as (Hm & Hf & Ht).
      destruct b; apply sat_ret; rewrite app_nil_r, HP;
        (split; [now eexists|]);
        (split; [now rewrite listings_cons, HL|]);
        (split; [discriminate|]);
        intros files' Hfiles; injection Hfiles as <-.
      * split; [intros _; exact Hm|]. split; [discriminate|].
        intros e H. injection H as <-. split; [reflexivity|].
        destruct (Ht eq_refl) as [H|H]; [discriminate H|exact H].
      * split; [intros _; exact Hm|]. split; [|discriminate].
        intros _. now apply Hf.
    + rewrite HP. split; [now eexists|].
      split; [now rewrite listings_cons, HL|].
      split; [discriminate|].
      intros files' _. split; [congruence|]. split; discriminate.
  - apply sat_ret. split; [now eexists|]. split; [reflexivity|].
    split; [discriminate|]. intros files H. discriminate H.
Qed.

(** [processDirectory] starts with the listing of its directory and
    lists no other directory: it does not descend into the
    subdirectories. *)
Theorem processDirectory_lists_once (dirPath : string) (banner : BannerMode)
    (outputDir : string) (bh : Z) (loc : string) (tr : list Event) :
  exists res seg,
    processDirectory runesOf Join Base env dirPath banner outputDir bh loc
                     tr = (res, (tr ++ seg)%list) /\
    (exists listed seg', seg = (OsReadDir dirPath, listed) :: seg') /\
    listings seg = [dirPath].
Proof.
  destruct (processDirectory_run dirPath banner outputDir bh loc tr)
    as (res & seg & E & (seg' & Hseg) & H & _).
  exists res, seg. split; [exact E|]. split; [|exact H].
  now exists (env tr (OsReadDir dirPath)), seg'.
Qed.

(** What [processDirectory] prints.  When it returns it has printed one
    line for each entry of the directory that is not a directory, in the
    order of the listing; it returns no error only if each of them is a
    "Classified:" line, and the error "some images failed to process" only
    if one of them is an "Error processing" line. *)
Theorem processDirectory_report (dirPath : string) (banner : BannerMode)
    (outputDir : string) (bh : Z) (loc : string) (tr : list Event)
    (files : list DirEntry) :
  asDir (env tr (OsReadDir dirPath)) = Some files ->
  exists res seg,
    processDirectory runesOf Join Base env dirPath banner outputDir bh loc
                     tr = (res, (tr ++ seg)%list) /\
    (res <> None ->
     map messagePath (Samples.printed seg) = filePaths Join dirPath files) /\
    (res = Some None ->
     Samples.printed seg = map MsgClassified (filePaths Join dirPath files)) /\
    (forall e, res = Some (Some e) ->
       e = ErrSomeImagesFailed /\
       exists p e', In (MsgErrorProcessing p e') (Samples.printed seg)).
Proof.
  intros Hdir.
  destruct (processDirectory_run dirPath banner outputDir bh loc tr)
    as (res & seg & E & _ & _ & _ & H).
  exists res, seg. split; [exact E|]. now apply H.
Qed.

Lemma processFiles_directories (dirPath : string) (banner : BannerMode)
    (outputDir : string) (bh : Z) (loc : string) (files : list DirEntry) :
  forallb IsDir files = true ->
  forall tr hasErrors,
    processFiles runesOf Join Base env dirPath banner outputDir bh loc
                 files hasErrors tr = (Some hasErrors, tr).
Proof.
  induction files as [|file files IH]; intros H tr hasErrors;
    [reflexivity|].
  cbn [forallb] in H. apply andb_true_iff in H. destruct H as [Hd Hfs].
  cbn [processFiles]. rewrite Hd. cbn [negb]. now apply IH.
Qed.

(** A directory without files, empty or with subdirectories only, is a
    success: [processDirectory] returns no error after the listing, its
    only call, and the output directory is not created. *)
Theorem processDirectory_nothing_to_do (dirPath : string)
    (banner : BannerMode) (outputDir : string) (bh : Z) (loc : string)
    (tr : list Event) (files : list DirEntry) :
  env tr (OsReadDir dirPath) = RDir (Some files) ->
  forallb IsDir files = true ->
  processDirectory runesOf Join Base env dirPath banner outputDir bh loc tr
  = (Some None, (tr ++ [(OsReadDir dirPath, RDir (Some files))])%list).
Proof.
  intros Hdir Hall. unfold processDirectory, bind at 1, call at 1.
  rewrite Hdir. cbn [asDir]. unfold bind.
  rewrite processFiles_directories by assumption. reflexivity.
Qed.

End PipelineFacts.

(* ===================================================================== *)
(** ** The runs of [main] *)
(* ===================================================================== *)

(** The steps of [main] that print, exit or go on. *)
Ltac prog :=
  cbv beta iota zeta delta [pbind Println printUsageAndExit osExit pret].

Section ProgFacts.

Lemma sysOf_app (o1 o2 : list Item) :
  sysOf (o1 ++ o2) = (sysOf o1 ++ sysOf o2)%list.
Proof. apply flat_map_app. Qed.

Lemma linesOf_app (o1 o2 : list Item) :
  linesOf (o1 ++ o2) = (linesOf o1 ++ linesOf o2)%list.
Proof. apply flat_map_app. Qed.

Lemma sysOf_lines (ls : list Line) : sysOf (map inl ls) = [].
Proof. induction ls; [reflexivity|exact IHls]. Qed.

Lemma sysOf_events (seg : list Event) : sysOf (map inr seg) = seg.
Proof. induction seg; [reflexivity|]. cbn. f_equal. exact IHseg. Qed.

Lemma linesOf_lines (ls : list Line) : linesOf (map inl ls) = ls.
Proof. induction ls; [reflexivity|]. cbn. f_equal. exact IHls. Qed.

Lemma linesOf_events (seg : list Event) : linesOf (map inr seg) = [].
Proof. induction seg; [reflexivity|exact IHseg]. Qed.

Lemma skipn_length_app {A : Type} (l l' : list A) :
  skipn (List.length l) (l ++ l') = l'.
Proof. induction l; [reflexivity|exact IHl]. Qed.

(** A computation on the outside world, run from [main]. *)
Lemma lift_run {A : Type} (m : IO A) (out : list Item) (r : option A)
    (seg : list Event) :
  m (sysOf out) = (r, (sysOf out ++ seg)%list) ->
  lift m out
  = (match r with Some a => inr a | None => inl Panic end,
     (out ++ map inr seg)%list).
Proof.
  intros E. unfold lift. rewrite E, skipn_length_app. now destruct r.
Qed.

Lemma pbind_unit (m : Prog unit) (out : list Item) :
  pbind m (fun _ => pret tt) out = m out.
Proof. unfold pbind, pret. now destruct (m out) as [[s|[]] o]. Qed.

End ProgFacts.

Section MainFacts.

Variable runesOf : string -> list font.rune.
Variable Join : string -> string -> string.
Variable Base : string -> string.
Variable env : list Event -> Call -> Resp.
Variable Sscanf : string -> option (Z * Z * Z).

Lemma fileMode_missing (fl : Flags) (banner : BannerMode)
    (out : list Item) :
  asBool (snd (statOf env out (fileFlag fl))) = true ->
  fileMode runesOf Join Base env fl banner out
  = (inl (OsExit 1),
     (out ++ [inr (statOf env out (fileFlag fl));
              inl (LnFileMissing (fileFlag fl))])%list).
Proof.
  intros H. unfold fileMode, pbind at 1.
  rewrite (lift_run (call env _) out (Some (env (sysOf out) _))
             [(OsStat (fileFlag fl), env (sysOf out) (OsStat (fileFlag fl)))])
    by reflexivity.
  cbn [statOf snd] in H. unfold pbind at 1. rewrite H.
  unfold pbind, Println, osExit. cbn [map]. now rewrite <- app_assoc.
Qed.

Lemma fileMode_run (fl : Flags) (banner : BannerMode) (out : list Item)
    (r : option (option Error)) (seg : list Event) :
  asBool (snd (statOf env out (fileFlag fl))) = false ->
  processImage runesOf Join Base env (fileFlag fl) banner (outputFlag fl)
               (bannerHeightFlag fl) (locFlag fl)
               (sysOf out ++ [statOf env out (fileFlag fl)])%list
  = (r, ((sysOf out ++ [statOf env out (fileFlag fl)]) ++ seg)%list) ->
  fileMode runesOf Join Base env fl banner out
  = (verdict r,
     (out ++ inr (statOf env out (fileFlag fl)) :: map inr seg
          ++ closing (LnFileFailed (fileFlag fl))
                     (LnFileClassified (fileFlag fl)) r)%list).
Proof.
  intros H E. unfold fileMode, pbind at 1.
  rewrite (lift_run (call env _) out (Some (env (sysOf out) _))
             [(OsStat (fileFlag fl), env (sysOf out) (OsStat (fileFlag fl)))])
    by reflexivity.
  cbn [statOf snd] in H. unfold pbind at 1. rewrite H.
  unfold pret at 1. unfold pbind at 1.
  erewrite lift_run.
  2:{ rewrite sysOf_app. cbn [map sysOf flat_map app]. exact E. }
  cbn [map]. rewrite <- app_assoc. cbn [app].
  destruct r as [[e|]|]; cbn [verdict closing];
    unfold pbind, Println, osExit, pret.
  - rewrite <- app_assoc. reflexivity.
  - rewrite <- app_assoc. reflexivity.
  - now rewrite app_nil_r.
Qed.

Lemma dirMode_missing (fl : Flags) (banner : BannerMode)
    (out : list Item) :
  asBool (snd (statOf env out (dirFlag fl))) = true ->
  dirMode runesOf Join Base env fl banner out
  = (inl (OsExit 1),
     (out ++ [inr (statOf env out (dirFlag fl));
              inl (LnDirMissing (dirFlag fl))])%list).
Proof.
  intros H. unfold dirMode, pbind at 1.
  rewrite (lift_run (call env _) out (Some (env (sysOf out) _))
             [(OsStat (dirFlag fl), env (sysOf out) (OsStat (dirFlag fl)))])
    by reflexivity.
  cbn [statOf snd] in H. unfold pbind at 1. rewrite H.
  unfold pbind, Println, osExit. cbn [map]. now rewrite <- app_assoc.
Qed.

Lemma dirMode_run (fl : Flags) (banner : BannerMode) (out : list Item)
    (r : option (option Error)) (seg : list Event) :
  asBool (snd (statOf env out (dirFlag fl))) = false ->
  processDirectory runesOf Join Base env (dirFlag fl) banner (outputFlag fl)
                   (bannerHeightFlag fl) (locFlag fl)
                   (sysOf out ++ [statOf env out (dirFlag fl)])%list
  = (r, ((sysOf out ++ [statOf env out (dirFlag fl)]) ++ seg)%list) ->
  dirMode runesOf Join Base env fl banner out
  = (verdict r,
     (out ++ inr (statOf env out (dirFlag fl)) :: map inr seg
          ++ closing (LnDirFailed (dirFlag fl))
                     (LnDirClassified (dirFlag fl)) r)%list).
Proof.
  intros H E. unfold dirMode, pbind at 1.
  rewrite (lift_run (call env _) out (Some (env (sysOf out) _))
             [(OsStat (dirFlag fl), env (sysOf out) (OsStat (dirFlag fl)))])
    by reflexivity.
  cbn [statOf snd] in H. unfold pbind at 1. rewrite H.
  unfold pret at 1. unfold pbind at 1.
  erewrite lift_run.
  2:{ rewrite sysOf_app. cbn [map sysOf flat_map app]. exact E. }
  cbn [map]. rewrite <- app_assoc. cbn [app].
  destruct r as [[e|]|]; cbn [verdict closing];
    unfold pbind, Println, osExit, pret.
  - rewrite <- app_assoc. reflexivity.
  - rewrite <- app_assoc. reflexivity.
  - now rewrite app_nil_r.
Qed.

Lemma dispatch_refused (fl : Flags) (banner : BannerMode)
    (out : list Item) :
  oneTarget fl = false ->
  dispatch runesOf Join Base env fl banner out
  = (inl (OsExit 1), (out ++ [inl LnFileOrDirectory; inl LnUsage])%list).
Proof.
  unfold oneTarget, dispatch. intros H.
  destruct (String.eqb (fileFlag fl) EmptyString),
           (String.eqb (dirFlag fl) EmptyString); try discriminate H;
    cbn [andb orb negb]; prog; now rewrite <- app_assoc.
Qed.

Lemma dispatch_file (fl : Flags) (banner : BannerMode) (out : list Item) :
  fileFlag fl <> EmptyString -> dirFlag fl = EmptyString ->
  dispatch runesOf Join Base env fl banner out
  = fileMode runesOf Join Base env fl banner out.
Proof.
  intros Hf Hd. unfold dispatch. rewrite Hd.
  apply String.eqb_neq in Hf. rewrite Hf. cbn [String.eqb andb orb negb].
  unfold pbind at 1. unfold pret at 1. apply pbind_unit.
Qed.

Lemma dispatch_dir (fl : Flags) (banner : BannerMode) (out : list Item) :
  fileFlag fl = EmptyString -> dirFlag fl <> EmptyString ->
  dispatch runesOf Join Base env fl banner out
  = dirMode runesOf Join Base env fl banner out.
Proof.
  intros Hf Hd. unfold dispatch. rewrite Hf.
  apply String.eqb_neq in Hd. rewrite Hd. cbn [String.eqb andb orb negb].
  reflexivity.
Qed.

(** The selection of the banner by [main] against [resolveBanner]: the
    flags that [resolveBanner] turns down end the program with status 1
    and lines of refusal only; the others lead to [dispatch] with the
    banner of [resolveBanner]. *)
Lemma main_selects (fl : Flags) :
  match bannerOf Sscanf fl with
  | None =>
      exists ls,
        main runesOf Join Base env Sscanf fl []
        = (inl (OsExit 1), map inl ls) /\
        forallb refusal ls = true
  | Some banner =>
      main runesOf Join Base env Sscanf fl []
      = dispatch runesOf Join Base env fl banner
                 (map inl (customWarnings fl))
  end.
Proof.
  unfold bannerOf, resolveBanner, main, selectBanner, customWarnings.
  destruct (String.eqb (classFlag fl) EmptyString) eqn:Ec.
  { exists [LnClassRequired; LnUsage]. split; reflexivity. }
  unfold pbind at 1. unfold pret at 1.
  destruct (String.eqb (classFlag fl) "custom") eqn:Ek.
  - destruct (parseRGB (Sscanf (bgColorFlag fl))) as [bg|].
    2:{ exists [LnBadBackground]. split; reflexivity. }
    destruct (parseRGB (Sscanf (txtColorFlag fl))) as [tx|].
    2:{ exists [LnBadTextColor]. split; reflexivity. }
    destruct (String.eqb (textFlag fl) EmptyString).
    { exists [LnTextRequired]. split; reflexivity. }
    destruct (String.eqb (bgColorFlag fl) EmptyString),
             (String.eqb (txtColorFlag fl) EmptyString); reflexivity.
  - destruct (mapIndex bannerModes (classFlag fl)) as [b|].
    + reflexivity.
    + exists [LnInvalidMode; LnUsage]. split; reflexivity.
Qed.

Lemma oneTarget_false (fl : Flags) :
  oneTarget fl = false <->
  (fileFlag fl = EmptyString <-> dirFlag fl = EmptyString).
Proof.
  unfold oneTarget.
  destruct (String.eqb_spec (fileFlag fl) EmptyString) as [Ef|Ef],
           (String.eqb_spec (dirFlag fl) EmptyString) as [Ed|Ed];
    cbn; split; try reflexivity; try discriminate; tauto.
Qed.

Lemma oneTarget_true (fl : Flags) :
  oneTarget fl = true ->
  fileFlag fl <> EmptyString /\ dirFlag fl = EmptyString \/
  fileFlag fl = EmptyString /\ dirFlag fl <> EmptyString.
Proof.
  unfold oneTarget.
  destruct (String.eqb_spec (fileFlag fl) EmptyString) as [Ef|Ef],
           (String.eqb_spec (dirFlag fl) EmptyString) as [Ed|Ed];
    cbn; try discriminate; tauto.
Qed.

(** The runs of [main] on flags that it accepts: the stat of the target
    follows the warnings, and either ends the run or is followed by the
    run of [processImage] or of [processDirectory] on the target. *)
Lemma main_accepted (fl : Flags) (banner : BannerMode) :
  bannerOf Sscanf fl = Some banner -> oneTarget fl = true ->
  let ws := map inl (customWarnings fl) in
  let run := main runesOf Join Base env Sscanf fl [] in
  (fileFlag fl <> EmptyString /\ dirFlag fl = EmptyString /\
   let stat := (OsStat (fileFlag fl), env [] (OsStat (fileFlag fl))) in
   (asBool (snd stat) = true /\
    run = (inl (OsExit 1),
           (ws ++ [inr stat; inl (LnFileMissing (fileFlag fl))])%list) \/
    asBool (snd stat) = false /\
    exists r seg,
      sat (processImage runesOf Join Base env (fileFlag fl) banner
                        (outputFlag fl) (bannerHeightFlag fl) (locFlag fl))
          [stat] (fun r' seg' => r' = r /\ seg' = seg) /\
      run = (verdict r,
             (ws ++ inr stat :: map inr seg
                 ++ closing (LnFileFailed (fileFlag fl))
                            (LnFileClassified (fileFlag fl)) r)%list))) \/
  (fileFlag fl = EmptyString /\ dirFlag fl <> EmptyString /\
   let stat := (OsStat (dirFlag fl), env [] (OsStat (dirFlag fl))) in
   (asBool (snd stat) = true /\
    run = (inl (OsExit 1),
           (ws ++ [inr stat; inl (LnDirMissing (dirFlag fl))])%list) \/
    asBool (snd stat) = false /\
    exists r seg,
      sat (processDirectory runesOf Join Base env (dirFlag fl) banner
                            (outputFlag fl) (bannerHeightFlag fl)
                            (locFlag fl))
          [stat] (fun r' seg' => r' = r /\ seg' = seg) /\
      run = (verdict r,
             (ws ++ inr stat :: map inr seg
                 ++ closing (LnDirFailed (dirFlag fl))
                            (LnDirClassified (dirFlag fl)) r)%list))).
Proof.
  intros Hb Hone ws run. subst ws run.
  pose proof (main_selects fl) as Hm. rewrite Hb in Hm.
  assert (Hws : sysOf (map inl (customWarnings fl)) = [])
    by apply sysOf_lines.
  destruct (oneTarget_true fl Hone) as [[Hf Hd]|[Hf Hd]]; [left|right];
    (split; [exact Hf|split; [exact Hd|]]); cbv zeta.
  - rewrite dispatch_file in Hm by assumption.
    destruct (asBool (env [] (OsStat (fileFlag fl)))) eqn:Est; [left|right];
      (split; [exact Est|]).
    + rewrite Hm, fileMode_missing; unfold statOf; rewrite Hws;
        [reflexivity|exact Est].
    + destruct (processImage_format runesOf Join Base env (fileFlag fl)
                  banner (outputFlag fl) (bannerHeightFlag fl) (locFlag fl)
                  [(OsStat (fileFlag fl), env [] (OsStat (fileFlag fl)))])
        as (r & seg & E & _).
      exists r, seg. split; [exists r, seg; now split|].
      rewrite Hm. rewrite (fileMode_run fl banner _ r seg);
        unfold statOf; rewrite Hws; [reflexivity|exact Est|exact E].
  - rewrite dispatch_dir in Hm by assumption.
    destruct (asBool (env [] (OsStat (dirFlag fl)))) eqn:Est; [left|right];
      (split; [exact Est|]).
    + rewrite Hm, dirMode_missing; unfold statOf; rewrite Hws;
        [reflexivity|exact Est].
    + destruct (processDirectory_run runesOf Join Base env (dirFlag fl)
                  banner (outputFlag fl) (bannerHeightFlag fl) (locFlag fl)
                  [(OsStat (dirFlag fl), env [] (OsStat (dirFlag fl)))])
        as (r & seg & E & _).
      exists r, seg. split; [exists r, seg; now split|].
      rewrite Hm. rewrite (dirMode_run fl banner _ r seg);
        unfold statOf; rewrite Hws; [reflexivity|exact Est|exact E].
Qed.

Lemma sysOf_accepted (ws : list Line) (stat : Event) (seg : list Event)
    (failure : Error -> Line) (classified : Line)
    (r : option (option Error)) :
  sysOf (map inl ws ++ inr stat :: map inr seg
           ++ closing failure classified r)
  = stat :: seg.
Proof.
  rewrite sysOf_app, sysOf_lines. cbn [app sysOf flat_map].
  fold (sysOf (map inr seg ++ closing failure classified r)).
  rewrite sysOf_app, sysOf_events.
  destruct r as [[e|]|]; cbn; now rewrite app_nil_r.
Qed.

Lemma linesOf_accepted (ws : list Line) (stat : Event) (seg : list Event)
    (failure : Error -> Line) (classified : Line)
    (r : option (option Error)) :
  linesOf (map inl ws ++ inr stat :: map inr seg
             ++ closing failure classified r)
  = (ws ++ linesOf (closing failure classified r))%list.
Proof.
  rewrite linesOf_app, linesOf_lines. cbn [app linesOf flat_map].
  fold (linesOf (map inr seg ++ closing failure classified r)).
  now rewrite linesOf_app, linesOf_events.
Qed.

(** A run of a computation is one run. *)
Lemma sat_same {A : Type} (m : IO A) (tr : list Event) (r : option A)
    (seg : list Event) (Q : option A -> list Event -> Prop) :
  sat m tr (fun r' seg' => r' = r /\ seg' = seg) -> sat m tr Q -> Q r seg.
Proof.
  intros (r1 & s1 & E1 & -> & ->) (r2 & s2 & E2 & H).
  rewrite E1 in E2. injection E2 as <- E2.
  apply app_inv_head in E2. now subst.
Qed.

(** Past [flag.Parse], [main] turns the flags down without a call to the
    outside world, and with the exit status 1, exactly when
    [resolveBanner] has no banner for them, or when they name both a file
    and a directory or none of them.  On all other flags the first call of
    the run is the [os.Stat] of the file or of the directory that they
    name. *)
Theorem main_refusal (fl : Flags) :
  let run := main runesOf Join Base env Sscanf fl [] in
  let refused :=
    bannerOf Sscanf fl = None \/
    (fileFlag fl = EmptyString <-> dirFlag fl = EmptyString) in
  let target :=
    if String.eqb (fileFlag fl) EmptyString then dirFlag fl
    else fileFlag fl in
  (refused <->
   exists out, run = (inl (OsExit 1), out) /\ sysOf out = []) /\
  (~ refused ->
   exists rest,
     sysOf (snd run) = (OsStat target, env [] (OsStat target)) :: rest).
Proof.
  cbv zeta. pose proof (main_selects fl) as Hm.
  destruct (bannerOf Sscanf fl) as [banner|] eqn:Hb.
  2:{ split; [|intros H; exfalso; apply H; now left].
      split; [intros _|intros _; now left].
      destruct Hm as (ls & E & _). exists (map inl ls).
      split; [exact E|apply sysOf_lines]. }
  destruct (oneTarget fl) eqn:Hone.
  - assert (Hsys :
      exists rest,
        sysOf (snd (main runesOf Join Base env Sscanf fl []))
        = (OsStat (if String.eqb (fileFlag fl) EmptyString
                   then dirFlag fl else fileFlag fl),
           env [] (OsStat (if String.eqb (fileFlag fl) EmptyString
                           then dirFlag fl else fileFlag fl))) :: rest).
    { destruct (main_accepted fl banner Hb Hone)
        as [(Hf & Hd & [[_ E']|(_ & r & seg & _ & E')])
           |(Hf & Hd & [[_ E']|(_ & r & seg & _ & E')])];
        rewrite E'; cbn [snd];
        try (apply String.eqb_neq in Hf; rewrite Hf);
        try (rewrite Hf; cbn [String.eqb]);
        try (rewrite sysOf_accepted; now eexists);
        rewrite sysOf_app, sysOf_lines; now eexists. }
    split; [|intros _; exact Hsys].
    split.
    + intros [H|H]; [discriminate H|].
      apply oneTarget_false in H. congruence.
    + intros (out & E & Hnone). exfalso.
      destruct Hsys as (rest & Hsys). rewrite E in Hsys. cbn [snd] in Hsys.
      rewrite Hnone in Hsys. discriminate Hsys.
  - split; [|intros H; exfalso; apply H; right; now apply oneTarget_false].
    split; [intros _|intros _; right; now apply oneTarget_false].
    rewrite dispatch_refused in Hm by assumption.
    eexists. split; [exact Hm|].
    rewrite sysOf_app, sysOf_lines. reflexivity.
Qed.

(** File mode.  On flags that select a banner and name a file only,
    [main] stats the file first.  If it does not exist the run ends with
    status 1 after that call.  Otherwise [processImage] is run once, on
    the file, with that banner and the values of the flags [-o], [-h] and
    [-l], and nothing else is called; [main] then returns after the line
    of success, exits with status 1 after the line of the error, or
    panics with [processImage]. *)
Theorem main_file_mode (fl : Flags) (banner : BannerMode) :
  bannerOf Sscanf fl = Some banner ->
  fileFlag fl <> EmptyString -> dirFlag fl = EmptyString ->
  let stat := (OsStat (fileFlag fl), env [] (OsStat (fileFlag fl))) in
  let ws := map inl (customWarnings fl) in
  if asBool (snd stat) then
    main runesOf Join Base env Sscanf fl []
    = (inl (OsExit 1),
       (ws ++ [inr stat; inl (LnFileMissing (fileFlag fl))])%list)
  else
    exists r seg,
      processImage runesOf Join Base env (fileFlag fl) banner
                   (outputFlag fl) (bannerHeightFlag fl) (locFlag fl) [stat]
      = (r, stat :: seg) /\
      main runesOf Join Base env Sscanf fl []
      = (verdict r,
         (ws ++ inr stat :: map inr seg
             ++ closing (LnFileFailed (fileFlag fl))
                        (LnFileClassified (fileFlag fl)) r)%list).
Proof.
  intros Hb Hf Hd stat ws. subst stat ws.
  assert (Hone : oneTarget fl = true).
  { unfold oneTarget. rewrite Hd. apply String.eqb_neq in Hf.
    now rewrite Hf. }
  destruct (main_accepted fl banner Hb Hone)
    as [(_ & _ & [[Est E]|(Est & r & seg & Hrun & E)])|(Hf' & _)];
    [| |contradiction]; cbv zeta in Est; cbn [snd] in *; rewrite Est.
  - exact E.
  - exists r, seg. split; [|exact E].
    destruct Hrun as (r' & seg' & Hrun & -> & ->). exact Hrun.
Qed.

(** Directory mode.  On flags that select a banner and name a directory
    only, [main] stats the directory first.  If it does not exist the run
    ends with status 1 after that call.  Otherwise [processDirectory] is
    run once, on the directory, with that banner and the values of the
    flags, and nothing else is called; [main] then returns after the line
    of success, exits with status 1 after the line of the error, or
    panics with [processDirectory]. *)
Theorem main_directory_mode (fl : Flags) (banner : BannerMode) :
  bannerOf Sscanf fl = Some banner ->
  fileFlag fl = EmptyString -> dirFlag fl <> EmptyString ->
  let stat := (OsStat (dirFlag fl), env [] (OsStat (dirFlag fl))) in
  let ws := map inl (customWarnings fl) in
  if asBool (snd stat) then
    main runesOf Join Base env Sscanf fl []
    = (inl (OsExit 1),
       (ws ++ [inr stat; inl (LnDirMissing (dirFlag fl))])%list)
  else
    exists r seg,
      processDirectory runesOf Join Base env (dirFlag fl) banner
                       (outputFlag fl) (bannerHeightFlag fl) (locFlag fl)
                       [stat]
      = (r, stat :: seg) /\
      main runesOf Join Base env Sscanf fl []
      = (verdict r,
         (ws ++ inr stat :: map inr seg
             ++ closing (LnDirFailed (dirFlag fl))
                        (LnDirClassified (dirFlag fl)) r)%list).
Proof.
  intros Hb Hf Hd stat ws. subst stat ws.
  assert (Hone : oneTarget fl = true).
  { unfold oneTarget. rewrite Hf. apply String.eqb_neq in Hd.
    now rewrite Hd. }
  destruct (main_accepted fl banner Hb Hone)
    as [(Hf' & _)|(_ & _ & [[Est E]|(Est & r & seg & Hrun & E)])];
    [contradiction| |]; cbv zeta in Est; cbn [snd] in *; rewrite Est.
  - exact E.
  - exists r, seg. split; [|exact E].
    destruct Hrun as (r' & seg' & Hrun & -> & ->). exact Hrun.
Qed.

(** The exit status 0 of a run that is past [flag.Parse].  Such a run
    ends with the status 0 only after a success: in file mode the file was
    decoded and its annotation with the banner of the flags was encoded,
    without error, to the file of the same base name in the output
    directory; in directory mode the directory was listed and the lines
    printed for its files are "Classified:" lines, one for each file.
    ([flag.Parse] itself ends the program with the status 0 on [-help],
    and with the status 2 on flags that it cannot parse.) *)
Theorem main_status_0 (fl : Flags) :
  let run := main runesOf Join Base env Sscanf fl [] in
  exitStatus (fst run) = 0 ->
  exists banner,
    bannerOf Sscanf fl = Some banner /\
    (fileFlag fl <> EmptyString /\ dirFlag fl = EmptyString /\
     (exists img fmt face canvas,
         In (ImageDecode (fileFlag fl), RDecoded (Some (img, fmt)))
            (sysOf (snd run)) /\
         annotate runesOf img banner (bannerHeightFlag fl) (locFlag fl)
                  (Some face) = Canvas canvas /\
         (In (JpegEncode (Join (outputFlag fl) (Base (fileFlag fl))) canvas,
              ROk true) (sysOf (snd run)) \/
          In (PngEncode (Join (outputFlag fl) (Base (fileFlag fl))) canvas,
              ROk true) (sysOf (snd run)))) \/
     fileFlag fl = EmptyString /\ dirFlag fl <> EmptyString /\
     (exists files listed,
         In (OsReadDir (dirFlag fl), listed) (sysOf (snd run)) /\
         asDir listed = Some files /\
         Samples.printed (sysOf (snd run))
         = map MsgClassified (filePaths Join (dirFlag fl) files))).
Proof.
  intros run E. subst run. pose proof (main_selects fl) as Hm.
  destruct (bannerOf Sscanf fl) as [banner|] eqn:Hb.
  2:{ destruct Hm as (ls & E' & _). rewrite E' in E. discriminate E. }
  exists banner. split; [reflexivity|].
  destruct (oneTarget fl) eqn:Hone.
  2:{ rewrite dispatch_refused in Hm by assumption.
      rewrite Hm in E. discriminate E. }
  destruct (main_accepted fl banner Hb Hone)
    as [(Hf & Hd & [[_ E']|(_ & r & seg & Hrun & E')])
       |(Hf & Hd & [[_ E']|(_ & r & seg & Hrun & E')])];
    rewrite E' in E |- *; try discriminate E;
    (destruct r as [[e|]|]; try discriminate E);
    cbn [snd]; rewrite sysOf_accepted; [left|right];
    (split; [exact Hf|split; [exact Hd|]]).
  - pose proof (sat_same _ _ _ _ _ Hrun
                  (processImage_format runesOf Join Base env _ _ _ _ _ _))
      as [Hdec Hok].
    destruct (Hok eq_refl) as (img & fmt & Hin).
    destruct (Hdec img fmt Hin) as (_ & _ & Henc & _).
    destruct (Henc eq_refl) as (face & canvas & Ha & Hw).
    exists img, fmt, face, canvas.
    split; [now right|]. split; [exact Ha|].
    destruct Hw as [[_ Hw]|[_ Hw]]; [left|right]; now right.
  - pose proof (sat_same _ _ _ _ _ Hrun
                  (processDirectory_run runesOf Join Base env _ _ _ _ _ _))
      as ((seg' & Hseg) & _ & Hlisted & Hrep).
    destruct (asDir (env [(OsStat (dirFlag fl), env [] (OsStat (dirFlag fl)))]
                         (OsReadDir (dirFlag fl)))) as [files|] eqn:Hdir.
    2:{ exfalso. now apply Hlisted. }
    destruct (Hrep files eq_refl) as (_ & Hp & _).
    exists files. eexists. split; [right; rewrite Hseg; now left|].
    split; [exact Hdir|]. now apply Hp.
Qed.

(** Two messages of [main] that no run prints with a [parseRGB] that
    turns the empty string down.  The second check of [exists] never
    fires; the line that asks for [-background-color] is printed only
    when that flag is empty and [parseRGB] has accepted the empty string,
    and so is the line that asks for [-text-color]. *)
Theorem main_unreachable_lines (fl : Flags) :
  let lines := linesOf (snd (main runesOf Join Base env Sscanf fl [])) in
  ~ In LnInvalidModeOrCustom lines /\
  (In LnBackgroundRequired lines ->
   bgColorFlag fl = EmptyString /\
   parseRGB (Sscanf EmptyString) <> None) /\
  (In LnTextColorRequired lines ->
   txtColorFlag fl = EmptyString /\
   parseRGB (Sscanf EmptyString) <> None).
Proof.
  intros lines.
  assert (Hlines :
    (forallb refusal lines = true) \/
    exists banner tail,
      bannerOf Sscanf fl = Some banner /\
      lines = (customWarnings fl ++ tail)%list /\
      forallb (fun l => match l with
                        | LnInvalidModeOrCustom | LnBackgroundRequired
                        | LnTextColorRequired => false
                        | _ => true
                        end) tail = true).
  { subst lines. pose proof (main_selects fl) as Hm.
    destruct (bannerOf Sscanf fl) as [banner|] eqn:Hb.
    2:{ left. destruct Hm as (ls & -> & Hr). cbn [snd].
        now rewrite linesOf_lines. }
    right. exists banner.
    destruct (oneTarget fl) eqn:Hone.
    2:{ rewrite dispatch_refused in Hm by assumption. rewrite Hm.
        cbn [snd]. rewrite linesOf_app, linesOf_lines.
        eexists. split; [reflexivity|]. split; reflexivity. }
    destruct (main_accepted fl banner Hb Hone)
      as [(_ & _ & [[_ E']|(_ & r & seg & _ & E')])
         |(_ & _ & [[_ E']|(_ & r & seg & _ & E')])];
      rewrite E'; cbn [snd];
      try (rewrite linesOf_accepted; eexists;
           split; [reflexivity|]; split; [reflexivity|];
           now destruct r as [[e|]|]);
      rewrite linesOf_app, linesOf_lines; eexists;
      (split; [reflexivity|]); split; reflexivity. }
  clearbody lines.
  destruct Hlines as [Hr|(banner & tail & Hb & -> & Ht)].
  - rewrite forallb_forall in Hr.
    split; [|split]; intros H; apply Hr in H; discriminate H.
  - rewrite forallb_forall in Ht.
    assert (Hw : forall l,
               In l (customWarnings fl ++ tail)%list ->
               l = LnInvalidModeOrCustom \/ l = LnBackgroundRequired \/
               l = LnTextColorRequired ->
               In l (customWarnings fl)).
    { intros l Hin Hl. apply in_app_or in Hin.
      destruct Hin as [Hin|Hin]; [exact Hin|].
      apply Ht in Hin. destruct Hl as [-> | [-> | ->]]; discriminate Hin. }
    unfold bannerOf, resolveBanner in Hb. unfold customWarnings in *.
    destruct (String.eqb (classFlag fl) EmptyString); [discriminate Hb|].
    destruct (String.eqb (classFlag fl) "custom").
    2:{ split; [|split]; intros H; (apply Hw in H; [destruct H|auto]). }
    destruct (parseRGB (Sscanf (bgColorFlag fl))) as [bg|] eqn:Ebg;
      [|discriminate Hb].
    destruct (parseRGB (Sscanf (txtColorFlag fl))) as [tx|] eqn:Etx;
      [|discriminate Hb].
    split; [|split].
    + intros H. apply Hw in H; [|auto].
      destruct (String.eqb (bgColorFlag fl) EmptyString),
               (String.eqb (txtColorFlag fl) EmptyString);
        cbn in H; intuition discriminate.
    + intros H. apply Hw in H; [|auto].
      destruct (String.eqb_spec (bgColorFlag fl) EmptyString) as [E|E].
      * split; [exact E|]. rewrite E in Ebg. congruence.
      * destruct (String.eqb (txtColorFlag fl) EmptyString);
          cbn in H; intuition discriminate.
    + intros H. apply Hw in H; [|auto].
      destruct (String.eqb_spec (txtColorFlag fl) EmptyString) as [E|E].
      * split; [exact E|]. rewrite E in Etx. congruence.
      * destruct (String.eqb (bgColorFlag fl) EmptyString);
          cbn in H; intuition discriminate.
Qed.

End MainFacts.

(* ===================================================================== *)
(** ** These properties on sample inputs *)
(* ===================================================================== *)

Section MoreSampleRuns.
Import Samples Cases.

Lemma resolveBanner_text_witness :
  resolveBanner "cui" EmptyString None None = Some cui /\
  (Text cui <> EmptyString /\
   color.wf (TextColor cui) /\ color.A (TextColor cui) = 255 /\
   ("cui" = "custom" ->
    Text cui = EmptyString /\
    parseRGB None = Some (BgColor cui) /\
    parseRGB None = Some (TextColor cui))).
Proof.
  assert (H : resolveBanner "cui" EmptyString None None = Some cui)
    by reflexivity.
  split; [exact H|].
  exact (resolveBanner_text "cui" EmptyString None None cui H).
Defined.

(** A text of 3 pixels on an image 100 pixels wide starts at [x = 49]:
    49 pixels on its left and 48 on its right. *)
Lemma centerX_centred_witness :
  (0 <= 100 <= GoInt.maxInt /\ 0 <= 3 <= GoInt.maxInt) /\
  (-1 <= (100 - (centerX 100 3 + 3)) - centerX 100 3 <= 1 /\
   (Z.even 100 = Z.even 3 -> centerX 100 3 = 100 - (centerX 100 3 + 3))).
Proof.
  assert (H1 : 0 <= 100 <= GoInt.maxInt) by by_computation.
  assert (H2 : 0 <= 3 <= GoInt.maxInt) by by_computation.
  split; [exact (conj H1 H2)|].
  exact (centerX_centred 100 3 H1 H2).
Defined.

(** With banners of 2^40 rows the canvas of the 100 by 50 source needs
    more than 2^49 bytes: [make] panics, although the length fits in an
    [int]. *)
Lemma buildCanvas_panics_iff_witness :
  (validBounds (image.Bounds scenario) /\
   - coordLimit <= 2 ^ 40 <= coordLimit) /\
  buildCanvas scenario cui (2 ^ 40) = None /\
  4 * image.Dx (image.Bounds scenario)
    * Z.abs (image.Dy (image.Bounds scenario) + 2 * 2 ^ 40)
  <= GoInt.maxInt.
Proof.
  assert (H1 : validBounds (image.Bounds scenario)) by by_computation.
  assert (H2 : - coordLimit <= 2 ^ 40 <= coordLimit) by by_computation.
  split; [exact (conj H1 H2)|]. split.
  - apply (proj2 (buildCanvas_panics_iff scenario cui (2 ^ 40) H1 H2)).
    vm_compute. reflexivity.
  - by_computation.
Defined.

(** The canvas is refused with a panic by [pixelBufferLength] for a
    source 2^31 pixels wide and 2^31 pixels high, and by [make] for
    banners of 2^40 rows; it is allocated for the banners of 60 rows of
    the scenario.  The run of [processImage] that decodes the first source
    panics. *)
Lemma buildCanvas_panics_sample :
  buildCanvas (solid (2 ^ 31) (2 ^ 31) grey8) cui 60 = None /\
  buildCanvas scenario cui (2 ^ 40) = None /\
  buildCanvas scenario cui 60 <> None /\
  fst (processImage asciiRunes joinSlash (fun p => p)
         (envOk (solid (2 ^ 31) (2 ^ 31) grey8) "png" blockFace [])
         "in.png" cui "out" 60 "center" [])
  = None.
Proof.
  vm_compute. repeat split. intro H. discriminate H.
Qed.

(** With [-h -10] the 100 by 50 source comes out 100 by 30, without its
    first and last ten rows. *)
Lemma nonpositive_banner_crops_witness :
  (validBounds (image.Bounds scenario) /\ allocatable scenario (-10) /\
   -10 <= 0 /\ 1 <= image.Dy (image.Bounds scenario) + 2 * -10) /\
  exists out,
    annotate asciiRunes scenario cui (-10) "center" (Some blockFace)
    = Canvas out /\
    image.RGBARect out =
      image.mkRectangle
        (image.Pt 0 0)
        (image.Pt (image.Dx (image.Bounds scenario))
                  (image.Dy (image.Bounds scenario) - 2 * - -10)) /\
    forall x y,
      0 <= x < image.Dx (image.Bounds scenario) ->
      0 <= y < image.Dy (image.Bounds scenario) - 2 * - -10 ->
      inkAt asciiRunes (image.RGBARect out) blockFace
            (placements asciiRunes scenario cui (-10) "center" blockFace)
            x y = false ->
      image.RGBAAt out x y =
      color.rgbaModel
        (image.At scenario
           (image.X (image.Min (image.Bounds scenario)) + x)
           (image.Y (image.Min (image.Bounds scenario)) + (y + - -10))).
Proof.
  assert (H1 : validBounds (image.Bounds scenario)) by by_computation.
  assert (H2 : allocatable scenario (-10)) by by_computation.
  assert (H3 : -10 <= 0) by by_computation.
  assert (H4 : 1 <= image.Dy (image.Bounds scenario) + 2 * -10)
    by by_computation.
  split; [exact (conj H1 (conj H2 (conj H3 H4)))|].
  exact (nonpositive_banner_crops asciiRunes scenario cui (-10) "center"
           blockFace H1 H2 H3 H4).
Defined.

Lemma processDirectory_report_witness :
  asDir (world [] (OsReadDir "dir")) = Some threeEntries /\
  exists res seg,
    processDirectory asciiRunes joinSlash (fun p => p) world
                     "dir" cui "out" 60 "center" []
    = (res, ([] ++ seg)%list) /\
    (res <> None ->
     map messagePath (printed seg) = filePaths joinSlash "dir" threeEntries) /\
    (res = Some None ->
     printed seg
     = map MsgClassified (filePaths joinSlash "dir" threeEntries)) /\
    (forall e, res = Some (Some e) ->
       e = ErrSomeImagesFailed /\
       exists p e', In (MsgErrorProcessing p e') (printed seg)).
Proof.
  assert (H : asDir (world [] (OsReadDir "dir")) = Some threeEntries)
    by reflexivity.
  split; [exact H|].
  exact (processDirectory_report asciiRunes joinSlash (fun p => p) world
           "dir" cui "out" 60 "center" [] threeEntries H).
Defined.

Lemma processDirectory_nothing_to_do_witness :
  (worldOf onlySubdirs [] (OsReadDir "dir") = RDir (Some onlySubdirs) /\
   forallb IsDir onlySubdirs = true) /\
  processDirectory asciiRunes joinSlash (fun p => p) (worldOf onlySubdirs)
                   "dir" cui "out" 60 "center" []
  = (Some None, ([] ++ [(OsReadDir "dir", RDir (Some onlySubdirs))])%list).
Proof.
  assert (H1 : worldOf onlySubdirs [] (OsReadDir "dir")
               = RDir (Some onlySubdirs)) by reflexivity.
  assert (H2 : forallb IsDir onlySubdirs = true) by reflexivity.
  split; [exact (conj H1 H2)|].
  exact (processDirectory_nothing_to_do asciiRunes joinSlash (fun p => p)
           (worldOf onlySubdirs) "dir" cui "out" 60 "center" []
           onlySubdirs H1 H2).
Defined.

Lemma main_file_mode_witness :
  (bannerOf scanRGB fileFlags = Some cui /\
   fileFlag fileFlags <> EmptyString /\ dirFlag fileFlags = EmptyString) /\
  exists r seg,
    processImage asciiRunes joinSlash (fun p => p) (worldOf [])
                 "in.png" cui "out" 60 "center"
                 [(OsStat "in.png", ROk false)]
    = (r, (OsStat "in.png", ROk false) :: seg) /\
    main asciiRunes joinSlash (fun p => p) (worldOf []) scanRGB fileFlags []
    = (verdict r,
       (map inl (customWarnings fileFlags)
        ++ inr (OsStat "in.png", ROk false) :: map inr seg
        ++ closing (LnFileFailed "in.png") (LnFileClassified "in.png") r)
       %list).
Proof.
  assert (H1 : bannerOf scanRGB fileFlags = Some cui) by reflexivity.
  assert (H2 : fileFlag fileFlags <> EmptyString) by discriminate.
  assert (H3 : dirFlag fileFlags = EmptyString) by reflexivity.
  split; [exact (conj H1 (conj H2 H3))|].
  exact (main_file_mode asciiRunes joinSlash (fun p => p) (worldOf [])
           scanRGB fileFlags cui H1 H2 H3).
Defined.

Lemma main_directory_mode_witness :
  (bannerOf scanRGB dirFlags = Some secret /\
   fileFlag dirFlags = EmptyString /\ dirFlag dirFlags <> EmptyString) /\
  exists r seg,
    processDirectory asciiRunes joinSlash (fun p => p)
                     (worldOf threeEntries)
                     "dir" secret "out" 60 "corners"
                     [(OsStat "dir", ROk false)]
    = (r, (OsStat "dir", ROk false) :: seg) /\
    main asciiRunes joinSlash (fun p => p) (worldOf threeEntries) scanRGB
         dirFlags []
    = (verdict r,
       (map inl (customWarnings dirFlags)
        ++ inr (OsStat "dir", ROk false) :: map inr seg
        ++ closing (LnDirFailed "dir") (LnDirClassified "dir") r)%list).
Proof.
  assert (H1 : bannerOf scanRGB dirFlags = Some secret) by reflexivity.
  assert (H2 : fileFlag dirFlags = EmptyString) by reflexivity.
  assert (H3 : dirFlag dirFlags <> EmptyString) by discriminate.
  split; [exact (conj H1 (conj H2 H3))|].
  exact (main_directory_mode asciiRunes joinSlash (fun p => p)
           (worldOf threeEntries) scanRGB dirFlags secret H1 H2 H3).
Defined.

Lemma main_status_0_witness :
  let run :=
    main asciiRunes joinSlash (fun p => p) (worldOf []) scanRGB fileFlags []
  in
  exitStatus (fst run) = 0 /\
  exists banner,
    bannerOf scanRGB fileFlags = Some banner /\
    (fileFlag fileFlags <> EmptyString /\
     dirFlag fileFlags = EmptyString /\
     (exists img fmt face canvas,
         In (ImageDecode (fileFlag fileFlags), RDecoded (Some (img, fmt)))
            (sysOf (snd run)) /\
         annotate asciiRunes img banner (bannerHeightFlag fileFlags)
                  (locFlag fileFlags) (Some face) = Canvas canvas /\
         (In (JpegEncode (joinSlash (outputFlag fileFlags)
                                    (fileFlag fileFlags)) canvas,
              ROk true) (sysOf (snd run)) \/
          In (PngEncode (joinSlash (outputFlag fileFlags)
                                   (fileFlag fileFlags)) canvas,
              ROk true) (sysOf (snd run)))) \/
     fileFlag fileFlags = EmptyString /\
     dirFlag fileFlags <> EmptyString /\
     (exists files listed,
         In (OsReadDir (dirFlag fileFlags), listed) (sysOf (snd run)) /\
         asDir listed = Some files /\
         printed (sysOf (snd run))
         = map MsgClassified
               (filePaths joinSlash (dirFlag fileFlags) files))).
Proof.
  assert (H : exitStatus
                (fst (main asciiRunes joinSlash (fun p => p) (worldOf [])
                           scanRGB fileFlags [])) = 0)
    by (vm_compute; reflexivity).
  split; [exact H|].
  exact (main_status_0 asciiRunes joinSlash (fun p => p) (worldOf [])
           scanRGB fileFlags H).
Defined.

(** The runs of [main] on the flags of the samples, on flags without
    class, on a class that does not exist, on a custom banner without
    text and on a file that does not exist: the exit status and the lines
    printed. *)
Lemma main_sample_runs :
  let run fl env :=
    let r := main asciiRunes joinSlash (fun p => p) env scanRGB fl [] in
    (exitStatus (fst r), linesOf (snd r)) in
  run fileFlags (worldOf []) = (0, [LnFileClassified "in.png"]) /\
  run dirFlags (worldOf threeEntries) = (0, [LnDirClassified "dir"]) /\
  run (mkFlags EmptyString "in.png" EmptyString "out" 60 "center"
               EmptyString "255,0,0" "255,255,255") (worldOf [])
  = (1, [LnClassRequired; LnUsage]) /\
  run (mkFlags EmptyString "in.png" "CUI" "out" 60 "center"
               EmptyString "255,0,0" "255,255,255") (worldOf [])
  = (1, [LnInvalidMode; LnUsage]) /\
  run (mkFlags EmptyString "in.png" "custom" "out" 60 "center"
               EmptyString "255,0,0" "255,255,255") (worldOf [])
  = (1, [LnTextRequired]) /\
  run (mkFlags EmptyString "in.png" "custom" "out" 60 "center"
               "SENSITIVE" "255,255,0" "0,0,0") (worldOf [])
  = (0, [LnFileClassified "in.png"]) /\
  run (mkFlags EmptyString "in.png" "custom" "out" 60 "center"
               "SENSITIVE" "yellow" "0,0,0") (worldOf [])
  = (1, [LnBadBackground]) /\
  run (mkFlags "dir" "in.png" "cui" "out" 60 "center"
               EmptyString "255,0,0" "255,255,255") (worldOf [])
  = (1, [LnFileOrDirectory; LnUsage]) /\
  run fileFlags world = (1, [LnFileMissing "in.png"]) /\
  run fileFlags
      (fun tr c => match c with
                   | ImageDecode _ => RDecoded None
                   | _ => worldOf [] tr c
                   end)
  = (1, [LnFileFailed "in.png" ErrDecode]) /\
  run fileFlags
      (fun tr c => match c with
                   | ImageDecode _ =>
                       RDecoded (Some (solid (2 ^ 31) (2 ^ 31) grey8, "png"))
                   | _ => worldOf [] tr c
                   end)
  = (2, []).
Proof. vm_compute. repeat split. Qed.

End MoreSampleRuns.
